(** * Marketing API recipes: the partnership-ads booster and the CPAS client

    A shallow embedding of
    - [stats_for_dashboards/partnership_ads_booster.py]: the shortcode
      extractor, the paginated listing loop, the four remote stages and
      the per-row CSV pipeline;
    - [cpas_demos/shared/cpas_api_client.py]: the request wrapper
      [make_api_request].

    Python values are dynamically typed, so the embedding works over one
    type [pyval] of values and lets every operation that Python checks at
    run time return a [result], whose [Raise] carries the exception.
    Remote calls go through an oracle that sees the requests issued so
    far; the list of issued requests is the state every function threads.
    [print] statements have no effect on any value and are left out. *)

From stdpp Require Import gmap strings list.
From Stdlib Require Import ZArith Ascii String DecimalString.

Open Scope string_scope.
Set Warnings "-register-all".

(* ===================================================================== *)
(** ** Python values *)
(* ===================================================================== *)

(** The values the code handles: CSV cells, decoded JSON, and the [None]
    defaults.  A JSON object keeps its keys in document order (iteration
    and [', '.join] see that order).  JSON numbers are the integers. *)
Inductive pyval : Type :=
| PNone
| PBool (b : bool)
| PInt (z : Z)
| PStr (s : string)
| PList (l : list pyval)
| PDict (d : list (string * pyval)).

(** An exception instance: the classes the [except] clauses of the code
    discriminate on, and [str(e)]. *)
Record exn : Type := Exn {
  exn_is_request_exception : bool;   (* isinstance(e, requests.exceptions.RequestException) *)
  exn_is_value_error : bool;         (* isinstance(e, ValueError) *)
  exn_str : string                   (* str(e) *)
}.

(** How a computation ends: with a value, with an exception that an
    [except Exception] clause may catch, or with [sys.exit(code)], which
    no such clause catches. *)
Inductive result (A : Type) : Type :=
| Ok (a : A)
| Raise (e : exn)
| Exit (code : Z).
Arguments Ok {A} a.
Arguments Raise {A} e.
Arguments Exit {A} code.

Definition result_bind {A B} (r : result A) (k : A -> result B) : result B :=
  match r with
  | Ok a => k a
  | Raise e => Raise e
  | Exit c => Exit c
  end.

Notation "x <~ r ;; k" := (result_bind r (fun x => k))
  (at level 62, r at next level, right associativity).

Definition ValueError (msg : string) : exn := Exn false true msg.
Definition TypeError (msg : string) : exn := Exn false false msg.
Definition AttributeError (msg : string) : exn := Exn false false msg.
Definition KeyError (msg : string) : exn := Exn false false msg.
Definition IndexError (msg : string) : exn := Exn false false msg.

(** [bool(v)] *)
Definition truthy (v : pyval) : bool :=
  match v with
  | PNone => false
  | PBool b => b
  | PInt z => negb (z =? 0)%Z
  | PStr s => negb (s =? "")
  | PList l => match l with [] => false | _ => true end
  | PDict d => match d with [] => false | _ => true end
  end.

(** [a or b] *)
Definition py_or (a b : pyval) : pyval := if truthy a then a else b.

(** [type(v).__name__] *)
Definition type_name (v : pyval) : string :=
  match v with
  | PNone => "NoneType"
  | PBool _ => "bool"
  | PInt _ => "int"
  | PStr _ => "str"
  | PList _ => "list"
  | PDict _ => "dict"
  end.

Definition string_of_Z (z : Z) : string := NilEmpty.string_of_int (Z.to_int z).

(* ===================================================================== *)
(** ** Strings *)
(* ===================================================================== *)

(** Strings are byte strings (UTF-8).  Every character the code looks for
    is ASCII, and no ASCII byte occurs inside a multi-byte sequence, so
    searching and stripping bytes agrees with Python's code points. *)

(** [s.startswith(p)], returning the rest of [s] *)
Fixpoint strip_prefix (p s : string) : option string :=
  match p with
  | EmptyString => Some s
  | String a p' =>
      match s with
      | EmptyString => None
      | String b s' => if Ascii.eqb a b then strip_prefix p' s' else None
      end
  end.

(** [sub in s] on two strings *)
Fixpoint str_contains (sub s : string) : bool :=
  match strip_prefix sub s with
  | Some _ => true
  | None =>
      match s with
      | EmptyString => false
      | String _ s' => str_contains sub s'
      end
  end.

(** [s.lstrip(c)] for a one-character set *)
Fixpoint lstrip (c : ascii) (s : string) : string :=
  match s with
  | EmptyString => EmptyString
  | String a s' => if Ascii.eqb a c then lstrip c s' else s
  end.

(** [s.rstrip(c)] for a one-character set *)
Fixpoint rstrip (c : ascii) (s : string) : string :=
  match s with
  | EmptyString => EmptyString
  | String a s' =>
      match rstrip c s' with
      | EmptyString => if Ascii.eqb a c then EmptyString else String a EmptyString
      | r => String a r
      end
  end.

(** [s.strip(c)]: every leading and every trailing [c] goes *)
Definition strip (c : ascii) (s : string) : string := rstrip c (lstrip c s).

(** [sep.join(l)] on strings *)
Fixpoint join (sep : string) (l : list string) : string :=
  match l with
  | [] => ""
  | [x] => x
  | x :: rest => x ++ sep ++ join sep rest
  end.

(** the characters of a string, each a one-character [str] *)
Fixpoint chars (s : string) : list pyval :=
  match s with
  | EmptyString => []
  | String a s' => PStr (String a EmptyString) :: chars s'
  end.

(* ===================================================================== *)
(** ** Run-time checked operations *)
(* ===================================================================== *)

Fixpoint dict_lookup (key : string) (d : list (string * pyval)) : option pyval :=
  match d with
  | [] => None
  | (k, v) :: d' => if String.eqb k key then Some v else dict_lookup key d'
  end.

Definition is_str (key : string) (v : pyval) : bool :=
  match v with
  | PStr s => String.eqb s key
  | _ => false
  end.

(** [key in v] for a string [key] *)
Definition py_in (key : string) (v : pyval) : result bool :=
  match v with
  | PDict d => Ok (match dict_lookup key d with Some _ => true | None => false end)
  | PList l => Ok (existsb (is_str key) l)
  | PStr s => Ok (str_contains key s)
  | _ => Raise (TypeError ("argument of type '" ++ type_name v ++ "' is not iterable"))
  end.

(** [v[key]] for a string [key] *)
Definition py_getitem (v : pyval) (key : string) : result pyval :=
  match v with
  | PDict d =>
      match dict_lookup key d with
      | Some x => Ok x
      | None => Raise (KeyError ("'" ++ key ++ "'"))
      end
  | PList _ => Raise (TypeError "list indices must be integers or slices, not str")
  | PStr _ => Raise (TypeError "string indices must be integers, not 'str'")
  | _ => Raise (TypeError ("'" ++ type_name v ++ "' object is not subscriptable"))
  end.

(** [v[0]] *)
Definition py_getitem0 (v : pyval) : result pyval :=
  match v with
  | PList (x :: _) => Ok x
  | PList [] => Raise (IndexError "list index out of range")
  | PStr (String a _) => Ok (PStr (String a EmptyString))
  | PStr EmptyString => Raise (IndexError "string index out of range")
  | PDict _ => Raise (KeyError "0")
  | _ => Raise (TypeError ("'" ++ type_name v ++ "' object is not subscriptable"))
  end.

(** [len(v)] *)
Definition py_len (v : pyval) : result Z :=
  match v with
  | PList l => Ok (Z.of_nat (List.length l))
  | PDict d => Ok (Z.of_nat (List.length d))
  | PStr s => Ok (Z.of_nat (String.length s))
  | _ => Raise (TypeError ("object of type '" ++ type_name v ++ "' has no len()"))
  end.

(** [v.get(key, default)] *)
Definition py_get (v : pyval) (key : string) (default : pyval) : result pyval :=
  match v with
  | PDict d => Ok (match dict_lookup key d with Some x => x | None => default end)
  | _ => Raise (AttributeError ("'" ++ type_name v ++ "' object has no attribute 'get'"))
  end.

(** the elements [for m in v] visits *)
Definition py_iter (v : pyval) : result (list pyval) :=
  match v with
  | PList l => Ok l
  | PStr s => Ok (chars s)
  | PDict d => Ok (map (fun kv => PStr (fst kv)) d)
  | _ => Raise (TypeError ("'" ++ type_name v ++ "' object is not iterable"))
  end.

(** the strings of a sequence of [str], or the position and type of the
    first element that is not one *)
Fixpoint all_strs (i : Z) (l : list pyval) : result (list string) :=
  match l with
  | [] => Ok []
  | PStr s :: l' =>
      match all_strs (i + 1) l' with
      | Ok ss => Ok (s :: ss)
      | Raise e => Raise e
      | Exit c => Exit c
      end
  | v :: _ =>
      Raise (TypeError ("sequence item " ++ string_of_Z i ++ ": expected str instance, "
                        ++ type_name v ++ " found"))
  end.

(** [sep.join(v)] *)
Definition py_join (sep : string) (v : pyval) : result string :=
  match py_iter v with
  | Raise _ => Raise (TypeError "can only join an iterable")
  | Ok l =>
      match all_strs 0 l with
      | Ok ss => Ok (join sep ss)
      | Raise e => Raise e
      | Exit c => Exit c
      end
  | Exit c => Exit c
  end.

(* ===================================================================== *)
(** ** Regular expressions: the backtracking matcher of [re] *)
(* ===================================================================== *)

(** The constructs the URL pattern uses.  [Group] is a capturing group
    (the pattern has one, number 1); [(?:...)] needs no constructor. *)
Inductive regex : Type :=
| Lit (s : string)                (* literal characters *)
| Seq (r1 r2 : regex)             (* r1 r2 *)
| Alt (r1 r2 : regex)             (* r1|r2, left alternative first *)
| Opt (r : regex)                 (* r?, greedy *)
| PlusSet (p : ascii -> bool)     (* [set]+, greedy *)
| Group (r : regex).              (* (r) *)

(** greedy [[set]*]: the longest run first, then shorter ones *)
Fixpoint star_greedy {A} (p : ascii -> bool) (s : string) (k : string -> option A)
  : option A :=
  match s with
  | String a s' =>
      if p a then
        match star_greedy p s' k with
        | Some x => Some x
        | None => k s
        end
      else k s
  | EmptyString => k s
  end.

(** what [s] lost to reach its suffix [rest] *)
Fixpoint consumed (s : string) (n : nat) : string :=
  match n, s with
  | S n', String a s' => String a (consumed s' n')
  | _, _ => EmptyString
  end.

(** [rmatch r s g k]: match [r] at the start of [s], with [g] the text
    group 1 holds so far, and hand the rest of [s] to [k]; when [k]
    refuses, try the next way of matching [r]. *)
Fixpoint rmatch {A} (r : regex) (s : string) (g : option string)
    (k : string -> option string -> option A) : option A :=
  match r with
  | Lit l =>
      match strip_prefix l s with
      | Some rest => k rest g
      | None => None
      end
  | Seq r1 r2 => rmatch r1 s g (fun s1 g1 => rmatch r2 s1 g1 k)
  | Alt r1 r2 =>
      match rmatch r1 s g k with
      | Some x => Some x
      | None => rmatch r2 s g k
      end
  | Opt r1 =>
      match rmatch r1 s g k with
      | Some x => Some x
      | None => k s g
      end
  | PlusSet p =>
      match s with
      | String a s' => if p a then star_greedy p s' (fun rest => k rest g) else None
      | EmptyString => None
      end
  | Group r1 =>
      rmatch r1 s g
        (fun rest _ => k rest (Some (consumed s (String.length s - String.length rest))))
  end.

(** [re.search(r, s)]: the match at the leftmost position that has one;
    the result is [match.group(1)] ([None] inside when group 1 took no
    part in the match). *)
Fixpoint re_search (r : regex) (s : string) : option (option string) :=
  match rmatch r s None (fun _ g => Some g) with
  | Some g => Some g
  | None =>
      match s with
      | EmptyString => None
      | String _ s' => re_search r s'
      end
  end.

Definition in_range (lo hi : string) (a : ascii) : bool :=
  match lo, hi with
  | String l _, String h _ =>
      (nat_of_ascii l <=? nat_of_ascii a)%nat && (nat_of_ascii a <=? nat_of_ascii h)%nat
  | _, _ => false
  end.

(** [[A-Za-z0-9_-]] *)
Definition shortcode_char (a : ascii) : bool :=
  in_range "A" "Z" a || in_range "a" "z" a || in_range "0" "9" a
  || Ascii.eqb a "_" || Ascii.eqb a "-".

(** [r"(?:https?://)?(?:www\.)?instagram\.com/(?:p|reel|tv)/([A-Za-z0-9_-]+)"] *)
Definition url_pattern : regex :=
  Seq (Opt (Seq (Lit "http") (Seq (Opt (Lit "s")) (Lit "://"))))
  (Seq (Opt (Lit "www."))
  (Seq (Lit "instagram.com/")
  (Seq (Alt (Lit "p") (Alt (Lit "reel") (Lit "tv")))
  (Seq (Lit "/")
       (Group (PlusSet shortcode_char)))))).

(* ===================================================================== *)
(** ** partnership_ads_booster.extract_instagram_shortcode *)
(* ===================================================================== *)

Definition stories_error : exn :=
  ValueError "Stories boosting is not supported by this script".

Definition extract_instagram_shortcode (permalink : pyval) : result pyval :=
  if negb (truthy permalink) then Ok permalink
  else
    match py_in "/stories/" permalink with
    | Raise e => Raise e
    | Exit c => Exit c
    | Ok true => Raise stories_error
    | Ok false =>
        match permalink with
        | PStr s =>
            match re_search url_pattern s with
            | Some (Some code) => Ok (PStr code)
            | Some None => Ok PNone
            | None => Ok (PStr (strip "/" s))
            end
        | _ => Raise (TypeError "expected string or bytes-like object")
        end
    end.

(* ===================================================================== *)
(** ** The run-time environment: HTTP and library functions *)
(* ===================================================================== *)

Inductive http_method : Type := GET | POST | DELETE.

(** The arguments of one [requests.get / post / delete] call. *)
Record http_request : Type := HttpRequest {
  req_method : http_method;
  req_url : pyval;
  req_headers : list (string * string);
  req_params : pyval;
  req_json : pyval
}.

(** What a call into the [requests] library does: it returns, or it
    raises an exception (a subclass of [Exception]). *)
Inductive reply (A : Type) : Type :=
| Returns (a : A)
| Raises (e : exn).
Arguments Returns {A} a.
Arguments Raises {A} e.

Definition of_reply {A} (r : reply A) : result A :=
  match r with
  | Returns a => Ok a
  | Raises e => Raise e
  end.

(** What the code reads of a [requests.Response]. *)
Record response : Type := Response {
  status_code : Z;
  text : string;
  json : reply pyval           (* response.json(): the decoded body, or what it raises *)
}.

(** Code the repository calls and does not define.  [remote] stands for
    the [requests] library and the server behind it: the answer to a
    request may depend on the requests issued before it, and is a
    response or a raised exception. *)
Class Runtime : Type := {
  remote : list http_request -> http_request -> reply response;
  json_dumps : pyval -> string;       (* json.dumps *)
  py_repr : pyval -> string;          (* repr, for containers *)
  py_upper : string -> string         (* str.upper *)
}.

(** [str(v)], which is also what an f-string inserts *)
Definition py_str `{Runtime} (v : pyval) : string :=
  match v with
  | PStr s => s
  | PInt z => string_of_Z z
  | PBool true => "True"
  | PBool false => "False"
  | PNone => "None"
  | _ => py_repr v
  end.

(* ===================================================================== *)
(** ** The state and exception monad *)
(* ===================================================================== *)

(** A computation over a mutable state [S]; the state survives a raised
    exception, as Python's does. *)
Definition M (S A : Type) : Type := S -> result A * S.

Definition ret {S A} (a : A) : M S A := fun s => (Ok a, s).

Definition bind {S A B} (m : M S A) (k : A -> M S B) : M S B :=
  fun s =>
    match m s with
    | (Ok a, s') => k a s'
    | (Raise e, s') => (Raise e, s')
    | (Exit c, s') => (Exit c, s')
    end.

Definition raise {S A} (e : exn) : M S A := fun s => (Raise e, s).

(** [sys.exit(code)] *)
Definition sys_exit {S A} (code : Z) : M S A := fun s => (Exit code, s).

(** a pure run-time checked operation inside a computation *)
Definition lift {S A} (r : result A) : M S A := fun s => (r, s).

(** [try: m  except Exception as e: h e] *)
Definition try_except {S A} (m : M S A) (h : exn -> M S A) : M S A :=
  fun s =>
    match m s with
    | (Raise e, s') => h e s'
    | other => other
    end.

Definition get_state {S} : M S S := fun s => (Ok s, s).
Definition modify {S} (f : S -> S) : M S unit := fun s => (Ok tt, f s).

Notation "x <- m ;; k" := (bind m (fun x => k))
  (at level 62, m at next level, right associativity).
Notation "m ;;; k" := (bind m (fun _ => k))
  (at level 62, right associativity).

(** One call into [requests]: the request joins the trace whether the
    call returns or raises. *)
Definition call `{Runtime} (req : http_request) : M (list http_request) response :=
  fun tr => (of_reply (remote tr req), (tr ++ [req])%list).

(** the [headers] dict every function builds *)
Definition bearer_headers (access_token : string) : list (string * string) :=
  [("Content-Type", "application/json");
   ("Authorization", "Bearer " ++ access_token)].

(* ===================================================================== *)
(** ** cpas_api_client.make_api_request *)
(* ===================================================================== *)

Definition GRAPH_API_VERSION : string := "v22.0".

Definition make_api_request `{Runtime} (access_token endpoint method : string)
    (params data : pyval) (api_version : string)
  : M (list http_request) (pyval * pyval) :=
  let url := "https://graph.facebook.com/" ++ api_version ++ "/" ++ endpoint in
  let headers := bearer_headers access_token in
  try_except
    (sent <-
       (if py_upper method =? "GET" then
          response <- call (HttpRequest GET (PStr url) headers params PNone) ;;
          ret (Some response)
        else if py_upper method =? "POST" then
          response <- call (HttpRequest POST (PStr url) headers params data) ;;
          ret (Some response)
        else if py_upper method =? "DELETE" then
          response <- call (HttpRequest DELETE (PStr url) headers params PNone) ;;
          ret (Some response)
        else ret None) ;;
     match sent with
     | None => ret (PNone, PStr ("Unsupported HTTP method: " ++ method))
     | Some response =>
         response_data <- lift (of_reply (json response)) ;;
         if (status_code response =? 200)%Z then ret (response_data, PNone)
         else
           error <- lift (py_get response_data "error" (PDict [])) ;;
           error_msg <- lift (py_get error "message" (PStr (text response))) ;;
           error_code <- lift (py_get error "code" (PInt (status_code response))) ;;
           ret (PNone, PStr ("API Error " ++ py_str error_code ++ ": " ++ py_str error_msg))
     end)
    (fun e =>
       if exn_is_request_exception e
       then ret (PNone, PStr ("Request error: " ++ exn_str e))
       else ret (PNone, PStr ("Unexpected error: " ++ exn_str e))).

(* ===================================================================== *)
(** ** partnership_ads_booster: the paginated listing *)
(* ===================================================================== *)

(** [[m for m in medias if m.get("has_permission_for_partnership_ad", False)]] *)
Fixpoint permission_filter (medias : list pyval) : result (list pyval) :=
  match medias with
  | [] => Ok []
  | m :: rest =>
      match py_get m "has_permission_for_partnership_ad" (PBool false) with
      | Raise e => Raise e
      | Exit c => Exit c
      | Ok flag =>
          match permission_filter rest with
          | Ok kept => Ok (if truthy flag then m :: kept else kept)
          | other => other
          end
      end
  end.

(** [bool(limit)] for [limit: Optional[int]] *)
Definition limit_set (limit : option Z) : bool :=
  match limit with
  | Some n => negb (n =? 0)%Z
  | None => false
  end.

(** [l[:n]] *)
Definition slice_to {A} (n : Z) (l : list A) : list A :=
  if (0 <=? n)%Z then firstn (Z.to_nat n) l
  else firstn (List.length l - Z.to_nat (- n)) l.

(** The [while True] loop of [fetch_all_advertisable_medias], lines
    172-200, with [fuel] bounding the number of pages ([None]: the bound
    was hit before the loop ended).  The result is [all_medias] as the
    loop leaves it. *)
Fixpoint fetch_pages `{Runtime} (fuel : nat) (headers : list (string * string))
    (limit : option Z) (only_with_permission : bool)
    (url params : pyval) (all_medias : list pyval)
  : M (list http_request) (option (list pyval)) :=
  match fuel with
  | O => ret None
  | S fuel' =>
      response <- call (HttpRequest GET url headers params PNone) ;;
      if negb (status_code response =? 200)%Z then sys_exit 1
      else
        response_data <- lift (of_reply (json response)) ;;
        has_data <- lift (py_in "data" response_data) ;;
        (* inl: left by [break]; inr: fell through to the paging check *)
        after_data <-
          (if has_data : bool then
             medias <- lift (py_getitem response_data "data") ;;
             medias <-
               (if only_with_permission
                then items <- lift (py_iter medias) ;;
                     kept <- lift (permission_filter items) ;;
                     ret (PList kept)
                else ret medias) ;;
             items <- lift (py_iter medias) ;;
             let all_medias := (all_medias ++ items)%list in
             match limit with
             | Some n =>
                 if limit_set limit && (n <=? Z.of_nat (List.length all_medias))%Z
                 then ret (inl (slice_to n all_medias))
                 else ret (inr all_medias)
             | None => ret (inr all_medias)
             end
           else ret (inr all_medias)) ;;
        match after_data with
        | inl final => ret (Some final)
        | inr all_medias =>
            has_paging <- lift (py_in "paging" response_data) ;;
            has_next <-
              (if has_paging : bool then
                 paging <- lift (py_getitem response_data "paging") ;;
                 lift (py_in "next" paging)
               else ret false) ;;
            if has_next : bool then
              paging <- lift (py_getitem response_data "paging") ;;
              next <- lift (py_getitem paging "next") ;;
              fetch_pages fuel' headers limit only_with_permission next (PDict []) all_medias
            else ret (Some all_medias)
        end
  end.

(** [fetch_all_advertisable_medias] up to the end of its loop: the first
    request, and the handlers that turn every exception into
    [sys.exit(1)].  [creator_username] is [Optional[str]]. *)
Definition fetch_all_advertisable_medias `{Runtime} (fuel : nat)
    (access_token ig_account_id : string) (creator_username : option string)
    (limit : option Z) (only_with_permission : bool)
  : M (list http_request) (option (list pyval)) :=
  let url := "https://graph.facebook.com/v22.0/" ++ ig_account_id
             ++ "/branded_content_advertisable_medias" in
  let headers := bearer_headers access_token in
  let params :=
    [("fields", PStr "eligibility_errors,owner_id,permalink,id,has_permission_for_partnership_ad");
     ("limit", PInt 25)] in
  let params :=
    match creator_username with
    | Some u => if negb (u =? "") then (params ++ [("creator_username", PStr u)])%list else params
    | None => params
    end in
  try_except
    (fetch_pages fuel headers limit only_with_permission (PStr url) (PDict params) [])
    (fun _ => sys_exit 1).

(* ===================================================================== *)
(** ** partnership_ads_booster: the four remote stages *)
(* ===================================================================== *)

(** [ad_code] and [permalinks] default to [None]. *)
Definition fetch_branded_content_advertisable_medias `{Runtime}
    (access_token ig_account_id : string) (ad_code permalinks : pyval)
  : M (list http_request) pyval :=
  let url := "https://graph.facebook.com/v22.0/" ++ ig_account_id
             ++ "/branded_content_advertisable_medias" in
  let headers := bearer_headers access_token in
  let params :=
    [("fields", PStr "eligibility_errors,owner_id,permalink,id,has_permission_for_partnership_ad")] in
  params <-
    (if truthy ad_code then ret (params ++ [("ad_code", ad_code)])%list
     else if truthy permalinks
     then ret (params ++ [("permalinks", PStr (json_dumps permalinks))])%list
     else raise (ValueError "ad_code or permalinks must be passed")) ;;
  response <- call (HttpRequest GET (PStr url) headers (PDict params) PNone) ;;
  if (status_code response =? 200)%Z then
    response_data <- lift (of_reply (json response)) ;;
    has_data <- lift (py_in "data" response_data) ;;
    nonempty <-
      (if has_data : bool then
         data <- lift (py_getitem response_data "data") ;;
         n <- lift (py_len data) ;;
         ret (0 <? n)%Z
       else ret false) ;;
    if nonempty : bool then
      data <- lift (py_getitem response_data "data") ;;
      lift (py_getitem0 data)
    else ret PNone
  else ret (PDict [("error", PStr (text response))]).

Definition upload_instagram_video `{Runtime}
    (access_token ad_account_id : string) (source_instagram_media_id ad_code : pyval)
  : M (list http_request) (pyval * pyval) :=
  let url := "https://graph.facebook.com/v22.0/act_" ++ ad_account_id ++ "/advideos" in
  let headers := bearer_headers access_token in
  let params := [("source_instagram_media_id", source_instagram_media_id)] in
  let params :=
    if truthy ad_code
    then (params ++ [("partnership_ad_ad_code", ad_code); ("is_partnership_ad", PBool true)])%list
    else params in
  response <- call (HttpRequest POST (PStr url) headers (PDict params) PNone) ;;
  if (status_code response =? 200)%Z then
    response_data <- lift (of_reply (json response)) ;;
    has_id <- lift (py_in "id" response_data) ;;
    if has_id : bool then
      id <- lift (py_getitem response_data "id") ;;
      ret (id, PNone)
    else ret (PNone, PStr "Video upload: 'id' not found in response data")
  else
    ret (PNone, PStr ("Video upload failed: " ++ string_of_Z (status_code response)
                       ++ " - " ++ text response)).

Definition create_ad_creative `{Runtime}
    (access_token ad_account_id facebook_page_id ig_account_id : string)
    (source_instagram_media_id ad_code cta_type link app_link product_set_id : pyval)
  : M (list http_request) (pyval * pyval) :=
  let url := "https://graph.facebook.com/v23.0/act_" ++ ad_account_id ++ "/adcreatives" in
  let headers := bearer_headers access_token in
  let params :=
    [("object_id", PStr facebook_page_id);
     ("facebook_branded_content",
      PStr (json_dumps (PDict [("sponsor_page_id", PStr facebook_page_id)])));
     ("instagram_branded_content",
      PStr (json_dumps (PDict [("sponsor_id", PStr ig_account_id)])))] in
  let cta_value := [("link", link)] in
  let cta_value :=
    if truthy app_link then (cta_value ++ [("app_link", app_link)])%list else cta_value in
  let params :=
    (params ++ [("call_to_action",
                 PStr (json_dumps (PDict [("type", cta_type); ("value", PDict cta_value)])))])%list in
  params <-
    (if truthy ad_code then
       ret (params ++ [("branded_content",
                        PStr (json_dumps (PDict [("instagram_boost_post_access_token", ad_code)])))])%list
     else if truthy source_instagram_media_id then
       ret (params ++ [("source_instagram_media_id", source_instagram_media_id)])%list
     else raise (ValueError "ad_code or source_instagram_media_id must be passed")) ;;
  let params :=
    if truthy product_set_id then
      (params ++
       [("degrees_of_freedom_spec",
         PStr (json_dumps
                 (PDict [("creative_features_spec",
                          PDict [("product_extensions",
                                  PDict [("enroll_status", PStr "OPT_IN")])])])));
        ("creative_sourcing_spec",
         PStr (json_dumps (PDict [("associated_product_set_id",
                                   PStr (py_str product_set_id))])))])%list
    else params in
  try_except
    (response <- call (HttpRequest POST (PStr url) headers (PDict params) PNone) ;;
     response_data <- lift (of_reply (json response)) ;;
     if (status_code response =? 200)%Z then
       has_id <- lift (py_in "id" response_data) ;;
       if has_id : bool then
         id <- lift (py_getitem response_data "id") ;;
         ret (id, PNone)
       else ret (PNone, PStr "Creative creation: 'id' not found in response data")
     else
       ret (PNone, PStr ("Creative creation failed: " ++ string_of_Z (status_code response)
                          ++ " - " ++ text response)))
    (fun e =>
       if exn_is_request_exception e
       then ret (PNone, PStr ("Creative creation request error: " ++ exn_str e))
       else ret (PNone, PStr ("Creative creation unknown error: " ++ exn_str e))).

(** The [return] after the [try] statement of the source cannot be
    reached: both branches of the [try] body return. *)
Definition create_ad `{Runtime}
    (access_token ad_account_id : string) (ad_name ad_set_id creative_id : pyval)
  : M (list http_request) (pyval * pyval) :=
  let url := "https://graph.facebook.com/v22.0/act_" ++ ad_account_id ++ "/ads" in
  let headers := bearer_headers access_token in
  let params :=
    [("status", PStr "PAUSED");
     ("name", ad_name);
     ("adset_id", ad_set_id);
     ("creative", PStr (json_dumps (PDict [("creative_id", creative_id)])))] in
  try_except
    (response <- call (HttpRequest POST (PStr url) headers (PDict params) PNone) ;;
     response_data <- lift (of_reply (json response)) ;;
     if (status_code response =? 200)%Z then
       has_id <- lift (py_in "id" response_data) ;;
       if has_id : bool then
         published_ad_id <- lift (py_getitem response_data "id") ;;
         ret (published_ad_id, PNone)
       else
         ret (PNone, PStr ("Ad creation: 'id' not found in response data for ad name '"
                            ++ py_str ad_name ++ "' (ad_set_id: " ++ py_str ad_set_id ++ ")"))
     else
       ret (PNone, PStr ("Ad creation failed for ad '" ++ py_str ad_name ++ "' (ad_set_id: "
                          ++ py_str ad_set_id ++ "): " ++ string_of_Z (status_code response)
                          ++ " - " ++ text response)))
    (fun e =>
       if exn_is_request_exception e
       then ret (PNone, PStr ("Ad creation request error for ad '" ++ py_str ad_name
                               ++ "' (ad_set_id: " ++ py_str ad_set_id ++ "): " ++ exn_str e))
       else raise e).

(* ===================================================================== *)
(** ** partnership_ads_booster.create_partnership_ads_from_csv *)
(* ===================================================================== *)

(** A row as [csv.DictReader] yields it: a dict whose keys are the column
    names of the header ([Some name]) and, for a line with more cells
    than the header has columns, the key [None], under which the reader
    files the surplus cells as a list.  A column the line has no cell
    for holds [None] as its value. *)
Abbreviation csv_row := (gmap (option string) pyval).

(** The variables of [create_partnership_ads_from_csv] that its loop
    body assigns and its [except] clause reads, next to the trace of
    requests. *)
Record frame : Type := Frame {
  trace : list http_request;
  output_rows : list (csv_row);
  output_row : csv_row;
  video_id : pyval;
  creative_id : pyval;
  published_ad_id : pyval
}.

Definition set_trace (tr : list http_request) (f : frame) : frame :=
  Frame tr (output_rows f) (output_row f) (video_id f) (creative_id f) (published_ad_id f).
Definition set_output_row (o : csv_row) (f : frame) : frame :=
  Frame (trace f) (output_rows f) o (video_id f) (creative_id f) (published_ad_id f).
Definition set_video_id (v : pyval) (f : frame) : frame :=
  Frame (trace f) (output_rows f) (output_row f) v (creative_id f) (published_ad_id f).
Definition set_creative_id (v : pyval) (f : frame) : frame :=
  Frame (trace f) (output_rows f) (output_row f) (video_id f) v (published_ad_id f).
Definition set_published_ad_id (v : pyval) (f : frame) : frame :=
  Frame (trace f) (output_rows f) (output_row f) (video_id f) (creative_id f) v.

(** a callee runs on the trace and cannot see the caller's variables *)
Definition in_frame {A} (m : M (list http_request) A) : M frame A :=
  fun f => let (r, tr) := m (trace f) in (r, set_trace tr f).

(** [row.get(key, default)] *)
Definition row_get (row : csv_row) (key : string) (default : pyval) : pyval :=
  match row !! Some key with
  | Some v => v
  | None => default
  end.

(** The five assignments that end every path through the loop body:
    [output_row["status"] = ...] to [output_row["published_ad_id"] = ...]. *)
Definition with_results (o : csv_row) (status error vid cid aid : pyval)
  : csv_row :=
  <[Some "published_ad_id" := aid]>
  (<[Some "creative_id" := cid]>
  (<[Some "video_id" := vid]>
  (<[Some "error" := error]>
  (<[Some "status" := status]> o)))).

(** those assignments, then [output_rows.append(output_row)] *)
Definition finish_row (status error vid cid aid : pyval) : M frame unit :=
  modify (fun f =>
    let o := with_results (output_row f) status error vid cid aid in
    Frame (trace f) (output_rows f ++ [o])%list o
          (video_id f) (creative_id f) (published_ad_id f)).

Definition none_unless_truthy (v : pyval) : pyval := if truthy v then v else PNone.

(** Lines 640-656: the value [eligibility_error] has when the chain of
    [if / elif] is over ([None] when no branch assigned it). *)
Definition eligibility_check `{Runtime} (ad_code eligibility : pyval) : result pyval :=
  if negb (truthy eligibility) then Ok (PStr "Failed to fetch media eligibility")
  else
    error <~ py_get eligibility "error" PNone ;;
    if truthy error then
      error <~ py_get eligibility "error" PNone ;;
      Ok (PStr ("API Error: " ++ py_str error))
    else
      no_permission <~
        (if negb (truthy ad_code) then
           flag <~ py_get eligibility "has_permission_for_partnership_ad" PNone ;;
           Ok (negb (truthy flag))
         else Ok false) ;;
      if no_permission : bool
      then Ok (PStr "Media does not have permission for partnership ads")
      else
        listed <~ py_get eligibility "eligibility_errors" PNone ;;
        has_errors <~
          (if truthy listed then
             errors <~ py_get eligibility "eligibility_errors" (PList []) ;;
             n <~ py_len errors ;;
             Ok (0 <? n)%Z
           else Ok false) ;;
        if has_errors : bool then
          errors <~ py_get eligibility "eligibility_errors" (PList []) ;;
          joined <~ py_join ", " errors ;;
          Ok (PStr ("Eligibility errors: " ++ joined))
        else Ok PNone.

(** Lines 680-739: upload, creative and ad, each started only when the
    stage before it returned an id. *)
Definition mutation_stages `{Runtime}
    (access_token ig_account_id ad_account_id facebook_page_id : string)
    (source_instagram_media_id ad_code cta_type link app_link ad_name ad_set_id
       product_set_id : pyval) : M frame unit :=
  uploaded <- in_frame (upload_instagram_video access_token ad_account_id
                          source_instagram_media_id (none_unless_truthy ad_code)) ;;
  let (video_id, video_error) := uploaded : pyval * pyval in
  modify (set_video_id video_id) ;;;
  if negb (truthy video_id) then
    finish_row (PStr "failed") (py_or video_error (PStr "Video upload failed"))
               (PStr "") (PStr "") (PStr "")
  else
    created <- in_frame (create_ad_creative access_token ad_account_id
                           facebook_page_id ig_account_id source_instagram_media_id
                           (none_unless_truthy ad_code) cta_type link
                           (none_unless_truthy app_link)
                           (none_unless_truthy product_set_id)) ;;
    let (creative_id, creative_error) := created : pyval * pyval in
    modify (set_creative_id creative_id) ;;;
    if negb (truthy creative_id) then
      finish_row (PStr "failed")
                 (py_or creative_error (PStr "Creative creation failed"))
                 (py_or video_id (PStr "")) (PStr "") (PStr "")
    else
      published <- in_frame (create_ad access_token ad_account_id
                               ad_name ad_set_id creative_id) ;;
      let (published_ad_id, ad_error) := published : pyval * pyval in
      modify (set_published_ad_id published_ad_id) ;;;
      if negb (truthy published_ad_id) then
        finish_row (PStr "failed") (py_or ad_error (PStr "Ad creation failed"))
                   (py_or video_id (PStr "")) (py_or creative_id (PStr "")) (PStr "")
      else
        finish_row (PStr "success") (PStr "")
                   (py_or video_id (PStr "")) (py_or creative_id (PStr ""))
                   (py_or published_ad_id (PStr "")).

(** Lines 640-739: what the [try] block does once [eligibility] is
    assigned. *)
Definition after_eligibility `{Runtime}
    (access_token ig_account_id ad_account_id facebook_page_id : string)
    (ad_code cta_type link app_link ad_name ad_set_id product_set_id : pyval)
    (eligibility : pyval) : M frame unit :=
  eligibility_error <- lift (eligibility_check ad_code eligibility) ;;
  if truthy eligibility_error then
    finish_row (PStr "failed") eligibility_error (PStr "") (PStr "") (PStr "")
  else
    source_instagram_media_id <- lift (py_get eligibility "id" PNone) ;;
    if negb (truthy source_instagram_media_id) then
      let error_msg := "Media ID not found in eligibility response" in
      finish_row (PStr "failed") (PStr error_msg) (PStr "") (PStr "") (PStr "")
    else
      mutation_stages access_token ig_account_id ad_account_id facebook_page_id
        source_instagram_media_id ad_code cta_type link app_link ad_name ad_set_id
        product_set_id.

(** Lines 741-749: the [except Exception as e] clause of the row. *)
Definition row_handler (e : exn) : M frame unit :=
  let error_msg := "Unexpected error: " ++ exn_str e in
  f <- get_state ;;
  finish_row (PStr "failed") (PStr error_msg)
             (py_or (video_id f) (PStr "")) (py_or (creative_id f) (PStr ""))
             (py_or (published_ad_id f) (PStr "")).

(** [[k for k, v in required_fields.items() if not v]] *)
Definition missing_fields (cta_type link ad_name ad_set_id : pyval) : list string :=
  let required_fields :=
    [("cta_type", cta_type); ("link", link); ("ad_name", ad_name); ("ad_set_id", ad_set_id)] in
  map fst (List.filter (fun kv => negb (truthy (snd kv))) required_fields).

(** The body of [for idx, row in enumerate(rows, 1)], lines 560-749.
    A path that ends in [continue] ends the computation there: nothing
    follows the [try] statement in the loop body. *)
Definition process_row `{Runtime}
    (access_token ig_account_id ad_account_id facebook_page_id : string)
    (row : csv_row) : M frame unit :=
  modify (set_output_row row) ;;;
  let permalink := row_get row "permalink" (PStr "") in
  let ad_code := row_get row "ad_code" (PStr "") in
  let cta_type := row_get row "cta_type" PNone in
  let link := row_get row "link" PNone in
  let app_link := row_get row "app_link" (PStr "") in
  let ad_name := row_get row "ad_name" PNone in
  let ad_set_id := row_get row "ad_set_id" PNone in
  let product_set_id := row_get row "product_set_id" (PStr "") in
  match missing_fields cta_type link ad_name ad_set_id with
  | (_ :: _) as missing =>
      let error_msg := "Missing required fields: " ++ join ", " missing in
      finish_row (PStr "failed") (PStr error_msg) (PStr "") (PStr "") (PStr "")
  | [] =>
  if negb (truthy permalink) && negb (truthy ad_code) then
    let error_msg := "Either permalink or ad_code must be provided" in
    finish_row (PStr "failed") (PStr error_msg) (PStr "") (PStr "") (PStr "")
  else
    modify (fun f => set_published_ad_id PNone (set_creative_id PNone (set_video_id PNone f))) ;;;
    let continue_with :=
      after_eligibility access_token ig_account_id ad_account_id facebook_page_id
        ad_code cta_type link app_link ad_name ad_set_id product_set_id in
    try_except
      (if truthy ad_code then
         eligibility <- in_frame (fetch_branded_content_advertisable_medias
                                    access_token ig_account_id ad_code PNone) ;;
         continue_with eligibility
       else if truthy permalink then
         extracted <-
           try_except
             (shortcode <- lift (extract_instagram_shortcode permalink) ;;
              ret (Some shortcode))
             (fun e =>
                if exn_is_value_error e then
                  let eligibility_error := exn_str e in
                  finish_row (PStr "failed") (PStr eligibility_error)
                             (PStr "") (PStr "") (PStr "") ;;;
                  ret None
                else raise e) ;;
         match extracted with
         | None => ret tt
         | Some shortcode =>
             eligibility <- in_frame (fetch_branded_content_advertisable_medias
                                        access_token ig_account_id PNone (PList [shortcode])) ;;
             continue_with eligibility
         end
       else continue_with PNone)
      row_handler
  end.

(** the [for] loop over the rows, in file order *)
Fixpoint process_rows `{Runtime}
    (access_token ig_account_id ad_account_id facebook_page_id : string)
    (rows : list (csv_row)) : M frame unit :=
  match rows with
  | [] => ret tt
  | row :: rest =>
      process_row access_token ig_account_id ad_account_id facebook_page_id row ;;;
      process_rows access_token ig_account_id ad_account_id facebook_page_id rest
  end.

(** *** The output file *)

(** What [output_csv] holds once the writer has opened it: the header
    line and the records written after it.  A line is kept as the dict
    of its cells by column; the order of the columns within a line, that
    of [fieldnames], is not modelled. *)
Record csv_file : Type := CsvFile {
  header : gset (option string);
  records : list csv_row
}.

(** The state of a run of the batch: the requests issued so far and the
    output file ([None]: this run has not opened it). *)
Record world : Type := World {
  requests : list http_request;
  output_file : option csv_file
}.

(** [repr(key)], for the message of the writer *)
Definition key_repr `{Runtime} (key : option string) : string :=
  match key with
  | Some name => py_repr (PStr name)
  | None => "None"
  end.

(** [DictWriter._dict_to_list(rowdict)] with the default [extrasaction]
    and [restval]: a row with a key outside [fieldnames] is refused;
    the line has [rowdict.get(key, "")] for each key of [fieldnames].
    (The fields named in the message come in the order of a set.) *)
Definition dict_to_list `{Runtime} (fieldnames : gset (option string)) (rowdict : csv_row)
  : result csv_row :=
  let wrong_fields := dom rowdict ∖ fieldnames in
  if decide (wrong_fields = ∅)
  then Ok (rowdict ∪ gset_to_gmap (PStr "") fieldnames)
  else Raise (ValueError ("dict contains fields not in fieldnames: "
                          ++ join ", " (map key_repr (elements wrong_fields)))).

(** [writer.writerows(rowdicts)]: the lines are written one after the
    other, and those written before a refused row stay in the file. *)
Fixpoint writerows `{Runtime} (fieldnames : gset (option string)) (rowdicts : list csv_row)
  : M csv_file unit :=
  match rowdicts with
  | [] => ret tt
  | rowdict :: rest =>
      line <- lift (dict_to_list fieldnames rowdict) ;;
      modify (fun file => CsvFile (header file) (records file ++ [line])%list) ;;;
      writerows fieldnames rest
  end.

(** [list(output_rows[0].keys()) if output_rows else []] *)
Definition fieldnames_of (output_rows : list csv_row) : gset (option string) :=
  match output_rows with
  | first :: _ => dom first
  | [] => ∅
  end.

(** [create_partnership_ads_from_csv].  The two files are given by what
    the file system answers: [input_csv] is what opening and reading the
    input with [csv.DictReader] gives, the rows or the exception raised;
    [output_csv] is what [open(output_csv, "w")] does.  Both [except]
    clauses of the function print and call [sys.exit(1)]. *)
Definition create_partnership_ads_from_csv `{Runtime}
    (access_token ig_account_id ad_account_id facebook_page_id : string)
    (input_csv : reply (list csv_row)) (output_csv : reply unit)
  : M world unit :=
  try_except
    (rows <- lift (of_reply input_csv) ;;
     match rows with
     | [] => ret tt
     | _ :: _ =>
         all_rows <-
           (fun w =>
              let (r, f) :=
                process_rows access_token ig_account_id ad_account_id facebook_page_id rows
                  (Frame (requests w) [] ∅ PNone PNone PNone) in
              (match r with
               | Ok _ => Ok (output_rows f)
               | Raise e => Raise e
               | Exit c => Exit c
               end, World (trace f) (output_file w))) ;;
         let fieldnames := fieldnames_of all_rows in
         lift (of_reply output_csv) ;;;
         (fun w =>
            let (r, file) := writerows fieldnames all_rows (CsvFile fieldnames []) in
            (r, World (requests w) (Some file)))
     end)
    (fun _ => sys_exit 1).

(* ===================================================================== *)
(** ** Sample environments *)
(* ===================================================================== *)

Definition ascii_upper (a : ascii) : ascii :=
  if in_range "a" "z" a then ascii_of_nat (nat_of_ascii a - 32) else a.

(** [str.upper] on ASCII text *)
Fixpoint upper_ascii (s : string) : string :=
  match s with
  | EmptyString => EmptyString
  | String a s' => String (ascii_upper a) (upper_ascii s')
  end.

(** An environment that answers the n-th request with the n-th entry of
    a script, whatever the request (a mock with a list of side effects),
    and refuses the connection once the script is used up. *)
Definition scripted (script : list (reply response)) : Runtime :=
  {| remote := fun tr _ => nth (List.length tr) script (Raises (Exn true false "Connection refused"));
     json_dumps := fun _ => "{}";
     py_repr := fun _ => "{...}";
     py_upper := upper_ascii |}.

(** a response whose body is the JSON value [body] *)
Definition json_response (status : Z) (body : pyval) : reply response :=
  Returns (Response status "{...}" (Returns body)).

(** a response whose body is not JSON *)
Definition html_response (status : Z) (body : string) : reply response :=
  Returns (Response status body (Raises (Exn true true "Expecting value: line 1 column 1 (char 0)"))).

(* ===================================================================== *)
(** ** Statement vocabulary *)
(* ===================================================================== *)

(** [n] copies of the character [c] *)
Fixpoint run_of (c : ascii) (n : nat) : string :=
  match n with
  | O => EmptyString
  | S n' => String c (run_of c n')
  end.

(** every character of [s] satisfies [p] *)
Fixpoint all_chars (p : ascii -> bool) (s : string) : Prop :=
  match s with
  | EmptyString => True
  | String a s' => p a = true /\ all_chars p s'
  end.

(** The strings a pattern denotes: what a match may cover, whatever the
    order in which the matcher tries the alternatives. *)
Fixpoint lang (r : regex) (m : string) : Prop :=
  match r with
  | Lit l => m = l
  | Seq r1 r2 => exists m1 m2, m = m1 ++ m2 /\ lang r1 m1 /\ lang r2 m2
  | Alt r1 r2 => lang r1 m \/ lang r2 m
  | Opt r1 => lang r1 m \/ m = ""
  | PlusSet p => m <> "" /\ all_chars p m
  | Group r1 => lang r1 m
  end.

(** [sub] occurs in [s] *)
Definition occurs_in (sub s : string) : Prop :=
  exists before after, s = before ++ sub ++ after.

(** The reading of "strip only a trailing slash": one final [/] goes,
    nothing else. *)
Fixpoint without_trailing_slash (s : string) : string :=
  match s with
  | EmptyString => EmptyString
  | String a EmptyString => if Ascii.eqb a "/" then EmptyString else s
  | String a s' => String a (without_trailing_slash s')
  end.

(** *** The request wrapper *)

(** the request [make_api_request] issues, if the method is one it knows *)
Definition sent_request `{Runtime} (access_token endpoint method : string)
    (params data : pyval) (api_version : string) : option http_request :=
  let url := PStr ("https://graph.facebook.com/" ++ api_version ++ "/" ++ endpoint) in
  let headers := bearer_headers access_token in
  if py_upper method =? "GET" then Some (HttpRequest GET url headers params PNone)
  else if py_upper method =? "POST" then Some (HttpRequest POST url headers params data)
  else if py_upper method =? "DELETE" then Some (HttpRequest DELETE url headers params PNone)
  else None.

(** the prefix the wrapper gives the text of an exception it caught *)
Definition caught_prefix (e : exn) : string :=
  if exn_is_request_exception e then "Request error: " else "Unexpected error: ".

(** The nested error object of a decoded body: the value under ["error"]
    when it is an object, the empty object when the key is absent. *)
Definition nested_error (body : list (string * pyval)) : option (list (string * pyval)) :=
  match dict_lookup "error" body with
  | None => Some []
  | Some (PDict e) => Some e
  | Some _ => None
  end.

Definition lookup_or (key : string) (d : list (string * pyval)) (default : pyval) : pyval :=
  match dict_lookup key d with
  | Some v => v
  | None => default
  end.

(** [v] is not a JSON object, so that [v.get] raises [AttributeError] *)
Definition not_object (v : pyval) : Prop := forall d, v <> PDict d.

(** the text of that [AttributeError] *)
Definition no_get (v : pyval) : string :=
  "'" ++ type_name v ++ "' object has no attribute 'get'".

(** *** The paginated listing *)

(** the items of a page's ["data"] that the loop adds to [all_medias] *)
Definition admitted (only_with_permission : bool) (medias : pyval) : result (list pyval) :=
  if only_with_permission
  then items <~ py_iter medias ;; permission_filter items
  else py_iter medias.

(** The request for [url] in trace [tr] is answered with status 200 and
    a body that has ["data"], of which the loop admits [items]. *)
Definition is_page `{Runtime} (headers : list (string * string)) (only_with_permission : bool)
    (tr : list http_request) (url params body : pyval) (items : list pyval) : Prop :=
  exists response medias,
    remote tr (HttpRequest GET url headers params PNone) = Returns response
    /\ status_code response = 200%Z
    /\ json response = Returns body
    /\ py_in "data" body = Ok true
    /\ py_getitem body "data" = Ok medias
    /\ admitted only_with_permission medias = Ok items.

(** [body["paging"]["next"]] exists and is [next] *)
Definition links_to (body next : pyval) : Prop :=
  exists paging,
    py_in "paging" body = Ok true
    /\ py_getitem body "paging" = Ok paging
    /\ py_in "next" paging = Ok true
    /\ py_getitem paging "next" = Ok next.

(** [pages_before tr url params pages tr' url' params']: following the
    next links from the request [(url, params)] in trace [tr] serves the
    pages with admitted items [pages], each linking to the next, and
    leaves the request [(url', params')] to be made in trace [tr']. *)
Inductive pages_before `{Runtime} (headers : list (string * string))
    (only_with_permission : bool)
  : list http_request -> pyval -> pyval -> list (list pyval)
    -> list http_request -> pyval -> pyval -> Prop :=
| pages_none tr url params :
    pages_before headers only_with_permission tr url params [] tr url params
| pages_more tr url params body items next rest tr' url' params' :
    is_page headers only_with_permission tr url params body items ->
    links_to body next ->
    pages_before headers only_with_permission
      (tr ++ [HttpRequest GET url headers params PNone])%list next (PDict [])
      rest tr' url' params' ->
    pages_before headers only_with_permission tr url params (items :: rest) tr' url' params'.

(** a listing of two pages of three medias each, the first linking to the second *)
Definition media (id : string) : pyval :=
  PDict [("id", PStr id); ("has_permission_for_partnership_ad", PBool true);
         ("eligibility_errors", PList [])].

Definition two_pages : Runtime :=
  scripted
    [json_response 200
       (PDict [("data", PList [media "media_0"; media "media_1"; media "media_2"]);
               ("paging", PDict [("next", PStr "https://graph.facebook.com/v22.0/next_page")])]);
     json_response 200
       (PDict [("data", PList [media "media_3"; media "media_4"; media "media_5"]);
               ("paging", PDict [])])].

(** *** The per-row pipeline *)

(** How far the pipeline got on a row, with what each completed stage
    produced and, on failure, the message of the stage that failed. *)
Inductive progress : Type :=
| NoMedia (message : pyval)                      (* stopped before the upload *)
| NoVideo (message : pyval)                      (* the upload failed *)
| NoCreative (video message : pyval)             (* the creative failed *)
| NoAd (video creative message : pyval)          (* the ad failed *)
| Published (video creative ad : pyval).         (* every stage completed *)

(** the output row that shows a given progress: an id for each completed
    stage, the empty string for the others *)
Definition reflects (p : progress) (o : csv_row) : Prop :=
  match p with
  | NoMedia message | NoVideo message =>
      o !! Some "status" = Some (PStr "failed") /\ o !! Some "error" = Some message
      /\ o !! Some "video_id" = Some (PStr "") /\ o !! Some "creative_id" = Some (PStr "")
      /\ o !! Some "published_ad_id" = Some (PStr "")
  | NoCreative video message =>
      o !! Some "status" = Some (PStr "failed") /\ o !! Some "error" = Some message
      /\ o !! Some "video_id" = Some video /\ o !! Some "creative_id" = Some (PStr "")
      /\ o !! Some "published_ad_id" = Some (PStr "")
  | NoAd video creative message =>
      o !! Some "status" = Some (PStr "failed") /\ o !! Some "error" = Some message
      /\ o !! Some "video_id" = Some video /\ o !! Some "creative_id" = Some creative
      /\ o !! Some "published_ad_id" = Some (PStr "")
  | Published video creative ad =>
      o !! Some "status" = Some (PStr "success") /\ o !! Some "error" = Some (PStr "")
      /\ o !! Some "video_id" = Some video /\ o !! Some "creative_id" = Some creative
      /\ o !! Some "published_ad_id" = Some ad
  end.

(** a stage function returned the id [id] *)
Definition stage_done (r : result (pyval * pyval)) (id : pyval) : Prop :=
  truthy id = true /\ exists error, r = Ok (id, error).

(** a stage function returned no id, or raised: [message] is what the
    row reports then *)
Definition stage_failed (r : result (pyval * pyval)) (fallback : string) (message : pyval)
  : Prop :=
  (exists id error,
      r = Ok (id, error) /\ truthy id = false /\ message = py_or error (PStr fallback))
  \/ (exists e, r = Raise e /\ message = PStr ("Unexpected error: " ++ exn_str e)).

(** one request, a GET, leads from trace [tr] to trace [tr1] *)
Definition one_lookup (tr tr1 : list http_request) : Prop :=
  exists req, tr1 = (tr ++ [req])%list /\ req_method req = GET.

(** [stages_achieved ... mid tr1 p tr']: the three stage functions, run
    one after the other from trace [tr1] on the media [mid], did what [p]
    says and left the trace [tr']. *)
Definition stages_achieved `{Runtime}
    (access_token ig_account_id ad_account_id facebook_page_id : string)
    (ad_code cta_type link app_link ad_name ad_set_id product_set_id : pyval)
    (mid : pyval) (tr1 : list http_request) (p : progress) (tr' : list http_request)
  : Prop :=
  let upload := upload_instagram_video access_token ad_account_id mid
                  (none_unless_truthy ad_code) in
  let creative :=
    create_ad_creative access_token ad_account_id facebook_page_id ig_account_id mid
      (none_unless_truthy ad_code) cta_type link
      (none_unless_truthy app_link) (none_unless_truthy product_set_id) in
  let ad cid := create_ad access_token ad_account_id ad_name ad_set_id cid in
  let tr2 := snd (upload tr1) in
  let tr3 := snd (creative tr2) in
  match p with
  | NoMedia _ => False
  | NoVideo message =>
      stage_failed (fst (upload tr1)) "Video upload failed" message
      /\ tr' = tr2
  | NoCreative video message =>
      stage_done (fst (upload tr1)) video
      /\ stage_failed (fst (creative tr2)) "Creative creation failed" message
      /\ tr' = tr3
  | NoAd video creative_id message =>
      stage_done (fst (upload tr1)) video
      /\ stage_done (fst (creative tr2)) creative_id
      /\ stage_failed (fst (ad creative_id tr3)) "Ad creation failed" message
      /\ tr' = snd (ad creative_id tr3)
  | Published video creative_id ad_id =>
      stage_done (fst (upload tr1)) video
      /\ stage_done (fst (creative tr2)) creative_id
      /\ stage_done (fst (ad creative_id tr3)) ad_id
      /\ tr' = snd (ad creative_id tr3)
  end.

(** [achieved ... row tr p tr']: on the fields of [row] and from trace
    [tr], the pipeline either stopped before the upload, having issued
    at most one request, a GET, or looked the media up with one GET and
    ran the stage functions as [p] says; [tr'] is the trace it left. *)
Definition achieved `{Runtime}
    (access_token ig_account_id ad_account_id facebook_page_id : string)
    (row : csv_row) (tr : list http_request) (p : progress)
    (tr' : list http_request) : Prop :=
  match p with
  | NoMedia message =>
      truthy message = true
      /\ exists reqs, tr' = (tr ++ reqs)%list
                      /\ (List.length reqs <= 1)%nat
                      /\ Forall (fun req => req_method req = GET) reqs
  | _ =>
      exists mid tr1,
        truthy mid = true
        /\ one_lookup tr tr1
        /\ stages_achieved access_token ig_account_id ad_account_id facebook_page_id
             (row_get row "ad_code" (PStr "")) (row_get row "cta_type" PNone)
             (row_get row "link" PNone) (row_get row "app_link" (PStr ""))
             (row_get row "ad_name" PNone) (row_get row "ad_set_id" PNone)
             (row_get row "product_set_id" (PStr ""))
             mid tr1 p tr'
  end.

(** the row a given progress leaves in the output *)
Definition row_after (row : csv_row) (p : progress) : csv_row :=
  match p with
  | NoMedia message | NoVideo message =>
      with_results row (PStr "failed") message (PStr "") (PStr "") (PStr "")
  | NoCreative video message =>
      with_results row (PStr "failed") message video (PStr "") (PStr "")
  | NoAd video creative message =>
      with_results row (PStr "failed") message video creative (PStr "")
  | Published video creative ad =>
      with_results row (PStr "success") (PStr "") video creative ad
  end.

(** the columns the pipeline writes *)
Definition result_columns : list (option string) :=
  [Some "status"; Some "error"; Some "video_id"; Some "creative_id"; Some "published_ad_id"].

(** [o] is [row] with the result columns written *)
Definition extends_row (o row : csv_row) : Prop :=
  (forall key, key ∉ result_columns -> o !! key = row !! key)
  /\ (forall key, key ∈ result_columns -> is_Some (o !! key)).

(** *** Computations that do not end the process *)

Definition pure_ok {A} (r : result A) : Prop := forall c, r <> Exit c.

Definition never_exits {S A} (m : M S A) : Prop := forall s c s', m s <> (Exit c, s').

(** *** Validation and the eligibility lookup *)

(** the name of a required field, when the row has nothing for it *)
Definition absent (name : string) (v : pyval) : list string :=
  if truthy v then [] else [name].

(** the request the eligibility lookup issues for an ad code *)
Definition lookup_by_code_request (access_token ig_account_id : string) (ad_code : pyval)
  : http_request :=
  HttpRequest GET
    (PStr ("https://graph.facebook.com/v22.0/" ++ ig_account_id
           ++ "/branded_content_advertisable_medias"))
    (bearer_headers access_token)
    (PDict [("fields",
             PStr "eligibility_errors,owner_id,permalink,id,has_permission_for_partnership_ad");
            ("ad_code", ad_code)])
    PNone.

(** [eligibility_failure response message]: the answer to the
    eligibility lookup has no data, or carries an error, or lists
    eligibility errors; [message] is what the row reports for it.  The
    flag [has_permission_for_partnership_ad] does not occur: whatever the
    record says about it, the failure stands. *)
Inductive eligibility_failure `{Runtime} (response : response) : string -> Prop :=
| no_data_at_all body :
    status_code response = 200%Z ->
    json response = Returns (PDict body) ->
    dict_lookup "data" body = None \/ dict_lookup "data" body = Some (PList []) ->
    eligibility_failure response "Failed to fetch media eligibility"
| http_error :
    status_code response <> 200%Z ->
    text response <> "" ->
    eligibility_failure response ("API Error: " ++ text response)
| http_error_without_text :
    status_code response <> 200%Z ->
    text response = "" ->
    eligibility_failure response "Media ID not found in eligibility response"
| error_in_record body record others error :
    status_code response = 200%Z ->
    json response = Returns (PDict body) ->
    dict_lookup "data" body = Some (PList (PDict record :: others)) ->
    dict_lookup "error" record = Some error ->
    truthy error = true ->
    eligibility_failure response ("API Error: " ++ py_str error)
| eligibility_errors_listed body record others code codes :
    status_code response = 200%Z ->
    json response = Returns (PDict body) ->
    dict_lookup "data" body = Some (PList (PDict record :: others)) ->
    truthy (lookup_or "error" record PNone) = false ->
    dict_lookup "eligibility_errors" record = Some (PList (map PStr (code :: codes))) ->
    eligibility_failure response ("Eligibility errors: " ++ join ", " (code :: codes)).

(** a row that names its media twice, by permalink and by ad code *)
Definition row_with_both : csv_row :=
  <[Some "permalink" := PStr "https://www.instagram.com/reel/aBc123XyZ/"]>
  (<[Some "ad_code" := PStr "code_123"]>
  (<[Some "cta_type" := PStr "LEARN_MORE"]>
  (<[Some "link" := PStr "https://example.com"]>
  (<[Some "ad_name" := PStr "Test Ad"]>
  (<[Some "ad_set_id" := PStr "adset_123"]> ∅))))).

(** a row with an ad code only *)
Definition row_with_code : csv_row :=
  <[Some "permalink" := PStr ""]> row_with_both.


(** every stage answers with an id *)
Definition all_stages_succeed : Runtime :=
  scripted
    [json_response 200 (PDict [("data", PList [PDict [("id", PStr "media_123")]])]);
     json_response 200 (PDict [("id", PStr "video_123")]);
     json_response 200 (PDict [("id", PStr "creative_123")]);
     json_response 200 (PDict [("id", PStr "ad_123")])].

(** the lookup and the upload succeed, the creative is refused *)
Definition creative_refused : Runtime :=
  scripted
    [json_response 200 (PDict [("data", PList [PDict [("id", PStr "media_123")]])]);
     json_response 200 (PDict [("id", PStr "video_123")]);
     json_response 400 (PDict [("error", PDict [("message", PStr "Invalid parameter")])])].

(** the lookup finds the media, with an eligibility error on it *)
Definition not_eligible : Runtime :=
  scripted
    [json_response 200
       (PDict [("data",
                PList [PDict [("id", PStr "media_123");
                              ("has_permission_for_partnership_ad", PBool true);
                              ("eligibility_errors", PList [PStr "ERROR_1"; PStr "ERROR_2"])]])])].

Definition empty_frame : frame := Frame [] [] ∅ PNone PNone PNone.

(** the row of a line that has one cell more than the header has columns
    (a trailing comma): the reader files the surplus cell under [None] *)
Definition row_with_surplus : csv_row := <[None := PList [PStr ""]]> row_with_code.

(** every stage answers with an id, for two rows *)
Definition two_rows_succeed : Runtime :=
  let script :=
    [json_response 200 (PDict [("data", PList [PDict [("id", PStr "media_123")]])]);
     json_response 200 (PDict [("id", PStr "video_123")]);
     json_response 200 (PDict [("id", PStr "creative_123")]);
     json_response 200 (PDict [("id", PStr "ad_123")])] in
  scripted (script ++ script)%list.

(** *** What happens to a row *)

(** an ad code, or the record's permission flag, lets the media be used *)
Definition permitted (ad_code : pyval) (record : list (string * pyval)) : Prop :=
  truthy ad_code = true
  \/ truthy (lookup_or "has_permission_for_partnership_ad" record PNone) = true.

(** [rejected ad_code eligibility message]: what the lookup returned does
    not let the row go on to the upload, and [message] is what the row
    reports for it. *)
Inductive rejected `{Runtime} (ad_code eligibility : pyval) : pyval -> Prop :=
| nothing_found :
    truthy eligibility = false ->
    rejected ad_code eligibility (PStr "Failed to fetch media eligibility")
| not_a_record :
    truthy eligibility = true -> not_object eligibility ->
    rejected ad_code eligibility (PStr ("Unexpected error: " ++ no_get eligibility))
| record_error record error :
    eligibility = PDict record -> record <> [] ->
    dict_lookup "error" record = Some error -> truthy error = true ->
    rejected ad_code eligibility (PStr ("API Error: " ++ py_str error))
| permission_missing record :
    eligibility = PDict record -> record <> [] ->
    truthy (lookup_or "error" record PNone) = false ->
    truthy ad_code = false ->
    truthy (lookup_or "has_permission_for_partnership_ad" record PNone) = false ->
    rejected ad_code eligibility (PStr "Media does not have permission for partnership ads")
| errors_listed record listed joined :
    eligibility = PDict record -> record <> [] ->
    truthy (lookup_or "error" record PNone) = false ->
    permitted ad_code record ->
    dict_lookup "eligibility_errors" record = Some listed -> truthy listed = true ->
    py_join ", " listed = Ok joined ->
    (forall e, py_len listed <> Raise e) ->
    rejected ad_code eligibility (PStr ("Eligibility errors: " ++ joined))
| errors_unreadable record listed e :
    eligibility = PDict record -> record <> [] ->
    truthy (lookup_or "error" record PNone) = false ->
    permitted ad_code record ->
    dict_lookup "eligibility_errors" record = Some listed -> truthy listed = true ->
    py_len listed = Raise e \/ py_join ", " listed = Raise e /\ (forall e', py_len listed <> Raise e') ->
    rejected ad_code eligibility (PStr ("Unexpected error: " ++ exn_str e))
| media_id_missing record :
    eligibility = PDict record -> record <> [] ->
    truthy (lookup_or "error" record PNone) = false ->
    permitted ad_code record ->
    truthy (lookup_or "eligibility_errors" record PNone) = false ->
    truthy (lookup_or "id" record PNone) = false ->
    rejected ad_code eligibility (PStr "Media ID not found in eligibility response").

(** the record lets the row go on, with the media [mid] *)
Definition accepted (ad_code eligibility mid : pyval) : Prop :=
  exists record,
    eligibility = PDict record /\ record <> []
    /\ truthy (lookup_or "error" record PNone) = false
    /\ permitted ad_code record
    /\ truthy (lookup_or "eligibility_errors" record PNone) = false
    /\ lookup_or "id" record PNone = mid /\ truthy mid = true.

(** the row has its four required fields *)
Definition complete (row : csv_row) : Prop :=
  truthy (row_get row "cta_type" PNone) = true /\ truthy (row_get row "link" PNone) = true
  /\ truthy (row_get row "ad_name" PNone) = true
  /\ truthy (row_get row "ad_set_id" PNone) = true.

(** [looks_up ... row tr r tr1]: the row names a media, by its ad code
    or else by a permalink the extractor accepts; the eligibility lookup
    for it, run from trace [tr], ends with [r] and leaves trace [tr1]. *)
Definition looks_up `{Runtime} (access_token ig_account_id : string) (row : csv_row)
    (tr : list http_request) (r : result pyval) (tr1 : list http_request) : Prop :=
  let permalink := row_get row "permalink" (PStr "") in
  let ad_code := row_get row "ad_code" (PStr "") in
  (truthy ad_code = true
   /\ fetch_branded_content_advertisable_medias access_token ig_account_id ad_code PNone tr
      = (r, tr1))
  \/ (truthy ad_code = false /\ truthy permalink = true
      /\ exists shortcode,
           extract_instagram_shortcode permalink = Ok shortcode
           /\ fetch_branded_content_advertisable_medias access_token ig_account_id
                PNone (PList [shortcode]) tr = (r, tr1)).

(** [course ... row tr p tr']: what happens to [row] from trace [tr],
    told by what the functions the loop body calls return: the progress
    [p] of the row, with the message of the first failure, and the trace
    [tr'] left behind. *)
Inductive course `{Runtime}
    (access_token ig_account_id ad_account_id facebook_page_id : string)
    (row : csv_row) (tr : list http_request) : progress -> list http_request -> Prop :=
| fields_missing names :
    names = (absent "cta_type" (row_get row "cta_type" PNone)
             ++ absent "link" (row_get row "link" PNone)
             ++ absent "ad_name" (row_get row "ad_name" PNone)
             ++ absent "ad_set_id" (row_get row "ad_set_id" PNone))%list ->
    names <> [] ->
    course access_token ig_account_id ad_account_id facebook_page_id row tr
      (NoMedia (PStr ("Missing required fields: " ++ join ", " names))) tr
| reference_missing :
    complete row ->
    truthy (row_get row "permalink" (PStr "")) = false ->
    truthy (row_get row "ad_code" (PStr "")) = false ->
    course access_token ig_account_id ad_account_id facebook_page_id row tr
      (NoMedia (PStr "Either permalink or ad_code must be provided")) tr
| permalink_refused e :
    complete row ->
    truthy (row_get row "ad_code" (PStr "")) = false ->
    truthy (row_get row "permalink" (PStr "")) = true ->
    extract_instagram_shortcode (row_get row "permalink" (PStr "")) = Raise e ->
    course access_token ig_account_id ad_account_id facebook_page_id row tr
      (NoMedia (PStr ((if exn_is_value_error e then "" else "Unexpected error: ")
                      ++ exn_str e))) tr
| lookup_raised e tr1 :
    complete row ->
    looks_up access_token ig_account_id row tr (Raise e) tr1 ->
    course access_token ig_account_id ad_account_id facebook_page_id row tr
      (NoMedia (PStr ("Unexpected error: " ++ exn_str e))) tr1
| lookup_rejected eligibility message tr1 :
    complete row ->
    looks_up access_token ig_account_id row tr (Ok eligibility) tr1 ->
    rejected (row_get row "ad_code" (PStr "")) eligibility message ->
    course access_token ig_account_id ad_account_id facebook_page_id row tr
      (NoMedia message) tr1
| stages_run eligibility mid tr1 p tr' :
    complete row ->
    looks_up access_token ig_account_id row tr (Ok eligibility) tr1 ->
    accepted (row_get row "ad_code" (PStr "")) eligibility mid ->
    stages_achieved access_token ig_account_id ad_account_id facebook_page_id
      (row_get row "ad_code" (PStr "")) (row_get row "cta_type" PNone)
      (row_get row "link" PNone) (row_get row "app_link" (PStr ""))
      (row_get row "ad_name" PNone) (row_get row "ad_set_id" PNone)
      (row_get row "product_set_id" (PStr ""))
      mid tr1 p tr' ->
    course access_token ig_account_id ad_account_id facebook_page_id row tr p tr'.

(** *** More on the extractor *)

(** the pattern has no capturing group *)
Fixpoint group_free (r : regex) : bool :=
  match r with
  | Lit _ | PlusSet _ => true
  | Seq r1 r2 | Alt r1 r2 => group_free r1 && group_free r2
  | Opt r1 => group_free r1
  | Group _ => false
  end.

(** the ways a permalink may start before [instagram.com/] *)
Definition url_starts : list string :=
  [""; "www."; "http://"; "http://www."; "https://"; "https://www."].

(** the three kinds of post path *)
Definition url_kinds : list string := ["p"; "reel"; "tv"].

(** [s] does not go on with a character of the set *)
Definition stops (p : ascii -> bool) (s : string) : Prop :=
  match s with
  | EmptyString => True
  | String a _ => p a = false
  end.

(** *** The output file *)

(** the columns the pipeline writes, as a set *)
Definition result_keys : gset (option string) := list_to_set result_columns.

(** the line [line] shows the record [o] in the columns [fieldnames]:
    each column holds the cell [o] has for it, or the empty string *)
Definition shows (fieldnames : gset (option string)) (line o : csv_row) : Prop :=
  forall key,
    line !! key = if decide (key ∈ fieldnames) then Some (default (PStr "") (o !! key))
                  else None.

(** *** More on the listing *)

(** the total [l] has not reached the limit: the test of line 191 fails *)
Definition below (limit : option Z) (l : list pyval) : Prop :=
  match limit with
  | Some n => n = 0%Z \/ (Z.of_nat (List.length l) < n)%Z
  | None => True
  end.

(** [body] has no ["paging"] entry, or one without ["next"] *)
Definition last_page (body : pyval) : Prop :=
  py_in "paging" body = Ok false
  \/ exists paging,
       py_in "paging" body = Ok true
       /\ py_getitem body "paging" = Ok paging
       /\ py_in "next" paging = Ok false.

(** [m.get("has_permission_for_partnership_ad", False)] is truthy *)
Definition has_permission (m : pyval) : Prop :=
  exists flag,
    py_get m "has_permission_for_partnership_ad" (PBool false) = Ok flag
    /\ truthy flag = true.

(** the first request of the listing *)
Definition listing_url (ig_account_id : string) : pyval :=
  PStr ("https://graph.facebook.com/v22.0/" ++ ig_account_id
        ++ "/branded_content_advertisable_medias").

Definition listing_params (creator_username : option string) : pyval :=
  let params :=
    [("fields", PStr "eligibility_errors,owner_id,permalink,id,has_permission_for_partnership_ad");
     ("limit", PInt 25)] in
  PDict match creator_username with
        | Some u => if negb (u =? "") then (params ++ [("creator_username", PStr u)])%list
                    else params
        | None => params
        end.

(* ===================================================================== *)
(** * Properties *)
(* ===================================================================== *)

(** ** Strings *)

#[local] Arguments String.append !_ _ / : simpl nomatch.

Lemma append_assoc (a b c : string) : (a ++ b) ++ c = a ++ (b ++ c).
Proof. induction a as [|x a IH]; simpl; [reflexivity | f_equal; exact IH]. Qed.

Lemma append_nil_r (s : string) : s ++ "" = s.
Proof. induction s as [|x s IH]; simpl; [reflexivity | f_equal; exact IH]. Qed.

Lemma strip_prefix_app (p s : string) : strip_prefix p (p ++ s) = Some s.
Proof.
  induction p as [|a p IH]; simpl; [reflexivity |].
  now rewrite Ascii.eqb_refl.
Qed.

Lemma strip_prefix_Some (p s r : string) : strip_prefix p s = Some r -> s = p ++ r.
Proof.
  revert s; induction p as [|a p IH]; intros s; simpl.
  - now intros [= ->].
  - destruct s as [|b s]; [discriminate |].
    destruct (Ascii.eqb a b) eqn:E; [| discriminate].
    apply Ascii.eqb_eq in E as ->. intros Hp. now rewrite (IH _ Hp).
Qed.

Lemma str_contains_unfold (sub s : string) :
  str_contains sub s =
  match strip_prefix sub s with
  | Some _ => true
  | None => match s with EmptyString => false | String _ s' => str_contains sub s' end
  end.
Proof. destruct s; reflexivity. Qed.

Lemma str_contains_occurs (sub s : string) :
  str_contains sub s = true <-> occurs_in sub s.
Proof.
  split.
  - induction s as [|a s IH]; simpl.
    + destruct (strip_prefix sub "") eqn:E; [| discriminate].
      intros _. exists "", s. simpl. now apply strip_prefix_Some.
    + destruct (strip_prefix sub (String a s)) eqn:E.
      * intros _. exists "", s0. simpl. now apply strip_prefix_Some.
      * intros Hc. destruct (IH Hc) as (b & c & ->).
        now exists (String a b), c.
  - intros (b & c & ->). induction b as [|x b IH]; simpl.
    + now rewrite str_contains_unfold, strip_prefix_app.
    + now destruct (strip_prefix sub (String x (b ++ sub ++ c))).
Qed.

Lemma occurs_in_within (sub s before after : string) :
  occurs_in sub s -> occurs_in sub (before ++ s ++ after).
Proof.
  intros (b & c & ->). exists (before ++ b), (c ++ after).
  now rewrite !append_assoc.
Qed.

Lemma str_contains_false_within (sub s before after : string) :
  str_contains sub (before ++ s ++ after) = false -> str_contains sub s = false.
Proof.
  intros Hf. destruct (str_contains sub s) eqn:E; [| reflexivity].
  apply str_contains_occurs in E.
  apply (occurs_in_within _ _ before after), str_contains_occurs in E. congruence.
Qed.

(** *** Stripping *)

Lemma lstrip_run (c : ascii) (s : string) :
  exists n, s = run_of c n ++ lstrip c s.
Proof.
  induction s as [|a s [n IH]]; simpl.
  - now exists 0.
  - destruct (Ascii.eqb a c) eqn:E.
    + apply Ascii.eqb_eq in E as ->. exists (S n). simpl. now rewrite <- IH.
    + now exists 0.
Qed.

Lemma lstrip_no_head (c : ascii) (s t : string) : lstrip c s <> String c t.
Proof.
  induction s as [|a s IH]; simpl; [discriminate |].
  destruct (Ascii.eqb a c) eqn:E; [exact IH |].
  intros [= -> _]. now rewrite Ascii.eqb_refl in E.
Qed.

Lemma lstrip_fixed (c : ascii) (s : string) :
  (forall t, s <> String c t) -> lstrip c s = s.
Proof.
  destruct s as [|a s]; simpl; [reflexivity |].
  intros Hs. destruct (Ascii.eqb a c) eqn:E; [| reflexivity].
  apply Ascii.eqb_eq in E as ->. now destruct (Hs s).
Qed.

Lemma run_of_snoc (c : ascii) (n : nat) : run_of c n ++ String c "" = String c (run_of c n).
Proof. induction n as [|n IH]; simpl; [reflexivity | now rewrite IH]. Qed.

Lemma rstrip_run (c : ascii) (s : string) :
  exists n, s = rstrip c s ++ run_of c n.
Proof.
  induction s as [|a s [n IH]]; simpl.
  - now exists 0.
  - destruct (rstrip c s) as [|b r] eqn:Er.
    + destruct (Ascii.eqb a c) eqn:E.
      * apply Ascii.eqb_eq in E as ->. exists (S n). simpl in *. now rewrite <- IH.
      * exists n. simpl in *. now rewrite <- IH.
    + exists n. simpl in *. now rewrite <- IH.
Qed.

Lemma rstrip_no_last (c : ascii) (s t : string) : rstrip c s <> t ++ String c "".
Proof.
  revert t; induction s as [|a s IH]; intros t; simpl.
  - destruct t; discriminate.
  - destruct (rstrip c s) as [|b r] eqn:Er.
    + destruct (Ascii.eqb a c) eqn:E.
      * destruct t; discriminate.
      * destruct t as [|x t]; simpl.
        -- intros [= ->]. now rewrite Ascii.eqb_refl in E.
        -- destruct t; discriminate.
    + destruct t as [|x t]; simpl; [discriminate |].
      intros [= _ Hr]. now apply (IH t).
Qed.

Lemma rstrip_idem (c : ascii) (s : string) : rstrip c (rstrip c s) = rstrip c s.
Proof.
  induction s as [|a s IH]; simpl; [reflexivity |].
  destruct (rstrip c s) as [|b r] eqn:Er.
  - destruct (Ascii.eqb a c) eqn:E; simpl; [reflexivity | now rewrite E].
  - change (rstrip c (String a (String b r)))
      with (match rstrip c (String b r) with
            | EmptyString => if Ascii.eqb a c then EmptyString else String a EmptyString
            | r0 => String a r0
            end).
    now rewrite IH.
Qed.

Lemma rstrip_keeps_head (c a : ascii) (s : string) :
  Ascii.eqb a c = false -> exists r, rstrip c (String a s) = String a r.
Proof.
  intros E. simpl. destruct (rstrip c s); rewrite ?E; eauto.
Qed.

Lemma strip_no_head (c : ascii) (s t : string) : strip c s <> String c t.
Proof.
  unfold strip. destruct (lstrip c s) as [|a u] eqn:El; simpl; [discriminate |].
  assert (E : Ascii.eqb a c = false).
  { destruct (Ascii.eqb a c) eqn:E; [| reflexivity].
    apply Ascii.eqb_eq in E as ->. now destruct (lstrip_no_head c s u). }
  destruct (rstrip_keeps_head c a u E) as [r Hr]. simpl in Hr. rewrite Hr.
  intros [= -> _]. now rewrite Ascii.eqb_refl in E.
Qed.

Lemma strip_idem (c : ascii) (s : string) : strip c (strip c s) = strip c s.
Proof.
  unfold strip at 1. rewrite lstrip_fixed by apply strip_no_head.
  unfold strip. apply rstrip_idem.
Qed.

Lemma strip_runs (c : ascii) (s : string) :
  exists n m, s = run_of c n ++ strip c s ++ run_of c m.
Proof.
  destruct (lstrip_run c s) as [n Hn], (rstrip_run c (lstrip c s)) as [m Hm].
  exists n, m. unfold strip. now rewrite <- Hm.
Qed.

(** ** The matcher finds a match exactly when the pattern denotes one *)

Lemma star_greedy_sound {A} (p : ascii -> bool) (s : string) (k : string -> option A) (x : A) :
  star_greedy p s k = Some x ->
  exists m rest, s = m ++ rest /\ all_chars p m /\ k rest = Some x.
Proof.
  induction s as [|a s IH]; simpl.
  - intros Hk. now exists "", "".
  - destruct (p a) eqn:Hp.
    + destruct (star_greedy p s k) as [y|] eqn:Hs.
      * intros [= <-]. destruct (IH eq_refl) as (m & rest & -> & Hm & Hk).
        now exists (String a m), rest.
      * intros Hk. now exists "", (String a s).
    + intros Hk. now exists "", (String a s).
Qed.

Lemma star_greedy_complete {A} (p : ascii -> bool) (m rest : string) (k : string -> option A) :
  all_chars p m -> k rest <> None -> star_greedy p (m ++ rest) k <> None.
Proof.
  intros Hm Hk. induction m as [|a m IH]; simpl.
  - destruct rest as [|b rest]; simpl; [exact Hk |].
    destruct (p b); [| exact Hk].
    now destruct (star_greedy p rest k).
  - destruct Hm as [Ha Hm]. rewrite Ha.
    specialize (IH Hm). now destruct (star_greedy p (m ++ rest) k).
Qed.

Lemma rmatch_sound {A} (r : regex) :
  forall (s : string) (g : option string) (k : string -> option string -> option A) (x : A),
    rmatch r s g k = Some x ->
    exists m rest g', s = m ++ rest /\ lang r m /\ k rest g' = Some x.
Proof.
  induction r as [l | r1 IH1 r2 IH2 | r1 IH1 r2 IH2 | r1 IH1 | p | r1 IH1];
    intros s g k x; simpl.
  - destruct (strip_prefix l s) as [rest|] eqn:E; [| discriminate].
    intros Hk. exists l, rest, g. now rewrite (strip_prefix_Some _ _ _ E).
  - intros H1. destruct (IH1 _ _ _ _ H1) as (m1 & s1 & g1 & -> & L1 & H2).
    destruct (IH2 _ _ _ _ H2) as (m2 & s2 & g2 & -> & L2 & Hk).
    exists (m1 ++ m2), s2, g2. rewrite append_assoc. eauto 8.
  - destruct (rmatch r1 s g k) as [y|] eqn:E1.
    + intros [= <-]. destruct (IH1 _ _ _ _ E1) as (m & rest & g' & -> & L & Hk). eauto 8.
    + intros E2. destruct (IH2 _ _ _ _ E2) as (m & rest & g' & -> & L & Hk). eauto 8.
  - destruct (rmatch r1 s g k) as [y|] eqn:E1.
    + intros [= <-]. destruct (IH1 _ _ _ _ E1) as (m & rest & g' & -> & L & Hk). eauto 8.
    + intros Hk. exists "", s, g. auto.
  - destruct s as [|a s]; [discriminate |].
    destruct (p a) eqn:Hp; [| discriminate].
    intros Hs. destruct (star_greedy_sound _ _ _ _ Hs) as (m & rest & -> & Hm & Hk).
    exists (String a m), rest, g. repeat split; auto; try discriminate.
  - intros H1. destruct (IH1 _ _ _ _ H1) as (m & rest & g' & -> & L & Hk). eauto 8.
Qed.

Lemma rmatch_complete {A} (r : regex) :
  forall (m rest : string) (g : option string) (k : string -> option string -> option A),
    lang r m -> (forall g', k rest g' <> None) -> rmatch r (m ++ rest) g k <> None.
Proof.
  induction r as [l | r1 IH1 r2 IH2 | r1 IH1 r2 IH2 | r1 IH1 | p | r1 IH1];
    intros m rest g k; simpl.
  - intros -> Hk. rewrite strip_prefix_app. apply Hk.
  - intros (m1 & m2 & -> & L1 & L2) Hk. rewrite append_assoc.
    apply IH1; [exact L1 |]. intros g'. now apply IH2.
  - intros [L | L] Hk.
    + specialize (IH1 m rest g k L Hk). now destruct (rmatch r1 (m ++ rest) g k).
    + specialize (IH2 m rest g k L Hk). now destruct (rmatch r1 (m ++ rest) g k).
  - intros [L | ->] Hk.
    + specialize (IH1 m rest g k L Hk). now destruct (rmatch r1 (m ++ rest) g k).
    + simpl. destruct (rmatch r1 rest g k); [discriminate | apply Hk].
  - intros [Hne Hm] Hk. destruct m as [|a m]; [congruence |].
    destruct Hm as [Ha Hm]. simpl. rewrite Ha.
    apply star_greedy_complete; [exact Hm | apply Hk].
  - intros L Hk. apply IH1; [exact L |]. intros g'. apply Hk.
Qed.

Lemma re_search_unfold (r : regex) (s : string) :
  re_search r s =
  match rmatch r s None (fun _ g => Some g) with
  | Some g => Some g
  | None => match s with EmptyString => None | String _ s' => re_search r s' end
  end.
Proof. destruct s; reflexivity. Qed.

Lemma re_search_sound (r : regex) (s : string) (g : option string) :
  re_search r s = Some g -> exists before m after, s = before ++ m ++ after /\ lang r m.
Proof.
  induction s as [|a s IH]; rewrite re_search_unfold.
  - destruct (rmatch r "" None (fun _ g0 => Some g0)) eqn:E; [| discriminate].
    intros _. destruct (rmatch_sound _ _ _ _ _ E) as (m & rest & _ & Hs & L & _).
    exists "", m, rest. auto.
  - destruct (rmatch r (String a s) None (fun _ g0 => Some g0)) eqn:E.
    + intros _. destruct (rmatch_sound _ _ _ _ _ E) as (m & rest & _ & Hs & L & _).
      exists "", m, rest. auto.
    + intros Hs. destruct (IH Hs) as (b & m & c & -> & L).
      exists (String a b), m, c. auto.
Qed.

Lemma re_search_complete (r : regex) (before m after : string) :
  lang r m -> re_search r (before ++ m ++ after) <> None.
Proof.
  intros L. induction before as [|a b IH]; rewrite re_search_unfold.
  - simpl. pose proof (rmatch_complete r m after None (fun _ g => Some g) L) as Hc.
    destruct (rmatch r (m ++ after) None (fun _ g => Some g)); [discriminate |].
    destruct Hc; [discriminate | reflexivity].
  - simpl. now destruct (rmatch r (String a (b ++ m ++ after)) None (fun _ g => Some g)).
Qed.

(** A pattern without anchors that finds nothing in a string finds
    nothing in any part of it. *)
Lemma re_search_none_within (r : regex) (s before after : string) :
  re_search r (before ++ s ++ after) = None -> re_search r s = None.
Proof.
  intros Hn. destruct (re_search r s) as [g|] eqn:E; [| reflexivity].
  destruct (re_search_sound _ _ _ E) as (b & m & c & -> & L).
  destruct (re_search_complete r (before ++ b) m (c ++ after) L).
  rewrite <- Hn. f_equal. now rewrite !append_assoc.
Qed.

(** ** The shortcode extractor *)

Lemma truthy_PStr (s : string) : truthy (PStr s) = false <-> s = "".
Proof.
  simpl. destruct (String.eqb s "") eqn:E.
  - apply String.eqb_eq in E. now split.
  - apply String.eqb_neq in E. now split.
Qed.

Lemma extract_bare (x : string) :
  str_contains "/stories/" x = false -> re_search url_pattern x = None ->
  extract_instagram_shortcode (PStr x) = Ok (PStr (strip "/" x)).
Proof.
  intros Hs Hr. unfold extract_instagram_shortcode.
  destruct (truthy (PStr x)) eqn:Ht; simpl negb; cbv iota.
  - unfold py_in. now rewrite Hs, Hr.
  - apply truthy_PStr in Ht as ->. reflexivity.
Qed.

(** C7.  The extractor fails with the unsupported-stories error exactly
    on the inputs in which ["/stories/"] occurs; on those inputs it
    returns nothing, and on every other input it returns a value. *)
Theorem stories_rejected_iff_marker_occurs (x : string) :
  (occurs_in "/stories/" x <-> extract_instagram_shortcode (PStr x) = Raise stories_error)
  /\ (~ occurs_in "/stories/" x <-> exists v, extract_instagram_shortcode (PStr x) = Ok v).
Proof.
  rewrite <- str_contains_occurs. unfold extract_instagram_shortcode.
  destruct (truthy (PStr x)) eqn:Ht; simpl negb; cbv iota.
  - unfold py_in. destruct (str_contains "/stories/" x) eqn:Hs.
    + split; split; try tauto; try congruence. now intros [v Hv].
    + split; split; try congruence.
      * destruct (re_search url_pattern x) as [[c|]|]; discriminate.
      * intros _. destruct (re_search url_pattern x) as [[c|]|]; eauto.
  - apply truthy_PStr in Ht as ->.
    split; split; try discriminate; eauto.
Qed.

(** C4, as the code has it.  On a non-empty input without the stories
    marker that the URL pattern does not match, the result is the input
    without the slashes at its two ends: every leading and every trailing
    [/] is removed, and nothing else. *)
Theorem bare_identifier_loses_slashes_at_both_ends (x : string) :
  x <> "" ->
  str_contains "/stories/" x = false ->
  re_search url_pattern x = None ->
  exists y n m,
    extract_instagram_shortcode (PStr x) = Ok (PStr y)
    /\ x = run_of "/" n ++ y ++ run_of "/" m
    /\ (forall t, y <> String "/" t)
    /\ (forall t, y <> t ++ "/").
Proof.
  intros _ Hs Hr. destruct (strip_runs "/" x) as (n & m & Hx).
  exists (strip "/" x), n, m. split; [now apply extract_bare |].
  split; [exact Hx |]. split.
  - apply strip_no_head.
  - intros t. unfold strip. apply rstrip_no_last.
Qed.

Lemma bare_identifier_loses_slashes_at_both_ends_witness :
  "/abc//" <> ""
  /\ str_contains "/stories/" "/abc//" = false
  /\ re_search url_pattern "/abc//" = None
  /\ exists y n m,
       extract_instagram_shortcode (PStr "/abc//") = Ok (PStr y)
       /\ "/abc//" = run_of "/" n ++ y ++ run_of "/" m
       /\ (forall t, y <> String "/" t)
       /\ (forall t, y <> t ++ "/").
Proof.
  split; [discriminate |]. split; [reflexivity |]. split; [reflexivity |].
  apply (bare_identifier_loses_slashes_at_both_ends "/abc//");
    [discriminate | reflexivity | reflexivity].
Defined.

(** C4, as the claim words it, fails: a leading slash does not survive. *)
Lemma only_trailing_slash_removed_refuted :
  ~ (forall x : string,
       x <> "" ->
       str_contains "/stories/" x = false ->
       re_search url_pattern x = None ->
       extract_instagram_shortcode (PStr x) = Ok (PStr (without_trailing_slash x))).
Proof.
  intros H. specialize (H "/abc"). discriminate H; [discriminate | reflexivity | reflexivity].
Qed.

(** C8.  On an input that is not a URL and has no stories marker the
    extractor returns a value, and running it again on that value
    returns the same value. *)
Theorem extract_idempotent_on_bare_shortcodes (x : string) :
  str_contains "/stories/" x = false ->
  re_search url_pattern x = None ->
  exists y,
    extract_instagram_shortcode (PStr x) = Ok (PStr y)
    /\ extract_instagram_shortcode (PStr y) = Ok (PStr y).
Proof.
  intros Hs Hr. exists (strip "/" x). split; [now apply extract_bare |].
  destruct (strip_runs "/" x) as (n & m & Hx).
  rewrite extract_bare.
  - now rewrite strip_idem.
  - apply (str_contains_false_within _ _ (run_of "/" n) (run_of "/" m)). now rewrite <- Hx.
  - apply (re_search_none_within _ _ (run_of "/" n) (run_of "/" m)). now rewrite <- Hx.
Qed.

Lemma extract_idempotent_on_bare_shortcodes_witness :
  str_contains "/stories/" "/hIj901KlM/" = false
  /\ re_search url_pattern "/hIj901KlM/" = None
  /\ exists y,
       extract_instagram_shortcode (PStr "/hIj901KlM/") = Ok (PStr y)
       /\ extract_instagram_shortcode (PStr y) = Ok (PStr y).
Proof.
  split; [reflexivity |]. split; [reflexivity |].
  apply (extract_idempotent_on_bare_shortcodes "/hIj901KlM/"); reflexivity.
Defined.

(** ** The request wrapper *)

Lemma sent_request_None `{Runtime} (access_token endpoint method : string)
    (params data : pyval) (api_version : string) :
  py_upper method <> "GET" -> py_upper method <> "POST" -> py_upper method <> "DELETE" ->
  sent_request access_token endpoint method params data api_version = None.
Proof.
  intros Hg Hp Hd. unfold sent_request.
  apply String.eqb_neq in Hg, Hp, Hd. now rewrite Hg, Hp, Hd.
Qed.

(** What the wrapper does with the answer to its request. *)
Lemma make_api_request_sent `{Runtime} (access_token endpoint method : string)
    (params data : pyval) (api_version : string) (tr : list http_request) :
  make_api_request access_token endpoint method params data api_version tr =
  match sent_request access_token endpoint method params data api_version with
  | None => (Ok (PNone, PStr ("Unsupported HTTP method: " ++ method)), tr)
  | Some req =>
      (match remote tr req with
       | Raises e => Ok (PNone, PStr (caught_prefix e ++ exn_str e))
       | Returns response =>
           match json response with
           | Raises e => Ok (PNone, PStr (caught_prefix e ++ exn_str e))
           | Returns response_data =>
               if (status_code response =? 200)%Z then Ok (response_data, PNone)
               else
                 match py_get response_data "error" (PDict []) with
                 | Ok error =>
                     match py_get error "message" (PStr (text response)),
                           py_get error "code" (PInt (status_code response)) with
                     | Ok error_msg, Ok error_code =>
                         Ok (PNone, PStr ("API Error " ++ py_str error_code ++ ": "
                                          ++ py_str error_msg))
                     | Raise e, _ => Ok (PNone, PStr (caught_prefix e ++ exn_str e))
                     | _, Raise e => Ok (PNone, PStr (caught_prefix e ++ exn_str e))
                     | _, _ => Ok (PNone, PNone)
                     end
                 | Raise e => Ok (PNone, PStr (caught_prefix e ++ exn_str e))
                 | Exit c => Exit c
                 end
           end
       end, (tr ++ [req])%list)
  end.
Proof.
  unfold make_api_request, sent_request, caught_prefix, try_except, bind, call, lift, ret.
  destruct (py_upper method =? "GET");
    [| destruct (py_upper method =? "POST"); [| destruct (py_upper method =? "DELETE")]];
    try reflexivity.
  all: match goal with |- context [remote ?t ?r] => destruct (remote t r) as [resp|e] end;
    simpl; [| now destruct (exn_is_request_exception e)].
  all: destruct (json resp) as [response_data|e]; simpl;
    [| now destruct (exn_is_request_exception e)].
  all: destruct (status_code resp =? 200)%Z; try reflexivity.
  all: destruct response_data; simpl; try reflexivity.
  all: match goal with |- context [dict_lookup "error" ?d] => destruct (dict_lookup "error" d) as [error|] end;
    simpl; try reflexivity.
  all: destruct error; simpl; reflexivity.
Qed.

(** two equations on the same answer of the environment are one *)
Ltac settle_answer :=
  intros; simplify_eq;
  repeat match goal with
         | H1 : ?x = _, H2 : ?x = _ |- _ => rewrite H1 in H2; simplify_eq
         end;
  try reflexivity.

(** C9.  [make_api_request] always returns a pair to its caller; no
    exception leaves it.  Whatever raises inside it is reported in the
    error string: an exception of the transport, or of decoding the
    body, as ["Request error: ..."] when it is a [RequestException] and
    as ["Unexpected error: ..."] otherwise; the [AttributeError] of
    reading the error out of a non-200 answer whose body, or whose
    ["error"] entry, is not an object, as ["Unexpected error: ..."] with
    the text of that exception.  In each of these cases the value is
    [None].  A method that is none of GET, POST, DELETE (compared in
    upper case, as the code does) is reported as
    ["Unsupported HTTP method: ..."], and no request is issued. *)
Theorem make_api_request_never_raises `{Runtime} (access_token endpoint method : string)
    (params data : pyval) (api_version : string) (tr : list http_request) :
  exists value error tr',
    make_api_request access_token endpoint method params data api_version tr
    = (Ok (value, error), tr')
    /\ (py_upper method <> "GET" -> py_upper method <> "POST" -> py_upper method <> "DELETE" ->
        value = PNone /\ error = PStr ("Unsupported HTTP method: " ++ method) /\ tr' = tr)
    /\ (forall req e,
          sent_request access_token endpoint method params data api_version = Some req ->
          remote tr req = Raises e ->
          value = PNone
          /\ error = PStr ((if exn_is_request_exception e
                            then "Request error: " else "Unexpected error: ") ++ exn_str e))
    /\ (forall req response e,
          sent_request access_token endpoint method params data api_version = Some req ->
          remote tr req = Returns response ->
          json response = Raises e ->
          value = PNone
          /\ error = PStr ((if exn_is_request_exception e
                            then "Request error: " else "Unexpected error: ") ++ exn_str e))
    /\ (forall req response body,
          sent_request access_token endpoint method params data api_version = Some req ->
          remote tr req = Returns response ->
          json response = Returns body ->
          status_code response <> 200%Z ->
          not_object body ->
          value = PNone /\ error = PStr ("Unexpected error: " ++ no_get body))
    /\ (forall req response body entry,
          sent_request access_token endpoint method params data api_version = Some req ->
          remote tr req = Returns response ->
          json response = Returns (PDict body) ->
          status_code response <> 200%Z ->
          dict_lookup "error" body = Some entry ->
          not_object entry ->
          value = PNone /\ error = PStr ("Unexpected error: " ++ no_get entry)).
Proof.
  rewrite make_api_request_sent. unfold caught_prefix.
  destruct (sent_request access_token endpoint method params data api_version) as [req|] eqn:Hs.
  2: { do 3 eexists. split; [reflexivity |]. repeat split; discriminate. }
  assert (Hsup : py_upper method <> "GET" -> py_upper method <> "POST" ->
                 py_upper method <> "DELETE" -> False).
  { intros Hg Hp Hd. now rewrite sent_request_None in Hs. }
  destruct (remote tr req) as [response|e] eqn:Hr.
  2: { do 3 eexists. split; [reflexivity |].
       split; [intros Hg Hp Hd; destruct (Hsup Hg Hp Hd) |].
       repeat split; settle_answer. }
  destruct (json response) as [response_data|e] eqn:Hj.
  2: { do 3 eexists. split; [reflexivity |].
       split; [intros Hg Hp Hd; destruct (Hsup Hg Hp Hd) |].
       repeat split; settle_answer. }
  destruct (status_code response =? 200)%Z eqn:Hst.
  { apply Z.eqb_eq in Hst. do 3 eexists. split; [reflexivity |].
    split; [intros Hg Hp Hd; destruct (Hsup Hg Hp Hd) |].
    repeat split; settle_answer; congruence. }
  assert (Hobj : forall d, not_object (PDict d) -> False) by (intros d Hn; now apply (Hn d)).
  destruct response_data as [| b | z | s | l | d]; simpl.
  1-5: do 3 eexists; (split; [reflexivity |]);
       (split; [intros Hg Hp Hd; destruct (Hsup Hg Hp Hd) |]);
       repeat split; settle_answer.
  destruct (dict_lookup "error" d) as [entry|] eqn:He; simpl.
  2: { do 3 eexists. split; [reflexivity |].
       split; [intros Hg Hp Hd; destruct (Hsup Hg Hp Hd) |].
       repeat split; settle_answer; now destruct (Hobj d). }
  destruct entry as [| b | z | s | l | d']; simpl.
  all: do 3 eexists; (split; [reflexivity |]);
       (split; [intros Hg Hp Hd; destruct (Hsup Hg Hp Hd) |]);
       repeat split; settle_answer;
       try (now destruct (Hobj d)); try (now destruct (Hobj d')).
Qed.

(** An unknown method, and a 400 answer whose body is a list. *)
Lemma make_api_request_never_raises_witness :
  (let R := scripted [] in
   py_upper "patch" <> "GET" /\ py_upper "patch" <> "POST" /\ py_upper "patch" <> "DELETE"
   /\ exists value error tr',
        make_api_request "token" "123/ads" "patch" PNone PNone GRAPH_API_VERSION []
        = (Ok (value, error), tr')
        /\ value = PNone /\ error = PStr "Unsupported HTTP method: patch" /\ tr' = [])
  /\ (let R := scripted [json_response 400 (PList [PInt 1])] in
      exists value error tr',
        make_api_request "token" "123/ads" "GET" PNone PNone GRAPH_API_VERSION []
        = (Ok (value, error), tr')
        /\ value = PNone
        /\ error = PStr "Unexpected error: 'list' object has no attribute 'get'").
Proof.
  split.
  - intros R. split; [discriminate |]. split; [discriminate |]. split; [discriminate |].
    destruct (make_api_request_never_raises (H := R) "token" "123/ads" "patch" PNone PNone
                GRAPH_API_VERSION [])
      as (value & error & tr' & Hrun & Hunsupported & _).
    exists value, error, tr'. split; [exact Hrun |].
    apply Hunsupported; discriminate.
  - intros R.
    destruct (make_api_request_never_raises (H := R) "token" "123/ads" "GET" PNone PNone
                GRAPH_API_VERSION [])
      as (value & error & tr' & Hrun & _ & _ & _ & Hbody & _).
    exists value, error, tr'. split; [exact Hrun |].
    apply (Hbody (HttpRequest GET (PStr "https://graph.facebook.com/v22.0/123/ads")
                    (bearer_headers "token") PNone PNone)
                 (Response 400 "{...}" (Returns (PList [PInt 1]))) (PList [PInt 1]));
      [reflexivity | reflexivity | reflexivity | discriminate | intros d; discriminate].
Defined.

(** C5, as the claim words it, fails: a 500 answer whose body is not
    JSON is not reported as ["API Error ..."], whatever code and message
    one reads into that form. *)
Lemma api_error_for_every_non_200_refuted :
  ~ (forall (R : Runtime) (access_token endpoint : string) (params : pyval)
            (tr : list http_request) (req : http_request) (response : response),
       sent_request access_token endpoint "GET" params PNone GRAPH_API_VERSION = Some req ->
       remote tr req = Returns response ->
       status_code response <> 200%Z ->
       exists code message,
         fst (make_api_request access_token endpoint "GET" params PNone GRAPH_API_VERSION tr)
         = Ok (PNone, PStr ("API Error " ++ code ++ ": " ++ message))).
Proof.
  intros Hclaim.
  destruct (Hclaim (scripted [html_response 500 "<html>Bad gateway</html>"])
              "token" "123/ads" PNone []
              (HttpRequest GET (PStr "https://graph.facebook.com/v22.0/123/ads")
                           (bearer_headers "token") PNone PNone)
              (Response 500 "<html>Bad gateway</html>"
                        (Raises (Exn true true "Expecting value: line 1 column 1 (char 0)")))
              eq_refl eq_refl) as (code & message & Hrun).
  - discriminate.
  - vm_compute in Hrun. discriminate Hrun.
Qed.

(** C5, as the code has it.  For a request that is answered: when the
    body decodes, a 200 status returns the decoded body and no error,
    and any other status, on a body that is a JSON object whose
    ["error"] entry is absent or an object, returns the failure
    ["API Error {code}: {message}"], where code is the entry ["code"] of
    the error object and defaults to the HTTP status, and message is its
    entry ["message"] and defaults to the raw text, each on its own.
    When the body does not decode, the failure is ["Request error: ..."]
    or ["Unexpected error: ..."] with the text of the decoding exception,
    whatever the status.  When a status other than 200 comes with a body
    that is not an object, or with an ["error"] entry that is not one,
    the failure is ["Unexpected error: ..."] with the text of the
    [AttributeError]. *)
Theorem api_outcome_of_decoded_answer `{Runtime} (access_token endpoint method : string)
    (params data : pyval) (api_version : string) (tr : list http_request)
    (req : http_request) (response : response) :
  sent_request access_token endpoint method params data api_version = Some req ->
  remote tr req = Returns response ->
  let run := make_api_request access_token endpoint method params data api_version tr in
  (forall response_data,
     json response = Returns response_data ->
     status_code response = 200%Z ->
     run = (Ok (response_data, PNone), (tr ++ [req])%list))
  /\ (forall body error,
        json response = Returns (PDict body) ->
        status_code response <> 200%Z ->
        nested_error body = Some error ->
        run = (Ok (PNone,
                   PStr ("API Error "
                         ++ py_str (lookup_or "code" error (PInt (status_code response)))
                         ++ ": "
                         ++ py_str (lookup_or "message" error (PStr (text response))))),
               (tr ++ [req])%list))
  /\ (forall e,
        json response = Raises e ->
        run = (Ok (PNone, PStr (caught_prefix e ++ exn_str e)), (tr ++ [req])%list))
  /\ (forall response_data,
        json response = Returns response_data ->
        status_code response <> 200%Z ->
        not_object response_data ->
        run = (Ok (PNone, PStr ("Unexpected error: " ++ no_get response_data)),
               (tr ++ [req])%list))
  /\ (forall body entry,
        json response = Returns (PDict body) ->
        status_code response <> 200%Z ->
        dict_lookup "error" body = Some entry ->
        not_object entry ->
        run = (Ok (PNone, PStr ("Unexpected error: " ++ no_get entry)), (tr ++ [req])%list)).
Proof.
  intros Hs Hr run. unfold run. rewrite make_api_request_sent, Hs, Hr.
  split; [| split; [| split; [| split]]].
  - intros response_data -> ->. reflexivity.
  - intros body error -> Hstatus Hn. apply Z.eqb_neq in Hstatus. rewrite Hstatus.
    unfold nested_error in Hn. unfold lookup_or. simpl.
    destruct (dict_lookup "error" body) as [[| | | | |e]|]; try discriminate; simpl.
    + injection Hn as <-. reflexivity.
    + injection Hn as <-. reflexivity.
  - intros e ->. reflexivity.
  - intros response_data -> Hstatus Hobj. apply Z.eqb_neq in Hstatus. rewrite Hstatus.
    destruct response_data; try reflexivity. now destruct (Hobj d).
  - intros body entry -> Hstatus He Hobj. apply Z.eqb_neq in Hstatus. rewrite Hstatus.
    simpl. rewrite He. destruct entry; try reflexivity. now destruct (Hobj d).
Qed.

(** A 400 answer with a nested error object, and a 502 answer whose body
    is a page of HTML. *)
Lemma api_outcome_of_decoded_answer_witness :
  let req := HttpRequest GET (PStr "https://graph.facebook.com/v22.0/123/ads")
                         (bearer_headers "token") PNone PNone in
  (let R := scripted [json_response 400
                        (PDict [("error", PDict [("code", PInt 100);
                                                 ("message", PStr "Invalid parameter")])])] in
   sent_request "token" "123/ads" "get" PNone PNone GRAPH_API_VERSION = Some req
   /\ make_api_request "token" "123/ads" "get" PNone PNone GRAPH_API_VERSION []
      = (Ok (PNone, PStr "API Error 100: Invalid parameter"), [req]))
  /\ (let R := scripted [html_response 502 "<html>Bad gateway</html>"] in
      make_api_request "token" "123/ads" "get" PNone PNone GRAPH_API_VERSION []
      = (Ok (PNone, PStr "Request error: Expecting value: line 1 column 1 (char 0)"), [req])).
Proof.
  intros req. split.
  - intros R. split; [reflexivity |].
    refine (proj1 (proj2 (api_outcome_of_decoded_answer (H := R) "token" "123/ads" "get"
                            PNone PNone GRAPH_API_VERSION [] req _ eq_refl eq_refl))
                  _ [("code", PInt 100); ("message", PStr "Invalid parameter")]
                  eq_refl _ eq_refl).
    discriminate.
  - intros R.
    exact (proj1 (proj2 (proj2 (api_outcome_of_decoded_answer (H := R) "token" "123/ads" "get"
                                  PNone PNone GRAPH_API_VERSION [] req _ eq_refl eq_refl)))
                 _ eq_refl).
Defined.

(** ** The paginated listing *)

Lemma firstn_length_exact {A} (n : nat) (l : list A) :
  (n <= List.length l)%nat -> List.length (firstn n l) = n.
Proof. intros Hn. rewrite length_firstn. lia. Qed.

(** The page that brings the total to the limit ends the loop, whatever
    its paging entry says. *)
Lemma fetch_pages_break `{Runtime} (fuel : nat) (headers : list (string * string))
    (only_with_permission : bool) (N : Z) (url params body : pyval)
    (all_medias items : list pyval) (tr : list http_request) :
  (0 < N)%Z ->
  is_page headers only_with_permission tr url params body items ->
  (N <= Z.of_nat (List.length (all_medias ++ items)%list))%Z ->
  fetch_pages (S fuel) headers (Some N) only_with_permission url params all_medias tr
  = (Ok (Some (firstn (Z.to_nat N) (all_medias ++ items)%list)),
     (tr ++ [HttpRequest GET url headers params PNone])%list).
Proof.
  intros HN (response & medias & Hr & Hst & Hj & Hin & Hget & Hadm) Hreach.
  simpl. unfold bind, call, lift, ret. rewrite Hr. simpl. rewrite Hst, Hj. simpl.
  rewrite Hin, Hget. unfold admitted in Hadm.
  assert (Hlim : negb (N =? 0)%Z = true) by (apply negb_true_iff, Z.eqb_neq; lia).
  assert (Hle : (N <=? Z.of_nat (List.length (all_medias ++ items)%list))%Z = true)
    by now apply Z.leb_le.
  assert (Hslice : slice_to N (all_medias ++ items)%list
                   = firstn (Z.to_nat N) (all_medias ++ items)%list).
  { unfold slice_to. destruct (0 <=? N)%Z eqn:E; [reflexivity |]. apply Z.leb_gt in E. lia. }
  destruct only_with_permission.
  - unfold result_bind in Hadm. destruct (py_iter medias) as [its| |]; try discriminate.
    rewrite Hadm. simpl. rewrite Hlim, Hle. simpl. now rewrite Hslice.
  - rewrite Hadm. rewrite Hlim, Hle. simpl. now rewrite Hslice.
Qed.

(** A page that leaves the total under the limit and links to a next
    page sends the loop there. *)
Lemma fetch_pages_next `{Runtime} (fuel : nat) (headers : list (string * string))
    (only_with_permission : bool) (N : Z) (url params body next : pyval)
    (all_medias items : list pyval) (tr : list http_request) :
  is_page headers only_with_permission tr url params body items ->
  links_to body next ->
  (Z.of_nat (List.length (all_medias ++ items)%list) < N)%Z ->
  fetch_pages (S fuel) headers (Some N) only_with_permission url params all_medias tr
  = fetch_pages fuel headers (Some N) only_with_permission next (PDict [])
      (all_medias ++ items)%list (tr ++ [HttpRequest GET url headers params PNone])%list.
Proof.
  intros (response & medias & Hr & Hst & Hj & Hin & Hget & Hadm)
         (paging & Hp & Hpg & Hn & Hng) Hunder.
  simpl. unfold bind, call, lift, ret. rewrite Hr. simpl. rewrite Hst, Hj. simpl.
  rewrite Hin, Hget. unfold admitted in Hadm.
  assert (Hle : (N <=? Z.of_nat (List.length (all_medias ++ items)%list))%Z = false)
    by now apply Z.leb_gt.
  destruct only_with_permission.
  - unfold result_bind in Hadm. destruct (py_iter medias) as [its| |]; try discriminate.
    rewrite Hadm. simpl. rewrite Hle, andb_false_r. rewrite Hp, Hpg, Hn, Hng. reflexivity.
  - rewrite Hadm. rewrite Hle, andb_false_r. rewrite Hp, Hpg, Hn, Hng. reflexivity.
Qed.

Lemma pages_before_trace `{Runtime} (headers : list (string * string))
    (only_with_permission : bool) tr url params pages tr' url' params' :
  pages_before headers only_with_permission tr url params pages tr' url' params' ->
  List.length tr' = (List.length tr + List.length pages)%nat.
Proof.
  induction 1 as [|tr url params body items next rest tr' url' params' _ _ _ IH]; simpl.
  - lia.
  - rewrite IH, length_app. simpl. lia.
Qed.

(** C2.  With a limit [N] (a positive count), the page that brings the
    number of admitted items to [N] or more ends the fetch: the result
    is the first [N] admitted items, exactly [N] of them, and the only
    requests issued are those for the pages up to that one; the next
    link of that page, if it has one, is not followed. *)
Theorem limit_truncates_and_stops `{Runtime} (headers : list (string * string))
    (only_with_permission : bool) (N : Z) (fuel : nat)
    (tr : list http_request) (url params : pyval) (all_medias : list pyval)
    (earlier : list (list pyval)) (tr1 : list http_request) (url1 params1 body : pyval)
    (items : list pyval) :
  (0 < N)%Z ->
  pages_before headers only_with_permission tr url params earlier tr1 url1 params1 ->
  (Z.of_nat (List.length (all_medias ++ List.concat earlier)%list) < N)%Z ->
  is_page headers only_with_permission tr1 url1 params1 body items ->
  (N <= Z.of_nat (List.length (all_medias ++ List.concat earlier ++ items)%list))%Z ->
  (List.length earlier < fuel)%nat ->
  exists result,
    fetch_pages fuel headers (Some N) only_with_permission url params all_medias tr
    = (Ok (Some result), (tr1 ++ [HttpRequest GET url1 headers params1 PNone])%list)
    /\ result = firstn (Z.to_nat N) (all_medias ++ List.concat earlier ++ items)%list
    /\ Z.of_nat (List.length result) = N
    /\ List.length (tr1 ++ [HttpRequest GET url1 headers params1 PNone])%list
       = (List.length tr + List.length earlier + 1)%nat.
Proof.
  intros HN Hpages. revert fuel all_medias.
  induction Hpages as [tr url params
                      |tr url params body0 items0 next rest tr' url' params' Hpage Hlink _ IH];
    intros fuel all_medias Hunder Hlast Hreach Hfuel.
  - destruct fuel as [|fuel]; [simpl in Hfuel; lia |].
    simpl in Hreach. eexists. split; [eapply fetch_pages_break; eassumption |].
    split; [reflexivity |]. split.
    + rewrite firstn_length_exact; lia.
    + rewrite length_app. simpl. lia.
  - destruct fuel as [|fuel]; [simpl in Hfuel; lia |].
    simpl in Hunder, Hreach, Hfuel.
    rewrite (fetch_pages_next fuel headers only_with_permission N url params body0 next
               all_medias items0 tr) by
      (try assumption; rewrite !length_app in *; lia).
    destruct (IH fuel (all_medias ++ items0)%list) as (result & Hrun & Hres & Hlen & Htr).
    + rewrite !length_app in *. lia.
    + exact Hlast.
    + rewrite !length_app in *. lia.
    + lia.
    + exists result. split; [exact Hrun |].
      split; [rewrite Hres; f_equal; simpl; now rewrite <- !app_assoc |].
      split; [exact Hlen |]. rewrite Htr, length_app. simpl. lia.
Qed.

(** Three admitted medias on the first page and a limit of two: one
    request, two medias, and the second page is never asked for. *)
Lemma limit_truncates_and_stops_witness :
  let R := two_pages in
  let url := PStr "https://graph.facebook.com/v22.0/17841400875057971/branded_content_advertisable_medias" in
  let headers := bearer_headers "token" in
  exists result,
    fetch_pages 5 headers (Some 2%Z) true url (PDict [("limit", PInt 25)]) [] []
    = (Ok (Some result), [HttpRequest GET url headers (PDict [("limit", PInt 25)]) PNone])
    /\ result = [media "media_0"; media "media_1"]
    /\ Z.of_nat (List.length result) = 2%Z
    /\ List.length [HttpRequest GET url headers (PDict [("limit", PInt 25)]) PNone] = 1%nat.
Proof.
  intros R url headers.
  refine (limit_truncates_and_stops (H := R) headers true 2 5 [] url
            (PDict [("limit", PInt 25)]) [] [] [] url (PDict [("limit", PInt 25)])
            (PDict [("data", PList [media "media_0"; media "media_1"; media "media_2"]);
                    ("paging", PDict [("next", PStr "https://graph.facebook.com/v22.0/next_page")])])
            [media "media_0"; media "media_1"; media "media_2"]
            _ (pages_none _ _ _ _ _) _ _ _ _).
  - reflexivity.
  - reflexivity.
  - eexists _, _. repeat split; reflexivity.
  - simpl. lia.
  - simpl. lia.
Defined.

(** ** No stage ends the process *)

Lemma pure_ok_Ok {A} (a : A) : pure_ok (Ok a).
Proof. intros c. discriminate. Qed.

Lemma pure_ok_Raise {A} (e : exn) : pure_ok (@Raise A e).
Proof. intros c. discriminate. Qed.

Lemma pure_ok_bind {A B} (r : result A) (k : A -> result B) :
  pure_ok r -> (forall a, pure_ok (k a)) -> pure_ok (result_bind r k).
Proof.
  intros Hr Hk c. destruct r as [a|e|c0]; simpl.
  - apply Hk.
  - discriminate.
  - now destruct (Hr c0).
Qed.

Lemma pure_ok_of_reply {A} (r : reply A) : pure_ok (of_reply r).
Proof. destruct r; intros c; discriminate. Qed.

Lemma pure_ok_py_in (key : string) (v : pyval) : pure_ok (py_in key v).
Proof. destruct v; intros c; discriminate. Qed.

Lemma pure_ok_py_getitem (v : pyval) (key : string) : pure_ok (py_getitem v key).
Proof. destruct v; simpl; try (intros c; discriminate). destruct (dict_lookup key d); intros c; discriminate. Qed.

Lemma pure_ok_py_getitem0 (v : pyval) : pure_ok (py_getitem0 v).
Proof. destruct v as [| | |[|]|[|]|]; intros c; discriminate. Qed.

Lemma pure_ok_py_len (v : pyval) : pure_ok (py_len v).
Proof. destruct v; intros c; discriminate. Qed.

Lemma pure_ok_py_get (v : pyval) (key : string) (default : pyval) :
  pure_ok (py_get v key default).
Proof. destruct v; intros c; discriminate. Qed.

Lemma pure_ok_py_iter (v : pyval) : pure_ok (py_iter v).
Proof. destruct v; intros c; discriminate. Qed.

Lemma pure_ok_all_strs (l : list pyval) : forall i, pure_ok (all_strs i l).
Proof.
  induction l as [|v l IH]; intros i c; simpl; [discriminate |].
  destruct v; try discriminate.
  specialize (IH (i + 1)%Z). destruct (all_strs (i + 1) l); try discriminate.
  now destruct (IH code).
Qed.

Lemma pure_ok_py_join (sep : string) (v : pyval) : pure_ok (py_join sep v).
Proof.
  intros c. unfold py_join. pose proof (pure_ok_py_iter v) as Hi.
  destruct (py_iter v) as [l|e|c0]; [| discriminate | now destruct (Hi c0)].
  pose proof (pure_ok_all_strs l 0%Z) as Hs.
  destruct (all_strs 0 l) as [ss|e|c0]; [discriminate | discriminate | now destruct (Hs c0)].
Qed.

Lemma pure_ok_permission_filter (l : list pyval) : pure_ok (permission_filter l).
Proof.
  induction l as [|m l IH]; intros c; simpl; [discriminate |].
  pose proof (pure_ok_py_get m "has_permission_for_partnership_ad" (PBool false)) as Hg.
  destruct (py_get m "has_permission_for_partnership_ad" (PBool false)) as [flag|e|c0];
    [| discriminate | now destruct (Hg c0)].
  destruct (permission_filter l) as [kept|e|c0]; [discriminate | discriminate |].
  now destruct (IH c0).
Qed.

Lemma pure_ok_extract (permalink : pyval) : pure_ok (extract_instagram_shortcode permalink).
Proof.
  intros c. unfold extract_instagram_shortcode.
  destruct (negb (truthy permalink)); [discriminate |].
  pose proof (pure_ok_py_in "/stories/" permalink) as Hi.
  destruct (py_in "/stories/" permalink) as [[|]|e|c0];
    [discriminate | | discriminate | now destruct (Hi c0)].
  destruct permalink; try discriminate.
  destruct (re_search url_pattern s) as [[code|]|]; discriminate.
Qed.

Create HintDb no_exit.
#[local] Hint Resolve pure_ok_Ok pure_ok_Raise pure_ok_of_reply pure_ok_py_in pure_ok_py_getitem
  pure_ok_py_getitem0 pure_ok_py_len pure_ok_py_get pure_ok_py_iter pure_ok_py_join
  pure_ok_permission_filter pure_ok_extract : no_exit.

Ltac pure_ok_step :=
  first
    [ apply pure_ok_bind; [| intros ?]
    | match goal with
      | |- pure_ok (if ?b then _ else _) => destruct b
      end
    | solve [auto with no_exit] ].

Lemma pure_ok_eligibility_check `{Runtime} (ad_code eligibility : pyval) :
  pure_ok (eligibility_check ad_code eligibility).
Proof. unfold eligibility_check. repeat pure_ok_step. Qed.

Lemma never_exits_ret {S A} (a : A) : never_exits (@ret S A a).
Proof. intros s c s'. discriminate. Qed.

Lemma never_exits_raise {S A} (e : exn) : never_exits (@raise S A e).
Proof. intros s c s'. discriminate. Qed.

Lemma never_exits_lift {S A} (r : result A) : pure_ok r -> never_exits (@lift S A r).
Proof. intros Hr s c s' [= Hx _]. now destruct (Hr c). Qed.

Lemma never_exits_bind {S A B} (m : M S A) (k : A -> M S B) :
  never_exits m -> (forall a, never_exits (k a)) -> never_exits (bind m k).
Proof.
  intros Hm Hk s c s'. unfold bind. specialize (Hm s).
  destruct (m s) as [[a|e|c0] s0].
  - apply Hk.
  - discriminate.
  - now destruct (Hm c0 s0).
Qed.

Lemma never_exits_try_except {S A} (m : M S A) (h : exn -> M S A) :
  never_exits m -> (forall e, never_exits (h e)) -> never_exits (try_except m h).
Proof.
  intros Hm Hh s c s'. unfold try_except. specialize (Hm s).
  destruct (m s) as [[a|e|c0] s0].
  - discriminate.
  - apply Hh.
  - now destruct (Hm c0 s0).
Qed.

Lemma never_exits_call `{Runtime} (req : http_request) : never_exits (call req).
Proof. intros tr c tr'. unfold call. destruct (remote tr req); discriminate. Qed.

Lemma never_exits_modify {S} (f : S -> S) : never_exits (modify f).
Proof. intros s c s'. discriminate. Qed.

Lemma never_exits_get_state {S} : never_exits (@get_state S).
Proof. intros s c s'. discriminate. Qed.

Lemma never_exits_in_frame {A} (m : M (list http_request) A) :
  never_exits m -> never_exits (in_frame m).
Proof.
  intros Hm f c f'. unfold in_frame. specialize (Hm (trace f)).
  destruct (m (trace f)) as [[a|e|c0] tr]; try discriminate.
  now destruct (Hm c0 tr).
Qed.

#[local] Hint Resolve never_exits_ret never_exits_raise never_exits_call never_exits_modify
  never_exits_get_state pure_ok_eligibility_check : no_exit.

Ltac never_exits_step :=
  first
    [ apply never_exits_bind; [| intros ?]
    | apply never_exits_try_except; [| intros ?]
    | apply never_exits_lift
    | apply never_exits_in_frame
    | match goal with
      | |- never_exits (if ?b then _ else _) => destruct b
      | |- never_exits (match ?x with Some _ => _ | None => _ end) => destruct x
      | |- never_exits (let (_, _) := ?x in _) => destruct x
      end
    | solve [auto with no_exit] ].

Lemma never_exits_fetch `{Runtime} (access_token ig_account_id : string)
    (ad_code permalinks : pyval) :
  never_exits (fetch_branded_content_advertisable_medias access_token ig_account_id
                 ad_code permalinks).
Proof. unfold fetch_branded_content_advertisable_medias. repeat never_exits_step. Qed.

Lemma never_exits_upload `{Runtime} (access_token ad_account_id : string)
    (source_instagram_media_id ad_code : pyval) :
  never_exits (upload_instagram_video access_token ad_account_id
                 source_instagram_media_id ad_code).
Proof. unfold upload_instagram_video. repeat never_exits_step. Qed.

Lemma never_exits_creative `{Runtime}
    (access_token ad_account_id facebook_page_id ig_account_id : string)
    (source_instagram_media_id ad_code cta_type link app_link product_set_id : pyval) :
  never_exits (create_ad_creative access_token ad_account_id facebook_page_id ig_account_id
                 source_instagram_media_id ad_code cta_type link app_link product_set_id).
Proof. unfold create_ad_creative. repeat never_exits_step. Qed.

Lemma never_exits_create_ad `{Runtime} (access_token ad_account_id : string)
    (ad_name ad_set_id creative_id : pyval) :
  never_exits (create_ad access_token ad_account_id ad_name ad_set_id creative_id).
Proof. unfold create_ad. repeat never_exits_step. Qed.

(** ** The per-row pipeline *)

#[local] Arguments py_or : simpl never.

Lemma py_or_truthy (a b : pyval) : truthy a = true -> py_or a b = a.
Proof. intros Ha. unfold py_or. now rewrite Ha. Qed.

Lemma py_or_falsy (a b : pyval) : truthy a = false -> py_or a b = b.
Proof. intros Ha. unfold py_or. now rewrite Ha. Qed.

(** The three mutation stages under the row's [except] clause: one row
    is appended, and it shows how far the stages got. *)
Lemma mutation_stages_outcome `{Runtime}
    (access_token ig_account_id ad_account_id facebook_page_id : string)
    (mid ad_code cta_type link app_link ad_name ad_set_id product_set_id : pyval)
    (f : frame) :
  video_id f = PNone -> creative_id f = PNone -> published_ad_id f = PNone ->
  exists f' p,
    try_except
      (mutation_stages access_token ig_account_id ad_account_id facebook_page_id
         mid ad_code cta_type link app_link ad_name ad_set_id product_set_id)
      row_handler f = (Ok tt, f')
    /\ output_rows f' = (output_rows f ++ [row_after (output_row f) p])%list
    /\ stages_achieved access_token ig_account_id ad_account_id facebook_page_id
         ad_code cta_type link app_link ad_name ad_set_id product_set_id
         mid (trace f) p (trace f').
Proof.
  destruct f as [tr outs o v0 c0 a0]. simpl. intros -> -> ->.
  unfold mutation_stages, stages_achieved, row_handler, finish_row.
  unfold try_except, bind, in_frame, modify, get_state. simpl.
  pose proof (never_exits_upload access_token ad_account_id mid (none_unless_truthy ad_code) tr)
    as HXu.
  destruct (upload_instagram_video access_token ad_account_id mid (none_unless_truthy ad_code) tr)
    as [[[vid verr]|e|c] tr2] eqn:HU; simpl; [| | now destruct (HXu c tr2)].
  2: { eexists _, (NoVideo _). simpl. split; [reflexivity |]. split; [reflexivity |].
       split; [right; eauto | reflexivity]. }
  destruct (truthy vid) eqn:Hv; simpl.
  2: { eexists _, (NoVideo _). simpl. split; [reflexivity |]. split; [reflexivity |].
       split; [left; eauto | reflexivity]. }
  pose proof (never_exits_creative access_token ad_account_id facebook_page_id ig_account_id
                mid (none_unless_truthy ad_code) cta_type link (none_unless_truthy app_link)
                (none_unless_truthy product_set_id) tr2) as HXc.
  destruct (create_ad_creative access_token ad_account_id facebook_page_id ig_account_id
              mid (none_unless_truthy ad_code) cta_type link (none_unless_truthy app_link)
              (none_unless_truthy product_set_id) tr2)
    as [[[cid cerr]|e|c] tr3] eqn:HC; simpl; [| | now destruct (HXc c tr3)].
  2: { eexists _, (NoCreative vid _). simpl. rewrite (py_or_truthy vid) by exact Hv.
       split; [reflexivity |]. split; [reflexivity |].
       split; [split; eauto |]. split; [right; eauto | reflexivity]. }
  destruct (truthy cid) eqn:Hc; simpl.
  2: { eexists _, (NoCreative vid _). simpl. rewrite (py_or_truthy vid) by exact Hv.
       split; [reflexivity |]. split; [reflexivity |].
       split; [split; eauto |]. split; [left; eauto | reflexivity]. }
  pose proof (never_exits_create_ad access_token ad_account_id ad_name ad_set_id cid tr3) as HXa.
  destruct (create_ad access_token ad_account_id ad_name ad_set_id cid tr3)
    as [[[aid aerr]|e|c] tr4] eqn:HA; simpl; [| | now destruct (HXa c tr4)].
  2: { eexists _, (NoAd vid cid _). simpl.
       rewrite (py_or_truthy vid), (py_or_truthy cid) by assumption.
       split; [reflexivity |]. split; [reflexivity |].
       split; [split; eauto |]. split; [split; eauto |]. rewrite HA. simpl.
       split; [right; eauto | reflexivity]. }
  destruct (truthy aid) eqn:Ha; simpl.
  - eexists _, (Published vid cid aid). simpl.
    rewrite (py_or_truthy vid), (py_or_truthy cid), (py_or_truthy aid) by assumption.
    split; [reflexivity |]. split; [reflexivity |].
    split; [split; eauto |]. split; [split; eauto |]. rewrite HA. simpl.
    split; [split; eauto | reflexivity].
  - eexists _, (NoAd vid cid _). simpl.
    rewrite (py_or_truthy vid), (py_or_truthy cid) by assumption.
    split; [reflexivity |]. split; [reflexivity |].
    split; [split; eauto |]. split; [split; eauto |]. rewrite HA. simpl.
    split; [left; eauto | reflexivity].
Qed.

Lemma try_except_bind {S A B} (m : M S A) (k : A -> M S B) (h : exn -> M S B) (s : S) :
  try_except (bind m k) h s =
  match m s with
  | (Ok a, s') => try_except (k a) h s'
  | (Raise e, s') => h e s'
  | (Exit c, s') => (Exit c, s')
  end.
Proof. unfold try_except, bind. now destruct (m s) as [[a|e|c] s']. Qed.

Lemma truthy_message (prefix rest : string) :
  prefix <> "" -> truthy (PStr (prefix ++ rest)) = true.
Proof. destruct prefix; [congruence | reflexivity]. Qed.

(** what the eligibility check reports is a message, or [None] *)
Lemma eligibility_check_message `{Runtime} (ad_code eligibility error : pyval) :
  eligibility_check ad_code eligibility = Ok error ->
  error = PNone \/ truthy error = true.
Proof.
  unfold eligibility_check.
  destruct (negb (truthy eligibility)); [intros [= <-]; now right |].
  destruct eligibility as [| | | | |d]; simpl; try discriminate.
  destruct (dict_lookup "error" d) as [err|]; simpl.
  { destruct (truthy err); [intros [= <-]; now right |].
    destruct (negb (truthy ad_code)
              && negb (truthy match dict_lookup "has_permission_for_partnership_ad" d with
                              | Some x => x
                              | None => PNone
                              end)) eqn:Hperm.
    - destruct (negb (truthy ad_code)); simpl in *; [| discriminate].
      rewrite Hperm. intros [= <-]. now right.
    - assert (Hskip :
        (no_permission <~
           (if negb (truthy ad_code)
            then Ok (negb (truthy match dict_lookup "has_permission_for_partnership_ad" d with
                                  | Some x => x
                                  | None => PNone
                                  end))
            else Ok false) ;;
         Ok no_permission) = Ok false).
      { destruct (negb (truthy ad_code)); simpl in *; [now rewrite Hperm | reflexivity]. }
      destruct (negb (truthy ad_code)); simpl in *; rewrite ?Hperm; simpl;
        destruct (dict_lookup "eligibility_errors" d) as [listed|]; simpl;
        try (intros [= <-]; now left);
        (destruct (truthy listed); simpl; [| intros [= <-]; now left]);
        (destruct (py_len listed) as [n| |]; simpl; try discriminate);
        (destruct (0 <? n)%Z; [| intros [= <-]; now left]);
        (destruct (py_join ", " listed); simpl; try discriminate);
        intros [= <-]; now right. }
  destruct (negb (truthy ad_code)
            && negb (truthy match dict_lookup "has_permission_for_partnership_ad" d with
                            | Some x => x
                            | None => PNone
                            end)) eqn:Hperm.
  - destruct (negb (truthy ad_code)); simpl in *; [| discriminate].
    rewrite Hperm. intros [= <-]. now right.
  - destruct (negb (truthy ad_code)); simpl in *; rewrite ?Hperm; simpl;
      destruct (dict_lookup "eligibility_errors" d) as [listed|]; simpl;
      try (intros [= <-]; now left);
      (destruct (truthy listed); simpl; [| intros [= <-]; now left]);
      (destruct (py_len listed) as [n| |]; simpl; try discriminate);
      (destruct (0 <? n)%Z; [| intros [= <-]; now left]);
      (destruct (py_join ", " listed); simpl; try discriminate);
      intros [= <-]; now right.
Qed.

(** The [try] block from the point where [eligibility] is assigned,
    under the row's [except] clause. *)
Lemma after_eligibility_outcome `{Runtime}
    (access_token ig_account_id ad_account_id facebook_page_id : string)
    (ad_code cta_type link app_link ad_name ad_set_id product_set_id eligibility : pyval)
    (f : frame) :
  video_id f = PNone -> creative_id f = PNone -> published_ad_id f = PNone ->
  exists f' p,
    try_except
      (after_eligibility access_token ig_account_id ad_account_id facebook_page_id
         ad_code cta_type link app_link ad_name ad_set_id product_set_id eligibility)
      row_handler f = (Ok tt, f')
    /\ output_rows f' = (output_rows f ++ [row_after (output_row f) p])%list
    /\ match p with
       | NoMedia message => truthy message = true /\ trace f' = trace f
       | _ =>
           exists mid,
             truthy mid = true
             /\ stages_achieved access_token ig_account_id ad_account_id facebook_page_id
                  ad_code cta_type link app_link ad_name ad_set_id product_set_id
                  mid (trace f) p (trace f')
       end.
Proof.
  destruct f as [tr outs o v0 c0 a0]. simpl. intros -> -> ->.
  unfold after_eligibility. rewrite try_except_bind. unfold lift.
  pose proof (pure_ok_eligibility_check ad_code eligibility) as Hok.
  pose proof (eligibility_check_message ad_code eligibility) as Hmsg.
  destruct (eligibility_check ad_code eligibility) as [error|e|c];
    [| | now destruct (Hok c)].
  - destruct (Hmsg error eq_refl) as [-> | Herr].
    + simpl. rewrite try_except_bind.
      pose proof (pure_ok_py_get eligibility "id" PNone) as Hid.
      destruct (py_get eligibility "id" PNone) as [mid|e|c]; [| | now destruct (Hid c)].
      * destruct (truthy mid) eqn:Hmid; simpl.
        -- destruct (mutation_stages_outcome access_token ig_account_id ad_account_id
                       facebook_page_id mid ad_code cta_type link app_link ad_name ad_set_id
                       product_set_id (Frame tr outs o PNone PNone PNone)
                       eq_refl eq_refl eq_refl) as (f' & p & Hrun & Hout & Hst).
           exists f', p. split; [exact Hrun |]. split; [exact Hout |].
           destruct p; [destruct Hst | | | |]; eauto.
        -- eexists _, (NoMedia _).
           split; [reflexivity |]. split; [reflexivity |]. split; reflexivity.
      * eexists _, (NoMedia _).
        split; [reflexivity |]. split; [reflexivity |]. split; reflexivity.
    + rewrite Herr. eexists _, (NoMedia error).
      split; [reflexivity |]. split; [reflexivity |]. split; [exact Herr | reflexivity].
  - eexists _, (NoMedia _).
    split; [reflexivity |]. split; [reflexivity |]. split; reflexivity.
Qed.

Ltac case_scrutinee :=
  match goal with
  | |- context [match ?x with _ => _ end] =>
      lazymatch x with
      | context [match _ with _ => _ end] => fail
      | _ => destruct x eqn:?
      end
  end.

(** The eligibility lookup issues one request, a GET, unless it raises
    before issuing any. *)
Lemma fetch_trace `{Runtime} (access_token ig_account_id : string)
    (ad_code permalinks : pyval) (tr : list http_request) :
  let run := fetch_branded_content_advertisable_medias access_token ig_account_id
               ad_code permalinks tr in
  one_lookup tr (snd run) \/ (snd run = tr /\ exists e, fst run = Raise e).
Proof.
  unfold fetch_branded_content_advertisable_medias, one_lookup.
  unfold bind, call, lift, ret, raise.
  destruct (truthy ad_code); [| destruct (truthy permalinks)].
  3: { right. simpl. eauto. }
  all: left; eexists; split; [repeat (simpl; case_scrutinee); reflexivity | reflexivity].
Qed.

(** the only [ValueError] the extractor raises is the stories one *)
Lemma extract_value_error (permalink : pyval) (e : exn) :
  extract_instagram_shortcode permalink = Raise e ->
  exn_is_value_error e = true -> e = stories_error.
Proof.
  unfold extract_instagram_shortcode.
  destruct (negb (truthy permalink)); [discriminate |].
  destruct permalink; simpl; try (intros [= <-]; discriminate).
  - destruct (str_contains "/stories/" s); [now intros [= <-] |].
    destruct (re_search url_pattern s) as [[c|]|]; discriminate.
  - destruct (existsb (is_str "/stories/") l); [now intros [= <-] |].
    intros [= <-]. discriminate.
  - destruct (dict_lookup "/stories/" d); [now intros [= <-] |].
    intros [= <-]. discriminate.
Qed.

(** The eligibility lookup followed by the rest of the [try] block,
    under the row's [except] clause. *)
Lemma lookup_outcome `{Runtime}
    (access_token ig_account_id ad_account_id facebook_page_id : string)
    (lookup_code lookup_permalinks : pyval)
    (ad_code cta_type link app_link ad_name ad_set_id product_set_id : pyval)
    (tr : list http_request) (outs : list (csv_row)) (o : csv_row) :
  exists f' p,
    try_except
      (eligibility <- in_frame (fetch_branded_content_advertisable_medias
                                  access_token ig_account_id lookup_code lookup_permalinks) ;;
       after_eligibility access_token ig_account_id ad_account_id facebook_page_id
         ad_code cta_type link app_link ad_name ad_set_id product_set_id eligibility)
      row_handler (Frame tr outs o PNone PNone PNone) = (Ok tt, f')
    /\ output_rows f' = (outs ++ [row_after o p])%list
    /\ match p with
       | NoMedia message =>
           truthy message = true
           /\ exists reqs, trace f' = (tr ++ reqs)%list
                           /\ (List.length reqs <= 1)%nat
                           /\ Forall (fun req => req_method req = GET) reqs
       | _ =>
           exists mid tr1,
             truthy mid = true
             /\ one_lookup tr tr1
             /\ stages_achieved access_token ig_account_id ad_account_id facebook_page_id
                  ad_code cta_type link app_link ad_name ad_set_id product_set_id
                  mid tr1 p (trace f')
       end.
Proof.
  rewrite try_except_bind. unfold in_frame. simpl.
  pose proof (fetch_trace access_token ig_account_id lookup_code lookup_permalinks tr) as Htr.
  pose proof (never_exits_fetch access_token ig_account_id lookup_code lookup_permalinks tr)
    as Hx.
  destruct (fetch_branded_content_advertisable_medias access_token ig_account_id
              lookup_code lookup_permalinks tr) as [[eligibility|e|c] tr1];
    simpl in Htr; [| | now destruct (Hx c tr1)].
  - destruct Htr as [Hone | [_ [e He]]]; [| discriminate].
    destruct (after_eligibility_outcome access_token ig_account_id ad_account_id
                facebook_page_id ad_code cta_type link app_link ad_name ad_set_id
                product_set_id eligibility (Frame tr1 outs o PNone PNone PNone)
                eq_refl eq_refl eq_refl) as (f' & p & Hrun & Hout & Hp).
    exists f', p. split; [exact Hrun |]. split; [exact Hout |].
    destruct p as [message|message|video message|video creative message|video creative ad].
    + destruct Hp as [Hm Ht]. split; [exact Hm |].
      destruct Hone as (req & -> & Hget). exists [req]. simpl in Ht.
      split; [exact Ht |]. split; [simpl; lia | now constructor].
    + destruct Hp as (mid & Hmid & Hst). exists mid, tr1. auto.
    + destruct Hp as (mid & Hmid & Hst). exists mid, tr1. auto.
    + destruct Hp as (mid & Hmid & Hst). exists mid, tr1. auto.
    + destruct Hp as (mid & Hmid & Hst). exists mid, tr1. auto.
  - eexists _, (NoMedia _). unfold row_handler, finish_row, bind, get_state, modify. simpl.
    split; [reflexivity |]. split; [reflexivity |]. split; [reflexivity |].
    destruct Htr as [(req & -> & Hget) | [-> _]].
    + exists [req]. split; [reflexivity |]. split; [simpl; lia | now constructor].
    + exists []. split; [now rewrite app_nil_r |]. split; [simpl; lia | constructor].
Qed.

Lemma try_except_lift {S A B} (r : result A) (k : A -> B) (h : exn -> M S B) (s : S) :
  try_except (bind (lift r) (fun a => ret (k a))) h s =
  match r with
  | Ok a => (Ok (k a), s)
  | Raise e => h e s
  | Exit c => (Exit c, s)
  end.
Proof. unfold try_except, bind, lift, ret. now destruct r. Qed.

Lemma bind_modify {S B} (g : S -> S) (k : unit -> M S B) (s : S) :
  bind (modify g) k s = k tt (g s).
Proof. reflexivity. Qed.

(** Every row gets one output row, and that row shows how far the
    pipeline got on it. *)
Lemma process_row_outcome `{Runtime}
    (access_token ig_account_id ad_account_id facebook_page_id : string)
    (row : csv_row) (f : frame) :
  exists f' p,
    process_row access_token ig_account_id ad_account_id facebook_page_id row f = (Ok tt, f')
    /\ output_rows f' = (output_rows f ++ [row_after row p])%list
    /\ achieved access_token ig_account_id ad_account_id facebook_page_id
         row (trace f) p (trace f').
Proof.
  destruct f as [tr outs o v0 c0 a0]. unfold process_row, achieved. cbv zeta.
  rewrite bind_modify. unfold set_output_row. simpl.
  destruct (missing_fields (row_get row "cta_type" PNone) (row_get row "link" PNone)
              (row_get row "ad_name" PNone) (row_get row "ad_set_id" PNone))
    as [|field fields] eqn:Hmissing.
  2: { eexists _, (NoMedia _). split; [reflexivity |]. split; [reflexivity |].
       split; [reflexivity |]. exists []. simpl.
       split; [now rewrite app_nil_r |]. split; [lia | constructor]. }
  destruct (truthy (row_get row "permalink" (PStr ""))) eqn:Hpermalink;
    destruct (truthy (row_get row "ad_code" (PStr ""))) eqn:Hcode; simpl.
  4: { eexists _, (NoMedia _). split; [reflexivity |]. split; [reflexivity |].
       split; [reflexivity |]. exists []. simpl.
       split; [now rewrite app_nil_r |]. split; [lia | constructor]. }
  1, 3: rewrite bind_modify; simpl; apply lookup_outcome.
  rewrite bind_modify. simpl. rewrite try_except_bind.
  pose proof (pure_ok_extract (row_get row "permalink" (PStr ""))) as Hok.
  pose proof (extract_value_error (row_get row "permalink" (PStr ""))) as Hve.
  rewrite (try_except_lift (extract_instagram_shortcode (row_get row "permalink" (PStr "")))
             Some).
  destruct (extract_instagram_shortcode (row_get row "permalink" (PStr "")))
    as [shortcode|e|c]; [| | now destruct (Hok c)].
  - apply lookup_outcome.
  - destruct (exn_is_value_error e) eqn:Hval.
    + rewrite (Hve e eq_refl Hval). eexists _, (NoMedia _).
      split; [reflexivity |]. split; [reflexivity |].
      split; [reflexivity |]. exists []. simpl.
      split; [now rewrite app_nil_r |]. split; [lia | constructor].
    + eexists _, (NoMedia _). split; [reflexivity |]. split; [reflexivity |].
      split; [reflexivity |]. exists []. simpl.
      split; [now rewrite app_nil_r |]. split; [lia | constructor].
Qed.

Lemma with_results_lookup (o : csv_row) (status error vid cid aid : pyval) :
  let o' := with_results o status error vid cid aid in
  o' !! Some "status" = Some status /\ o' !! Some "error" = Some error
  /\ o' !! Some "video_id" = Some vid /\ o' !! Some "creative_id" = Some cid
  /\ o' !! Some "published_ad_id" = Some aid.
Proof. unfold with_results. repeat split; now simplify_map_eq. Qed.

Lemma with_results_other (o : csv_row) (status error vid cid aid : pyval)
    (key : option string) :
  key ∉ result_columns -> with_results o status error vid cid aid !! key = o !! key.
Proof.
  unfold result_columns, with_results. intros Hkey.
  rewrite !lookup_insert_ne; [reflexivity | | | | |]; intros <-; apply Hkey;
    rewrite !elem_of_cons; tauto.
Qed.

Lemma row_after_reflects (row : csv_row) (p : progress) :
  reflects p (row_after row p).
Proof. destruct p; simpl; apply with_results_lookup. Qed.

Lemma row_after_extends (row : csv_row) (p : progress) :
  extends_row (row_after row p) row.
Proof.
  split.
  - intros key Hkey. destruct p; simpl; now apply with_results_other.
  - intros key Hkey. unfold result_columns in Hkey.
    assert (Hcases : key = Some "status" \/ key = Some "error" \/ key = Some "video_id"
                     \/ key = Some "creative_id" \/ key = Some "published_ad_id")
      by (rewrite !elem_of_cons, elem_of_nil in Hkey; tauto).
    destruct p; simpl;
      match goal with
      | |- is_Some (with_results ?o ?s ?e ?v ?c ?a !! _) =>
          destruct (with_results_lookup o s e v c a) as (H1 & H2 & H3 & H4 & H5)
      end;
      destruct Hcases as [-> | [-> | [-> | [-> | ->]]]]; eauto.
Qed.

Lemma process_rows_outcome `{Runtime}
    (access_token ig_account_id ad_account_id facebook_page_id : string)
    (rows : list (csv_row)) :
  forall f, exists f' outs,
    process_rows access_token ig_account_id ad_account_id facebook_page_id rows f = (Ok tt, f')
    /\ output_rows f' = (output_rows f ++ outs)%list
    /\ Forall2 extends_row outs rows.
Proof.
  induction rows as [|row rows IH]; intros f; simpl.
  - exists f, []. split; [reflexivity |]. split; [now rewrite app_nil_r | constructor].
  - destruct (process_row_outcome access_token ig_account_id ad_account_id facebook_page_id
                row f) as (f1 & p & Hrun & Hout & _).
    destruct (IH f1) as (f' & outs & Hrest & Hout' & Hall).
    exists f', (row_after row p :: outs). unfold bind. rewrite Hrun, Hrest.
    split; [reflexivity |]. split.
    + rewrite Hout', Hout, <- app_assoc. reflexivity.
    + constructor; [apply row_after_extends | exact Hall].
Qed.

(** ** The batch and its output file *)

(** C6 fails on the code at a two-line input whose second line has a
    surplus cell.  Both rows are processed, eight requests are issued
    and both ads are published; the writer, whose columns are those of
    the first record, refuses the second record, and the batch ends with
    [sys.exit(1)], leaving an output file of one record for two rows. *)
Theorem surplus_cell_in_later_row_loses_records :
  let R := two_rows_succeed in
  exists tr fieldnames record,
    create_partnership_ads_from_csv "token" "178414" "154988" "102988"
      (Returns [row_with_code; row_with_surplus]) (Returns tt) (World [] None)
    = (Exit 1, World tr (Some (CsvFile fieldnames [record])))
    /\ List.length tr = 8%nat
    /\ record !! Some "published_ad_id" = Some (PStr "ad_123").
Proof.
  intros R. eexists _, _, _. split; [vm_compute; reflexivity |].
  split; vm_compute; reflexivity.
Qed.

Lemma extends_row_dom (o row : csv_row) :
  extends_row o row -> dom o = dom row ∪ result_keys.
Proof.
  intros [Hother Hres]. apply set_eq. intros key.
  rewrite elem_of_union, !elem_of_dom. unfold result_keys. rewrite elem_of_list_to_set.
  destruct (decide (key ∈ result_columns)) as [Hin | Hout].
  - split; [now right | intros _; now apply Hres].
  - rewrite (Hother key Hout). split; [now left | now intros [? | ?]].
Qed.

Lemma dict_to_list_accepts `{Runtime} (fieldnames : gset (option string)) (o : csv_row) :
  dom o ⊆ fieldnames ->
  exists line, dict_to_list fieldnames o = Ok line /\ shows fieldnames line o.
Proof.
  intros Hsub. unfold dict_to_list.
  destruct (decide (dom o ∖ fieldnames = ∅)) as [_ | Hne].
  2: { destruct Hne. apply elem_of_equiv_empty_L. intros key.
       rewrite elem_of_difference. intros [Hin Hout]. apply Hout, Hsub, Hin. }
  eexists. split; [reflexivity |]. intros key.
  rewrite lookup_union, lookup_gset_to_gmap.
  destruct (decide (key ∈ fieldnames)) as [Hin | Hout].
  - rewrite option_guard_True by exact Hin. now destruct (o !! key).
  - rewrite option_guard_False by exact Hout.
    assert (Hnone : o !! key = None).
    { apply not_elem_of_dom. intros Hd. apply Hout, Hsub, Hd. }
    now rewrite Hnone.
Qed.

Lemma dict_to_list_refuses `{Runtime} (fieldnames : gset (option string)) (o : csv_row) :
  ~ dom o ⊆ fieldnames ->
  exists e, dict_to_list fieldnames o = Raise e.
Proof.
  intros Hsub. unfold dict_to_list.
  destruct (decide (dom o ∖ fieldnames = ∅)) as [He | _]; [| eauto].
  destruct Hsub. intros key Hin.
  destruct (decide (key ∈ fieldnames)) as [Hfield | Hfield]; [exact Hfield |].
  assert (Hwrong : key ∈ dom o ∖ fieldnames) by (apply elem_of_difference; auto).
  rewrite He in Hwrong. now apply not_elem_of_empty in Hwrong.
Qed.

(** the writer writes the records it accepts, in order *)
Lemma writerows_accepts `{Runtime} (fieldnames : gset (option string)) (outs : list csv_row) :
  Forall (fun o => dom o ⊆ fieldnames) outs ->
  forall file, exists lines,
    writerows fieldnames outs file
    = (Ok tt, CsvFile (header file) (records file ++ lines)%list)
    /\ Forall2 (shows fieldnames) lines outs.
Proof.
  induction 1 as [|o outs Ho _ IH]; intros file; simpl.
  - exists []. rewrite app_nil_r. destruct file. split; [reflexivity | constructor].
  - destruct (dict_to_list_accepts fieldnames o Ho) as (line & Hline & Hshows).
    unfold bind, lift, modify. rewrite Hline.
    destruct (IH (CsvFile (header file) (records file ++ [line])%list)) as (lines & Hrun & Hall).
    exists (line :: lines). rewrite Hrun. simpl. rewrite <- app_assoc.
    split; [reflexivity | now constructor].
Qed.

(** and stops at the first record it refuses *)
Lemma writerows_refuses `{Runtime} (fieldnames : gset (option string))
    (good : list csv_row) (bad : csv_row) (rest : list csv_row) :
  Forall (fun o => dom o ⊆ fieldnames) good ->
  ~ dom bad ⊆ fieldnames ->
  forall file, exists e lines,
    writerows fieldnames (good ++ bad :: rest)%list file
    = (Raise e, CsvFile (header file) (records file ++ lines)%list)
    /\ Forall2 (shows fieldnames) lines good.
Proof.
  intros Hgood Hbad. induction Hgood as [|o good Ho _ IH]; intros file; simpl.
  - destruct (dict_to_list_refuses fieldnames bad Hbad) as [e He].
    exists e, []. unfold bind, lift. rewrite He, app_nil_r. destruct file.
    split; [reflexivity | constructor].
  - destruct (dict_to_list_accepts fieldnames o Ho) as (line & Hline & Hshows).
    unfold bind, lift, modify. rewrite Hline.
    destruct (IH (CsvFile (header file) (records file ++ [line])%list))
      as (e & lines & Hrun & Hall).
    exists e, (line :: lines). rewrite Hrun. simpl. rewrite <- app_assoc.
    split; [reflexivity | now constructor].
Qed.

Lemma outs_accepted (fieldnames : gset (option string)) (outs rows : list csv_row) :
  Forall2 extends_row outs rows ->
  Forall (fun row => dom row ⊆ fieldnames) rows ->
  result_keys ⊆ fieldnames ->
  Forall (fun o => dom o ⊆ fieldnames) outs.
Proof.
  intros Hall Hrows Hres. induction Hall as [|o row outs rows Ho _ IH]; [constructor |].
  inversion Hrows as [|? ? Hrow Hrest]; subst. constructor; [| now apply IH].
  rewrite (extends_row_dom _ _ Ho). now apply union_least.
Qed.

Lemma shows_lines (fieldnames : gset (option string)) (lines outs rows : list csv_row) :
  Forall2 (shows fieldnames) lines outs ->
  Forall2 extends_row outs rows ->
  Forall2 (fun line row => exists o, extends_row o row /\ shows fieldnames line o) lines rows.
Proof.
  intros Hlines. revert rows.
  induction Hlines as [|line o lines outs Hshow _ IH]; intros rows Hall;
    inversion Hall; subst; constructor; eauto.
Qed.

(** X3.  Where no row has a column beyond those of the first row (and
    the result columns), the batch writes the output file: one line per
    input row, in the order of the input, each showing its row with the
    result columns written. *)
Theorem batch_writes_one_record_per_row `{Runtime}
    (access_token ig_account_id ad_account_id facebook_page_id : string)
    (first : csv_row) (more : list csv_row) (w : world) :
  Forall (fun row => dom row ⊆ dom first ∪ result_keys) more ->
  exists tr' lines,
    create_partnership_ads_from_csv access_token ig_account_id ad_account_id
      facebook_page_id (Returns (first :: more)) (Returns tt) w
    = (Ok tt, World tr' (Some (CsvFile (dom first ∪ result_keys) lines)))
    /\ Forall2 (fun line row =>
                  exists o, extends_row o row /\ shows (dom first ∪ result_keys) line o)
               lines (first :: more).
Proof.
  intros Hmore.
  destruct (process_rows_outcome access_token ig_account_id ad_account_id facebook_page_id
              (first :: more) (Frame (requests w) [] ∅ PNone PNone PNone))
    as (f' & outs & Hrun & Hout & Hall).
  destruct f' as [tr' fouts fo fv fc fa]. simpl in Hout. subst fouts.
  cbv beta iota delta [create_partnership_ads_from_csv try_except bind lift of_reply].
  rewrite Hrun. cbv iota beta zeta. simpl output_rows. simpl trace.
  inversion Hall as [|o row outs' rows' Ho Hrest]; subst.
  assert (Hfields : fieldnames_of (o :: outs') = dom first ∪ result_keys)
    by exact (extends_row_dom _ _ Ho).
  rewrite Hfields.
  assert (Haccepted : Forall (fun o => dom o ⊆ dom first ∪ result_keys) (o :: outs')).
  { apply (outs_accepted _ _ (first :: more) Hall).
    - constructor; [apply union_subseteq_l | exact Hmore].
    - apply union_subseteq_r. }
  destruct (writerows_accepts _ _ Haccepted (CsvFile (dom first ∪ result_keys) []))
    as (lines & Hwrite & Hlines).
  rewrite Hwrite. simpl. exists tr', lines.
  split; [reflexivity |]. exact (shows_lines _ _ _ _ Hlines Hall).
Qed.

(** X4.  A record with a column that the first record does not have
    ends the batch with [sys.exit(1)], after every row has been processed: the
    file keeps the lines of the records before it, and the results of
    that row and of the rows after it are lost. *)
Theorem refused_record_ends_batch `{Runtime}
    (access_token ig_account_id ad_account_id facebook_page_id : string)
    (first : csv_row) (good : list csv_row) (bad : csv_row) (rest : list csv_row)
    (w : world) :
  Forall (fun row => dom row ⊆ dom first ∪ result_keys) good ->
  ~ dom bad ⊆ dom first ∪ result_keys ->
  let rows := (first :: good ++ bad :: rest)%list in
  exists lines,
    create_partnership_ads_from_csv access_token ig_account_id ad_account_id
      facebook_page_id (Returns rows) (Returns tt) w
    = (Exit 1,
       World (trace (snd (process_rows access_token ig_account_id ad_account_id
                            facebook_page_id rows
                            (Frame (requests w) [] ∅ PNone PNone PNone))))
             (Some (CsvFile (dom first ∪ result_keys) lines)))
    /\ Forall2 (fun line row =>
                  exists o, extends_row o row /\ shows (dom first ∪ result_keys) line o)
               lines (first :: good).
Proof.
  intros Hgood Hbad rows.
  destruct (process_rows_outcome access_token ig_account_id ad_account_id facebook_page_id
              rows (Frame (requests w) [] ∅ PNone PNone PNone))
    as (f' & outs & Hrun & Hout & Hall).
  destruct f' as [tr' fouts fo fv fc fa]. simpl in Hout. subst fouts.
  cbv beta iota delta [create_partnership_ads_from_csv try_except bind lift of_reply].
  unfold rows at 1. cbv iota. fold rows.
  rewrite Hrun. cbv iota beta zeta. simpl snd. simpl output_rows. simpl trace.
  unfold rows in Hall. change (first :: good ++ bad :: rest)%list
    with ((first :: good) ++ bad :: rest)%list in Hall.
  apply Forall2_app_inv_r in Hall as (outs1 & outs2 & Hall1 & Hall2 & ->).
  inversion Hall2 as [|obad rbad outs3 rows3 Hobad Hrest]; subst.
  inversion Hall1 as [|o row outs' rows' Ho Hgood']; subst.
  assert (Hfields : fieldnames_of ((o :: outs') ++ obad :: outs3)%list
                    = dom first ∪ result_keys)
    by exact (extends_row_dom _ _ Ho).
  rewrite Hfields.
  assert (Haccepted : Forall (fun o => dom o ⊆ dom first ∪ result_keys) (o :: outs')).
  { apply (outs_accepted _ _ (first :: good) Hall1).
    - constructor; [apply union_subseteq_l | exact Hgood].
    - apply union_subseteq_r. }
  assert (Hrefused : ~ dom obad ⊆ dom first ∪ result_keys).
  { rewrite (extends_row_dom _ _ Hobad). intros Hsub. apply Hbad.
    intros key Hin. apply Hsub, elem_of_union. now left. }
  destruct (writerows_refuses _ _ _ outs3 Haccepted Hrefused
              (CsvFile (dom first ∪ result_keys) []))
    as (e & lines & Hwrite & Hlines).
  rewrite Hwrite. simpl. exists lines.
  split; [reflexivity |]. exact (shows_lines _ _ _ _ Hlines Hall1).
Qed.

(** A surplus cell in the first line is no obstacle: its column is one
    of the file's, and both lines are written. *)
Lemma batch_writes_one_record_per_row_witness :
  let R := two_rows_succeed in
  exists tr' lines,
    create_partnership_ads_from_csv "token" "178414" "154988" "102988"
      (Returns [row_with_surplus; row_with_code]) (Returns tt) (World [] None)
    = (Ok tt, World tr' (Some (CsvFile (dom row_with_surplus ∪ result_keys) lines)))
    /\ Forall2 (fun line row =>
                  exists o, extends_row o row
                            /\ shows (dom row_with_surplus ∪ result_keys) line o)
               lines [row_with_surplus; row_with_code].
Proof.
  intros R.
  apply (batch_writes_one_record_per_row (H := R) "token" "178414" "154988" "102988"
           row_with_surplus [row_with_code] (World [] None)).
  constructor; [| constructor].
  apply (bool_decide_unpack _). vm_compute. reflexivity.
Defined.

Lemma refused_record_ends_batch_witness :
  let R := two_rows_succeed in
  let rows := [row_with_code; row_with_surplus] in
  exists lines,
    create_partnership_ads_from_csv "token" "178414" "154988" "102988"
      (Returns rows) (Returns tt) (World [] None)
    = (Exit 1,
       World (trace (snd (process_rows "token" "178414" "154988" "102988" rows
                            (Frame [] [] ∅ PNone PNone PNone))))
             (Some (CsvFile (dom row_with_code ∪ result_keys) lines)))
    /\ Forall2 (fun line row =>
                  exists o, extends_row o row
                            /\ shows (dom row_with_code ∪ result_keys) line o)
               lines [row_with_code].
Proof.
  intros R rows.
  apply (refused_record_ends_batch (H := R) "token" "178414" "154988" "102988"
           row_with_code [] row_with_surplus [] (World [] None)).
  - constructor.
  - apply (bool_decide_unpack _). vm_compute. reflexivity.
Defined.

(** X5.  Whatever happens to a row, the loop body returns normally and
    appends one record: the row with the five result columns written,
    every other column as it was. *)
Theorem loop_body_appends_one_record `{Runtime}
    (access_token ig_account_id ad_account_id facebook_page_id : string)
    (row : csv_row) (f : frame) :
  exists f' o,
    process_row access_token ig_account_id ad_account_id facebook_page_id row f = (Ok tt, f')
    /\ output_rows f' = (output_rows f ++ [o])%list
    /\ extends_row o row.
Proof.
  destruct (process_row_outcome access_token ig_account_id ad_account_id facebook_page_id
              row f) as (f' & p & Hrun & Hout & _).
  exists f', (row_after row p). auto using row_after_extends.
Qed.

(** X6.  Without rows, or without files, nothing is written: an input
    that cannot be read ends the batch with [sys.exit(1)] and an input
    without rows makes it return, in both cases with no request issued;
    an output that cannot be opened ends the batch with [sys.exit(1)]
    once the rows have been processed, and leaves the file as it was. *)
Theorem batch_without_rows_or_files `{Runtime}
    (access_token ig_account_id ad_account_id facebook_page_id : string) (w : world) :
  (forall e output_csv,
     create_partnership_ads_from_csv access_token ig_account_id ad_account_id
       facebook_page_id (Raises e) output_csv w = (Exit 1, w))
  /\ (forall output_csv,
        create_partnership_ads_from_csv access_token ig_account_id ad_account_id
          facebook_page_id (Returns []) output_csv w = (Ok tt, w))
  /\ (forall row rows e,
        create_partnership_ads_from_csv access_token ig_account_id ad_account_id
          facebook_page_id (Returns (row :: rows)) (Raises e) w
        = (Exit 1,
           World (trace (snd (process_rows access_token ig_account_id ad_account_id
                                facebook_page_id (row :: rows)
                                (Frame (requests w) [] ∅ PNone PNone PNone))))
                 (output_file w))).
Proof.
  split; [| split].
  - intros e output_csv. reflexivity.
  - intros output_csv. reflexivity.
  - intros row rows e.
    destruct (process_rows_outcome access_token ig_account_id ad_account_id facebook_page_id
                (row :: rows) (Frame (requests w) [] ∅ PNone PNone PNone))
      as (f' & outs & Hrun & _).
    cbv beta iota delta [create_partnership_ads_from_csv try_except bind lift of_reply].
    rewrite Hrun. reflexivity.
Qed.

(** ** Runs on sample rows *)

Example both_references_published :
  let R := all_stages_succeed in
  let f' := snd (process_row "token" "178414" "154988" "102988" row_with_both empty_frame) in
  List.length (trace f') = 4%nat
  /\ map (fun o => (o !! Some "status", o !! Some "video_id", o !! Some "creative_id",
                    o !! Some "published_ad_id")) (output_rows f')
     = [(Some (PStr "success"), Some (PStr "video_123"), Some (PStr "creative_123"),
         Some (PStr "ad_123"))].
Proof. intros R f'. split; vm_compute; reflexivity. Qed.

(** ** Validation and the eligibility lookup *)

#[local] Arguments String.append : simpl never.

Lemma nonempty_message (prefix rest : string) :
  prefix <> "" -> negb (prefix ++ rest =? "") = true.
Proof. apply truthy_message. Qed.

Lemma all_strs_map_PStr (ss : list string) : forall i, all_strs i (map PStr ss) = Ok ss.
Proof.
  induction ss as [|s ss IH]; intros i; simpl; [reflexivity | now rewrite IH].
Qed.


(** A failing answer to the lookup by ad code ends the row there. *)
Lemma failure_stops_row `{Runtime}
    (access_token ig_account_id ad_account_id facebook_page_id : string)
    (ad_code cta_type link app_link ad_name ad_set_id product_set_id : pyval)
    (tr : list http_request) (outs : list (csv_row)) (o : csv_row)
    (response : response) (message : string) :
  truthy ad_code = true ->
  remote tr (lookup_by_code_request access_token ig_account_id ad_code) = Returns response ->
  eligibility_failure response message ->
  try_except
    (eligibility <- in_frame (fetch_branded_content_advertisable_medias
                                access_token ig_account_id ad_code PNone) ;;
     after_eligibility access_token ig_account_id ad_account_id facebook_page_id
       ad_code cta_type link app_link ad_name ad_set_id product_set_id eligibility)
    row_handler (Frame tr outs o PNone PNone PNone)
  = (Ok tt,
     let o' := with_results o (PStr "failed") (PStr message) (PStr "") (PStr "") (PStr "") in
     Frame (tr ++ [lookup_by_code_request access_token ig_account_id ad_code])%list
           (outs ++ [o'])%list o' PNone PNone PNone).
Proof.
  intros Hcode Hremote Hfail.
  rewrite try_except_bind. unfold in_frame, fetch_branded_content_advertisable_medias.
  unfold lookup_by_code_request in *.
  unfold bind at 1 2. unfold call, ret at 1. rewrite Hcode. simpl.
  rewrite Hremote. simpl.
  unfold after_eligibility, eligibility_check, finish_row, try_except, bind, lift, ret, modify.
  destruct Hfail as [body Hst Hj Hdata | Hst Htext | Hst Htext
                    | body record others error Hst Hj Hdata Herror Hterr
                    | body record others code codes Hst Hj Hdata Hnoerr Hlisted].
  - rewrite Hst, Hj. simpl. destruct Hdata as [-> | ->]; reflexivity.
  - apply Z.eqb_neq in Hst. rewrite Hst. simpl.
    destruct (text response) as [|a t]; [congruence |]. reflexivity.
  - apply Z.eqb_neq in Hst. rewrite Hst, Htext. simpl. rewrite Hcode. reflexivity.
  - rewrite Hst, Hj. simpl. rewrite Hdata. simpl. rewrite Herror. simpl.
    rewrite Hterr. destruct record as [|entry record]; [discriminate |]. simpl.
    reflexivity.
  - rewrite Hst, Hj. simpl. rewrite Hdata. simpl.
    unfold lookup_or in Hnoerr.
    assert (Hrecord : truthy (PDict record) = true)
      by (destruct record; [discriminate | reflexivity]).
    simpl in Hrecord. rewrite Hrecord. simpl.
    rewrite Hnoerr. rewrite Hcode. simpl.
    rewrite Hlisted. simpl. unfold py_join. simpl.
    rewrite (all_strs_map_PStr codes (0 + 1)). simpl.
    rewrite ?(nonempty_message "Eligibility errors: ") by discriminate. reflexivity.
Qed.

(** C10.  A row with an ad code (and its four required fields) whose
    eligibility lookup comes back with no data, with an error, or with a
    list of eligibility errors fails there: status "failed", the
    message of that failure, no id, and the lookup is the only request
    the row issues, so no upload, creative or ad call is made.  The
    permission flag of the record plays no part. *)
Theorem ad_code_row_stops_at_failed_eligibility `{Runtime}
    (access_token ig_account_id ad_account_id facebook_page_id : string)
    (row : csv_row) (f : frame) (response : response) (message : string) :
  let ad_code := row_get row "ad_code" (PStr "") in
  missing_fields (row_get row "cta_type" PNone) (row_get row "link" PNone)
    (row_get row "ad_name" PNone) (row_get row "ad_set_id" PNone) = [] ->
  truthy ad_code = true ->
  remote (trace f) (lookup_by_code_request access_token ig_account_id ad_code)
  = Returns response ->
  eligibility_failure response message ->
  exists f' o,
    process_row access_token ig_account_id ad_account_id facebook_page_id row f = (Ok tt, f')
    /\ output_rows f' = (output_rows f ++ [o])%list
    /\ o !! Some "status" = Some (PStr "failed")
    /\ o !! Some "error" = Some (PStr message)
    /\ o !! Some "video_id" = Some (PStr "")
    /\ o !! Some "creative_id" = Some (PStr "")
    /\ o !! Some "published_ad_id" = Some (PStr "")
    /\ trace f' = (trace f ++ [lookup_by_code_request access_token ig_account_id ad_code])%list
    /\ req_method (lookup_by_code_request access_token ig_account_id ad_code) = GET.
Proof.
  intros ad_code Hmissing Hcode Hremote Hfail. subst ad_code.
  destruct f as [tr outs o v0 c0 a0]. simpl in Hremote.
  unfold process_row. cbv zeta. rewrite bind_modify. unfold set_output_row. simpl.
  rewrite Hmissing, Hcode. simpl negb. rewrite andb_false_r.
  rewrite bind_modify. unfold set_published_ad_id, set_creative_id, set_video_id. simpl.
  rewrite (failure_stops_row _ _ _ _ _ _ _ _ _ _ _ _ _ _ response message Hcode Hremote Hfail).
  do 2 eexists. split; [reflexivity |]. split; [reflexivity |].
  destruct (with_results_lookup row (PStr "failed") (PStr message) (PStr "") (PStr "") (PStr ""))
    as (H1 & H2 & H3 & H4 & H5).
  simpl. auto 10.
Qed.

Lemma ad_code_row_stops_at_failed_eligibility_witness :
  let R := not_eligible in
  let response := Response 200 "{...}"
                    (Returns
                       (PDict [("data",
                                PList [PDict [("id", PStr "media_123");
                                              ("has_permission_for_partnership_ad", PBool true);
                                              ("eligibility_errors",
                                               PList [PStr "ERROR_1"; PStr "ERROR_2"])]])])) in
  eligibility_failure response "Eligibility errors: ERROR_1, ERROR_2"
  /\ exists f' o,
       process_row "token" "178414" "154988" "102988" row_with_code empty_frame = (Ok tt, f')
       /\ output_rows f' = [o]
       /\ o !! Some "status" = Some (PStr "failed")
       /\ o !! Some "error" = Some (PStr "Eligibility errors: ERROR_1, ERROR_2")
       /\ o !! Some "video_id" = Some (PStr "")
       /\ o !! Some "creative_id" = Some (PStr "")
       /\ o !! Some "published_ad_id" = Some (PStr "")
       /\ trace f' = [lookup_by_code_request "token" "178414" (PStr "code_123")]
       /\ req_method (lookup_by_code_request "token" "178414" (PStr "code_123")) = GET.
Proof.
  intros R response.
  assert (Hfail : eligibility_failure response "Eligibility errors: ERROR_1, ERROR_2").
  { exact (eligibility_errors_listed response
             [("data",
               PList [PDict [("id", PStr "media_123");
                             ("has_permission_for_partnership_ad", PBool true);
                             ("eligibility_errors", PList [PStr "ERROR_1"; PStr "ERROR_2"])]])]
             [("id", PStr "media_123");
              ("has_permission_for_partnership_ad", PBool true);
              ("eligibility_errors", PList [PStr "ERROR_1"; PStr "ERROR_2"])]
             [] "ERROR_1" ["ERROR_2"] eq_refl eq_refl eq_refl eq_refl eq_refl). }
  split; [exact Hfail |].
  exact (ad_code_row_stops_at_failed_eligibility (H := R) "token" "178414" "154988" "102988"
           row_with_code empty_frame response "Eligibility errors: ERROR_1, ERROR_2"
           eq_refl eq_refl eq_refl Hfail).
Defined.





Lemma missing_fields_nil (cta_type link ad_name ad_set_id : pyval) :
  missing_fields cta_type link ad_name ad_set_id = []
  <-> truthy cta_type = true /\ truthy link = true
      /\ truthy ad_name = true /\ truthy ad_set_id = true.
Proof.
  unfold missing_fields. simpl.
  destruct (truthy cta_type), (truthy link), (truthy ad_name), (truthy ad_set_id); simpl;
    split; try discriminate; try tauto; intros (? & ? & ? & ?); discriminate.
Qed.


Lemma missing_fields_absent (cta_type link ad_name ad_set_id : pyval) :
  missing_fields cta_type link ad_name ad_set_id
  = (absent "cta_type" cta_type ++ absent "link" link ++ absent "ad_name" ad_name
     ++ absent "ad_set_id" ad_set_id)%list.
Proof.
  unfold missing_fields, absent. simpl.
  now destruct (truthy cta_type), (truthy link), (truthy ad_name), (truthy ad_set_id).
Qed.




(** ** The course of a row *)

Lemma truthy_len (v : pyval) (n : Z) : truthy v = true -> py_len v = Ok n -> (0 <? n)%Z = true.
Proof.
  destruct v as [| | |s|l|d]; simpl; try discriminate.
  - destruct s; [discriminate |]. intros _ [= <-]. reflexivity.
  - destruct l; [discriminate |]. intros _ [= <-]. reflexivity.
  - destruct d; [discriminate |]. intros _ [= <-]. reflexivity.
Qed.

Lemma truthy_PDict (record : list (string * pyval)) :
  record <> [] -> truthy (PDict record) = true.
Proof. now destruct record. Qed.

Lemma lookup_or_truthy (key : string) (record : list (string * pyval)) (d d' : pyval) :
  truthy (lookup_or key record d) = true -> truthy d = false ->
  lookup_or key record d' = lookup_or key record d.
Proof.
  unfold lookup_or. destruct (dict_lookup key record); [reflexivity | congruence].
Qed.

(** lines 640-656 on a record *)
Lemma eligibility_check_record `{Runtime} (ad_code : pyval) (record : list (string * pyval)) :
  record <> [] ->
  eligibility_check ad_code (PDict record) =
  let error := lookup_or "error" record PNone in
  let listed := lookup_or "eligibility_errors" record PNone in
  if truthy error then Ok (PStr ("API Error: " ++ py_str error))
  else if negb (truthy ad_code)
          && negb (truthy (lookup_or "has_permission_for_partnership_ad" record PNone))
  then Ok (PStr "Media does not have permission for partnership ads")
  else if truthy listed then
    n <~ py_len listed ;;
    if (0 <? n)%Z then
      joined <~ py_join ", " listed ;;
      Ok (PStr ("Eligibility errors: " ++ joined))
    else Ok PNone
  else Ok PNone.
Proof.
  intros Hne. unfold eligibility_check. rewrite (truthy_PDict record Hne). cbn [negb].
  unfold py_get. cbn [result_bind]. fold (lookup_or "error" record PNone).
  fold (lookup_or "has_permission_for_partnership_ad" record PNone).
  fold (lookup_or "eligibility_errors" record PNone).
  fold (lookup_or "eligibility_errors" record (PList [])).
  cbv zeta.
  destruct (truthy (lookup_or "error" record PNone)); [reflexivity |].
  destruct (truthy ad_code); cbn [negb andb result_bind].
  - destruct (truthy (lookup_or "eligibility_errors" record PNone)) eqn:Hl; [| reflexivity].
    rewrite (lookup_or_truthy _ _ PNone (PList []) Hl eq_refl). cbn [result_bind].
    destruct (py_len (lookup_or "eligibility_errors" record PNone)) as [n|e|c];
      cbn [result_bind]; reflexivity.
  - destruct (truthy (lookup_or "has_permission_for_partnership_ad" record PNone));
      cbn [negb andb result_bind]; [| reflexivity].
    destruct (truthy (lookup_or "eligibility_errors" record PNone)) eqn:Hl; [| reflexivity].
    rewrite (lookup_or_truthy _ _ PNone (PList []) Hl eq_refl). cbn [result_bind].
    destruct (py_len (lookup_or "eligibility_errors" record PNone)) as [n|e|c];
      cbn [result_bind]; reflexivity.
Qed.

(** A rejected record ends the row before the upload, with its message. *)
Lemma after_eligibility_rejected `{Runtime}
    (access_token ig_account_id ad_account_id facebook_page_id : string)
    (ad_code cta_type link app_link ad_name ad_set_id product_set_id eligibility : pyval)
    (message : pyval) (tr : list http_request) (outs : list csv_row) (o : csv_row) :
  rejected ad_code eligibility message ->
  try_except
    (after_eligibility access_token ig_account_id ad_account_id facebook_page_id
       ad_code cta_type link app_link ad_name ad_set_id product_set_id eligibility)
    row_handler (Frame tr outs o PNone PNone PNone)
  = finish_row (PStr "failed") message (PStr "") (PStr "") (PStr "")
      (Frame tr outs o PNone PNone PNone).
Proof.
  intros Hrej. unfold after_eligibility. rewrite try_except_bind. unfold lift.
  destruct Hrej as [Hfalse | Htrue Hobj | record error -> Hne Herr Htruthy
                   | record -> Hne Herr Hcode Hperm
                   | record listed joined -> Hne Herr Hperm Hlisted Htruthy Hjoin Hlen
                   | record listed e -> Hne Herr Hperm Hlisted Htruthy Hraise
                   | record -> Hne Herr Hperm Hlisted Hid].
  - unfold eligibility_check. rewrite Hfalse. reflexivity.
  - unfold eligibility_check. rewrite Htrue. cbn [negb].
    destruct eligibility; try reflexivity. now destruct (Hobj d).
  - rewrite (eligibility_check_record _ _ Hne). cbv zeta.
    unfold lookup_or. rewrite Herr, Htruthy. cbv iota.
    rewrite truthy_message by discriminate. reflexivity.
  - rewrite (eligibility_check_record _ _ Hne). cbv zeta.
    rewrite Herr, Hcode, Hperm. reflexivity.
  - rewrite (eligibility_check_record _ _ Hne). cbv zeta. rewrite Herr.
    assert (Hl : lookup_or "eligibility_errors" record PNone = listed)
      by (unfold lookup_or; now rewrite Hlisted).
    rewrite Hl, Htruthy.
    assert (Hnot : negb (truthy ad_code)
                   && negb (truthy (lookup_or "has_permission_for_partnership_ad" record
                                      PNone)) = false).
    { destruct Hperm as [-> | ->]; [reflexivity | apply andb_false_r]. }
    rewrite Hnot.
    destruct (py_len listed) as [n|e|c] eqn:Hn.
    + cbn [result_bind]. rewrite (truthy_len _ _ Htruthy Hn), Hjoin. cbn [result_bind].
      rewrite truthy_message by discriminate. reflexivity.
    + now destruct (Hlen e).
    + destruct listed; discriminate.
  - rewrite (eligibility_check_record _ _ Hne). cbv zeta. rewrite Herr.
    assert (Hl : lookup_or "eligibility_errors" record PNone = listed)
      by (unfold lookup_or; now rewrite Hlisted).
    rewrite Hl, Htruthy.
    assert (Hnot : negb (truthy ad_code)
                   && negb (truthy (lookup_or "has_permission_for_partnership_ad" record
                                      PNone)) = false).
    { destruct Hperm as [-> | ->]; [reflexivity | apply andb_false_r]. }
    rewrite Hnot.
    destruct Hraise as [Hn | [Hjoin Hlen]].
    + rewrite Hn. reflexivity.
    + destruct (py_len listed) as [n|e'|c] eqn:Hn.
      * cbn [result_bind]. rewrite (truthy_len _ _ Htruthy Hn), Hjoin. reflexivity.
      * now destruct (Hlen e').
      * destruct listed; discriminate.
  - rewrite (eligibility_check_record _ _ Hne). cbv zeta. rewrite Herr, Hlisted.
    assert (Hnot : negb (truthy ad_code)
                   && negb (truthy (lookup_or "has_permission_for_partnership_ad" record
                                      PNone)) = false).
    { destruct Hperm as [-> | ->]; [reflexivity | apply andb_false_r]. }
    rewrite Hnot. cbn [truthy]. cbv iota. rewrite try_except_bind. unfold lift, py_get.
    fold (lookup_or "id" record PNone). rewrite Hid. reflexivity.
Qed.

(** An accepted record sends the row on to the three stages. *)
Lemma after_eligibility_accepted `{Runtime}
    (access_token ig_account_id ad_account_id facebook_page_id : string)
    (ad_code cta_type link app_link ad_name ad_set_id product_set_id eligibility mid : pyval)
    (f : frame) :
  accepted ad_code eligibility mid ->
  try_except
    (after_eligibility access_token ig_account_id ad_account_id facebook_page_id
       ad_code cta_type link app_link ad_name ad_set_id product_set_id eligibility)
    row_handler f
  = try_except
      (mutation_stages access_token ig_account_id ad_account_id facebook_page_id
         mid ad_code cta_type link app_link ad_name ad_set_id product_set_id)
      row_handler f.
Proof.
  intros (record & -> & Hne & Herr & Hperm & Hlisted & <- & Hmid).
  unfold after_eligibility. rewrite try_except_bind. unfold lift.
  rewrite (eligibility_check_record _ _ Hne). cbv zeta. rewrite Herr, Hlisted.
  assert (Hnot : negb (truthy ad_code)
                 && negb (truthy (lookup_or "has_permission_for_partnership_ad" record
                                    PNone)) = false).
  { destruct Hperm as [-> | ->]; [reflexivity | apply andb_false_r]. }
  rewrite Hnot. cbn [truthy]. cbv iota. rewrite try_except_bind. unfold lift, py_get.
  fold (lookup_or "id" record PNone). rewrite Hmid. reflexivity.
Qed.

Ltac unpack :=
  repeat match goal with
         | H : _ /\ _ |- _ => destruct H
         | H : exists _, _ |- _ => destruct H
         | H : stage_done _ _ |- _ => unfold stage_done in H
         | H : stage_failed _ _ _ |- _ => unfold stage_failed in H
         | H : _ \/ _ |- _ => destruct H
         end.

(** what the three stages return fixes the progress *)
Lemma stages_achieved_functional `{Runtime}
    (access_token ig_account_id ad_account_id facebook_page_id : string)
    (ad_code cta_type link app_link ad_name ad_set_id product_set_id mid : pyval)
    (tr1 : list http_request) (p p' : progress) (tr' tr'' : list http_request) :
  stages_achieved access_token ig_account_id ad_account_id facebook_page_id
    ad_code cta_type link app_link ad_name ad_set_id product_set_id mid tr1 p tr' ->
  stages_achieved access_token ig_account_id ad_account_id facebook_page_id
    ad_code cta_type link app_link ad_name ad_set_id product_set_id mid tr1 p' tr'' ->
  p = p' /\ tr' = tr''.
Proof.
  unfold stages_achieved.
  destruct p, p'; cbv zeta; intros Hp Hp'; try contradiction; unpack;
    settle_answer; try congruence; auto.
Qed.

Lemma lookup_then `{Runtime}
    (access_token ig_account_id ad_account_id facebook_page_id : string)
    (lookup_code lookup_permalinks : pyval)
    (ad_code cta_type link app_link ad_name ad_set_id product_set_id : pyval)
    (tr tr1 : list http_request) (r : result pyval) (outs : list csv_row) (o : csv_row) :
  fetch_branded_content_advertisable_medias access_token ig_account_id
    lookup_code lookup_permalinks tr = (r, tr1) ->
  try_except
    (eligibility <- in_frame (fetch_branded_content_advertisable_medias
                                access_token ig_account_id lookup_code lookup_permalinks) ;;
     after_eligibility access_token ig_account_id ad_account_id facebook_page_id
       ad_code cta_type link app_link ad_name ad_set_id product_set_id eligibility)
    row_handler (Frame tr outs o PNone PNone PNone)
  = match r with
    | Ok eligibility =>
        try_except
          (after_eligibility access_token ig_account_id ad_account_id facebook_page_id
             ad_code cta_type link app_link ad_name ad_set_id product_set_id eligibility)
          row_handler (Frame tr1 outs o PNone PNone PNone)
    | Raise e => row_handler e (Frame tr1 outs o PNone PNone PNone)
    | Exit c => (Exit c, Frame tr1 outs o PNone PNone PNone)
    end.
Proof.
  intros Hfetch. rewrite try_except_bind. unfold in_frame. simpl. rewrite Hfetch.
  now destruct r.
Qed.

(** the [try] statement of a complete row that names a media *)
Lemma looked_up_row `{Runtime}
    (access_token ig_account_id ad_account_id facebook_page_id : string)
    (row : csv_row) (tr tr1 : list http_request) (r : result pyval)
    (outs : list csv_row) (o : csv_row) (v0 c0 a0 : pyval) :
  complete row ->
  looks_up access_token ig_account_id row tr r tr1 ->
  process_row access_token ig_account_id ad_account_id facebook_page_id row
    (Frame tr outs o v0 c0 a0)
  = match r with
    | Ok eligibility =>
        try_except
          (after_eligibility access_token ig_account_id ad_account_id facebook_page_id
             (row_get row "ad_code" (PStr "")) (row_get row "cta_type" PNone)
             (row_get row "link" PNone) (row_get row "app_link" (PStr ""))
             (row_get row "ad_name" PNone) (row_get row "ad_set_id" PNone)
             (row_get row "product_set_id" (PStr "")) eligibility)
          row_handler (Frame tr1 outs row PNone PNone PNone)
    | Raise e => row_handler e (Frame tr1 outs row PNone PNone PNone)
    | Exit c => (Exit c, Frame tr1 outs row PNone PNone PNone)
    end.
Proof.
  intros (Hc & Hl & Hn & Hs) Hlook.
  unfold process_row. cbv zeta. rewrite bind_modify. unfold set_output_row. simpl.
  rewrite (proj2 (missing_fields_nil _ _ _ _)) by auto.
  destruct Hlook as [[Hcode Hfetch] | (Hcode & Hperma & shortcode & Hextract & Hfetch)].
  - rewrite Hcode. rewrite andb_false_r. rewrite bind_modify. simpl.
    now apply lookup_then.
  - rewrite Hcode, Hperma. simpl. rewrite bind_modify. simpl. rewrite try_except_bind.
    rewrite (try_except_lift (extract_instagram_shortcode (row_get row "permalink" (PStr "")))
               Some).
    rewrite Hextract. now apply lookup_then.
Qed.

(** The course of a row fixes what the loop body does with it. *)
Lemma course_run `{Runtime}
    (access_token ig_account_id ad_account_id facebook_page_id : string)
    (row : csv_row) (f : frame) (p : progress) (tr' : list http_request) :
  course access_token ig_account_id ad_account_id facebook_page_id row (trace f) p tr' ->
  exists f',
    process_row access_token ig_account_id ad_account_id facebook_page_id row f = (Ok tt, f')
    /\ trace f' = tr'
    /\ output_rows f' = (output_rows f ++ [row_after row p])%list.
Proof.
  destruct f as [tr outs o v0 c0 a0]. simpl.
  intros [names -> Hnames | Hcomplete Hperma Hcode | e Hcomplete Hcode Hperma Hextract
         | e tr1 Hcomplete Hlook | eligibility message tr1 Hcomplete Hlook Hrej
         | eligibility mid tr1 p0 tr'' Hcomplete Hlook Hacc Hstages].
  - unfold process_row. cbv zeta. rewrite bind_modify. unfold set_output_row. simpl.
    rewrite <- missing_fields_absent in *.
    destruct (missing_fields (row_get row "cta_type" PNone) (row_get row "link" PNone)
                (row_get row "ad_name" PNone) (row_get row "ad_set_id" PNone));
      [congruence |].
    eexists. split; [reflexivity |]. split; reflexivity.
  - destruct Hcomplete as (Hc & Hl & Hn & Hs).
    unfold process_row. cbv zeta. rewrite bind_modify. unfold set_output_row. simpl.
    rewrite (proj2 (missing_fields_nil _ _ _ _)) by auto.
    rewrite Hperma, Hcode. simpl. eexists. split; [reflexivity |]. split; reflexivity.
  - destruct Hcomplete as (Hc & Hl & Hn & Hs).
    unfold process_row. cbv zeta. rewrite bind_modify. unfold set_output_row. simpl.
    rewrite (proj2 (missing_fields_nil _ _ _ _)) by auto.
    rewrite Hperma, Hcode. simpl. rewrite bind_modify. simpl. rewrite try_except_bind.
    rewrite (try_except_lift (extract_instagram_shortcode (row_get row "permalink" (PStr "")))
               Some).
    rewrite Hextract. destruct (exn_is_value_error e).
    + eexists. split; [reflexivity |]. split; reflexivity.
    + eexists. split; [reflexivity |]. split; reflexivity.
  - rewrite (looked_up_row _ _ _ _ _ _ _ _ _ _ _ _ _ Hcomplete Hlook).
    eexists. split; [reflexivity |]. split; reflexivity.
  - rewrite (looked_up_row _ _ _ _ _ _ _ _ _ _ _ _ _ Hcomplete Hlook).
    rewrite (after_eligibility_rejected _ _ _ _ _ _ _ _ _ _ _ _ _ _ _ _ Hrej).
    eexists. split; [reflexivity |]. split; reflexivity.
  - rewrite (looked_up_row _ _ _ _ _ _ _ _ _ _ _ _ _ Hcomplete Hlook).
    rewrite (after_eligibility_accepted _ _ _ _ _ _ _ _ _ _ _ _ _ _ Hacc).
    destruct (mutation_stages_outcome access_token ig_account_id ad_account_id
                facebook_page_id mid (row_get row "ad_code" (PStr ""))
                (row_get row "cta_type" PNone) (row_get row "link" PNone)
                (row_get row "app_link" (PStr "")) (row_get row "ad_name" PNone)
                (row_get row "ad_set_id" PNone) (row_get row "product_set_id" (PStr ""))
                (Frame tr1 outs row PNone PNone PNone) eq_refl eq_refl eq_refl)
      as (f' & p1 & Hrun & Hout & Hst).
    simpl in Hst, Hout.
    destruct (stages_achieved_functional _ _ _ _ _ _ _ _ _ _ _ _ _ _ _ _ _ Hst Hstages)
      as [-> <-].
    exists f'. split; [exact Hrun |]. split; [reflexivity | exact Hout].
Qed.

Lemma lookup_or_Some (key : string) (record : list (string * pyval)) :
  truthy (lookup_or key record PNone) = true ->
  dict_lookup key record = Some (lookup_or key record PNone).
Proof. unfold lookup_or. now destruct (dict_lookup key record). Qed.

(** every answer of the lookup is either rejected or accepted *)
Lemma verdict_total `{Runtime} (ad_code eligibility : pyval) :
  (exists message, rejected ad_code eligibility message)
  \/ (exists mid, accepted ad_code eligibility mid).
Proof.
  destruct (truthy eligibility) eqn:Htruthy; [| left; eauto using nothing_found].
  destruct eligibility as [| b | z | s | l | record];
    try (left; eexists; apply not_a_record; [exact Htruthy | intros d; discriminate]).
  assert (Hne : record <> []) by (intros ->; discriminate).
  destruct (truthy (lookup_or "error" record PNone)) eqn:Herr.
  { left. eexists. eapply record_error; eauto using lookup_or_Some. }
  assert (Hperm : permitted ad_code record
                  \/ (truthy ad_code = false
                      /\ truthy (lookup_or "has_permission_for_partnership_ad" record PNone)
                         = false)).
  { unfold permitted. destruct (truthy ad_code); [auto |].
    destruct (truthy (lookup_or "has_permission_for_partnership_ad" record PNone)); auto. }
  destruct Hperm as [Hperm | [Hcode Hflag]];
    [| left; eexists; eapply permission_missing; eauto].
  destruct (truthy (lookup_or "eligibility_errors" record PNone)) eqn:Hlisted.
  - left. pose proof (lookup_or_Some _ _ Hlisted) as Hsome.
    pose proof (pure_ok_py_len (lookup_or "eligibility_errors" record PNone)) as Hlen.
    pose proof (pure_ok_py_join ", " (lookup_or "eligibility_errors" record PNone)) as Hjoin.
    destruct (py_len (lookup_or "eligibility_errors" record PNone)) as [n|e|c] eqn:Hn;
      [| | now destruct (Hlen c)].
    + destruct (py_join ", " (lookup_or "eligibility_errors" record PNone))
        as [joined|e|c] eqn:Hj; [| | now destruct (Hjoin c)].
      * eexists. eapply errors_listed; eauto. intros e. rewrite Hn. discriminate.
      * eexists. eapply errors_unreadable; eauto. right. split; [exact Hj |].
        intros e'. rewrite Hn. discriminate.
    + eexists. eapply errors_unreadable; eauto.
  - destruct (truthy (lookup_or "id" record PNone)) eqn:Hid.
    + right. exists (lookup_or "id" record PNone), record. auto 10.
    + left. eexists. eapply media_id_missing; eauto.
Qed.

Lemma absent_nil (cta_type link ad_name ad_set_id : pyval) :
  (absent "cta_type" cta_type ++ absent "link" link ++ absent "ad_name" ad_name
   ++ absent "ad_set_id" ad_set_id)%list = [] ->
  truthy cta_type = true /\ truthy link = true /\ truthy ad_name = true
  /\ truthy ad_set_id = true.
Proof. rewrite <- missing_fields_absent. apply missing_fields_nil. Qed.

(** every row has a course *)
Lemma course_total `{Runtime}
    (access_token ig_account_id ad_account_id facebook_page_id : string)
    (row : csv_row) (tr : list http_request) :
  exists p tr',
    course access_token ig_account_id ad_account_id facebook_page_id row tr p tr'.
Proof.
  destruct (absent "cta_type" (row_get row "cta_type" PNone)
            ++ absent "link" (row_get row "link" PNone)
            ++ absent "ad_name" (row_get row "ad_name" PNone)
            ++ absent "ad_set_id" (row_get row "ad_set_id" PNone))%list
    as [|name names] eqn:Hnames.
  2: { eexists _, _. eapply fields_missing; [symmetry; exact Hnames | discriminate]. }
  apply absent_nil in Hnames. change (complete row) in Hnames.
  assert (Hafter : forall r tr1,
            looks_up access_token ig_account_id row tr r tr1 ->
            (forall c, r <> Exit c) ->
            exists p tr',
              course access_token ig_account_id ad_account_id facebook_page_id row tr p tr').
  { intros [eligibility|e|c] tr1 Hlook Hexit.
    - destruct (verdict_total (row_get row "ad_code" (PStr "")) eligibility)
        as [[message Hrej] | [mid Hacc]].
      + eexists _, _. eapply lookup_rejected; eauto.
      + destruct (mutation_stages_outcome access_token ig_account_id ad_account_id
                    facebook_page_id mid (row_get row "ad_code" (PStr ""))
                    (row_get row "cta_type" PNone) (row_get row "link" PNone)
                    (row_get row "app_link" (PStr "")) (row_get row "ad_name" PNone)
                    (row_get row "ad_set_id" PNone) (row_get row "product_set_id" (PStr ""))
                    (Frame tr1 [] row PNone PNone PNone) eq_refl eq_refl eq_refl)
          as (f' & p & _ & _ & Hst).
        eexists _, _. eapply stages_run; eauto.
    - eexists _, _. eapply lookup_raised; eauto.
    - now destruct (Hexit c). }
  destruct (truthy (row_get row "ad_code" (PStr ""))) eqn:Hcode.
  - destruct (fetch_branded_content_advertisable_medias access_token ig_account_id
                (row_get row "ad_code" (PStr "")) PNone tr) as [r tr1] eqn:Hfetch.
    apply (Hafter r tr1); [left; auto |].
    intros c ->. exact (never_exits_fetch _ _ _ _ _ _ _ Hfetch).
  - destruct (truthy (row_get row "permalink" (PStr ""))) eqn:Hperma.
    2: { eexists _, _. eapply reference_missing; eauto. }
    pose proof (pure_ok_extract (row_get row "permalink" (PStr ""))) as Hpure.
    destruct (extract_instagram_shortcode (row_get row "permalink" (PStr "")))
      as [shortcode|e|c] eqn:Hextract; [| | now destruct (Hpure c)].
    + destruct (fetch_branded_content_advertisable_medias access_token ig_account_id
                  PNone (PList [shortcode]) tr) as [r tr1] eqn:Hfetch.
      apply (Hafter r tr1).
      * right. split; [exact Hcode |]. split; [exact Hperma |]. eauto.
      * intros c ->. exact (never_exits_fetch _ _ _ _ _ _ _ Hfetch).
    + eexists _, _. eapply permalink_refused; eauto.
Qed.

(** C1.  What happens to a row is told by [course], from what the
    functions the loop body calls return: the stage at which the row
    stopped, the message of that first failure, and the id each
    completed stage returned.  Every row has a course, and whatever the
    course, the loop body appends one record that reflects it: status
    "failed" with the message of the first failure, the id of every
    completed stage in its column, and the empty string in the column of
    every stage that did not complete; every other column is the row's.
    In particular, for the course [NoCreative video message] (lookup and
    upload succeeded, the creative did not) the record has the upload's
    id, which is not empty, in [video_id], and the empty string in
    [creative_id] and [published_ad_id]. *)
Theorem output_row_reflects_furthest_stage `{Runtime}
    (access_token ig_account_id ad_account_id facebook_page_id : string)
    (row : csv_row) (f : frame) :
  (exists p tr',
     course access_token ig_account_id ad_account_id facebook_page_id row (trace f) p tr')
  /\ forall p tr',
       course access_token ig_account_id ad_account_id facebook_page_id row (trace f) p tr' ->
       exists f' o,
         process_row access_token ig_account_id ad_account_id facebook_page_id row f
         = (Ok tt, f')
         /\ trace f' = tr'
         /\ output_rows f' = (output_rows f ++ [o])%list
         /\ reflects p o
         /\ extends_row o row.
Proof.
  split; [apply course_total |].
  intros p tr' Hcourse.
  destruct (course_run _ _ _ _ _ _ _ _ Hcourse) as (f' & Hrun & Htrace & Hout).
  exists f', (row_after row p).
  auto using row_after_reflects, row_after_extends.
Qed.

(** The lookup finds the media and the upload returns an id; the
    creative is refused with status 400. *)
Lemma output_row_reflects_furthest_stage_witness :
  let R := creative_refused in
  exists tr' f' o,
    process_row "token" "178414" "154988" "102988" row_with_code empty_frame = (Ok tt, f')
    /\ trace f' = tr'
    /\ output_rows f' = [o]
    /\ reflects (NoCreative (PStr "video_123")
                   (PStr "Creative creation failed: 400 - {...}")) o
    /\ extends_row o row_with_code.
Proof.
  intros R. eexists.
  apply (proj2 (output_row_reflects_furthest_stage (H := R) "token" "178414" "154988"
                  "102988" row_with_code empty_frame)).
  eapply (stages_run _ _ _ _ _ _
            (PDict [("id", PStr "media_123")]) (PStr "media_123")).
  - repeat split; reflexivity.
  - left. split; reflexivity.
  - exists [("id", PStr "media_123")].
    split; [reflexivity |]. split; [discriminate |]. split; [reflexivity |].
    split; [left; reflexivity |]. split; [reflexivity |]. split; reflexivity.
  - simpl. split; [split; [reflexivity | eexists; reflexivity] |].
    split; [| reflexivity]. left. eexists _, _.
    split; [reflexivity |]. split; reflexivity.
Defined.

(* ===================================================================== *)
(** * Further properties *)
(* ===================================================================== *)

(** ** What the extractor returns for a URL *)

#[local] Arguments String.append !_ _ / : simpl nomatch.

Lemma length_append (a b : string) :
  String.length (a ++ b) = (String.length a + String.length b)%nat.
Proof. induction a as [|x a IH]; simpl; [reflexivity | now rewrite IH]. Qed.

Lemma consumed_app (m rest : string) :
  consumed (m ++ rest) (String.length (m ++ rest) - String.length rest) = m.
Proof.
  rewrite length_append.
  replace (String.length m + String.length rest - String.length rest)%nat
    with (String.length m) by lia.
  induction m as [|a m IH]; simpl; [now destruct rest | now rewrite IH].
Qed.

(** the greedy run takes every character of the set when what follows
    is accepted *)
Lemma star_greedy_longest {A} (p : ascii -> bool) (m rest : string)
    (k : string -> option A) (x : A) :
  all_chars p m -> stops p rest -> k rest = Some x ->
  star_greedy p (m ++ rest) k = Some x.
Proof.
  intros Hm Hstop Hk. induction m as [|a m IH]; simpl.
  - destruct rest as [|b rest]; simpl; [exact Hk |].
    simpl in Hstop. now rewrite Hstop.
  - destruct Hm as [Ha Hm]. rewrite Ha. now rewrite (IH Hm).
Qed.

Lemma star_greedy_captures {A} (p : ascii -> bool) (s : string)
    (k : string -> option A) (x : A) :
  star_greedy p s k = Some x ->
  exists m rest, s = m ++ rest /\ all_chars p m /\ k rest = Some x.
Proof. apply star_greedy_sound. Qed.

(** a pattern without group hands on the group it was given *)
Lemma rmatch_group_free {A} (r : regex) :
  group_free r = true ->
  forall (s : string) (g : option string) (k : string -> option string -> option A) (x : A),
    rmatch r s g k = Some x ->
    exists m rest, s = m ++ rest /\ k rest g = Some x.
Proof.
  induction r as [l | r1 IH1 r2 IH2 | r1 IH1 r2 IH2 | r1 IH1 | p | r1 IH1];
    simpl; intros Hfree s g k x.
  - destruct (strip_prefix l s) as [rest|] eqn:E; [| discriminate].
    intros Hk. exists l, rest. now rewrite (strip_prefix_Some _ _ _ E).
  - apply andb_true_iff in Hfree as [H1 H2]. intros Hm.
    destruct (IH1 H1 _ _ _ _ Hm) as (m1 & s1 & -> & Hm2).
    destruct (IH2 H2 _ _ _ _ Hm2) as (m2 & s2 & -> & Hk).
    exists (m1 ++ m2), s2. now rewrite append_assoc.
  - apply andb_true_iff in Hfree as [H1 H2].
    destruct (rmatch r1 s g k) as [y|] eqn:E1.
    + intros [= <-]. exact (IH1 H1 _ _ _ _ E1).
    + intros E2. exact (IH2 H2 _ _ _ _ E2).
  - destruct (rmatch r1 s g k) as [y|] eqn:E1.
    + intros [= <-]. exact (IH1 Hfree _ _ _ _ E1).
    + intros Hk. now exists "", s.
  - destruct s as [|a s]; [discriminate |].
    destruct (p a); [| discriminate].
    intros Hs. destruct (star_greedy_sound _ _ _ _ Hs) as (m & rest & -> & _ & Hk).
    now exists (String a m), rest.
  - discriminate.
Qed.

(** the one group of the URL pattern captures a non-empty run of
    shortcode characters *)
Lemma rmatch_shortcode_group {A} (s : string) (g : option string)
    (k : string -> option string -> option A) (x : A) :
  rmatch (Group (PlusSet shortcode_char)) s g k = Some x ->
  exists code rest,
    s = code ++ rest /\ code <> "" /\ all_chars shortcode_char code
    /\ k rest (Some code) = Some x.
Proof.
  simpl. destruct s as [|a s]; [discriminate |].
  destruct (shortcode_char a) eqn:Ha; [| discriminate].
  intros Hs. destruct (star_greedy_sound _ _ _ _ Hs) as (m & rest & -> & Hm & Hk).
  exists (String a m), rest. split; [reflexivity |]. split; [discriminate |].
  split; [now split |].
  change (String a (m ++ rest)) with (String a m ++ rest) in Hk.
  now rewrite consumed_app in Hk.
Qed.

Lemma rmatch_seq {A} (r1 r2 : regex) (s : string) (g : option string)
    (k : string -> option string -> option A) :
  rmatch (Seq r1 r2) s g k = rmatch r1 s g (fun s1 g1 => rmatch r2 s1 g1 k).
Proof. reflexivity. Qed.

Lemma url_pattern_captures (s : string) (g : option string) :
  rmatch url_pattern s None (fun _ g0 => Some g0) = Some g ->
  exists before code rest,
    s = before ++ code ++ rest /\ g = Some code
    /\ code <> "" /\ all_chars shortcode_char code.
Proof.
  unfold url_pattern. intros Hm.
  rewrite rmatch_seq in Hm.
  apply rmatch_group_free in Hm as (m1 & s1 & -> & H1); [| reflexivity].
  rewrite rmatch_seq in H1.
  apply rmatch_group_free in H1 as (m2 & s2 & -> & H2); [| reflexivity].
  rewrite rmatch_seq in H2.
  apply rmatch_group_free in H2 as (m3 & s3 & -> & H3); [| reflexivity].
  rewrite rmatch_seq in H3.
  apply rmatch_group_free in H3 as (m4 & s4 & -> & H4); [| reflexivity].
  rewrite rmatch_seq in H4.
  apply rmatch_group_free in H4 as (m5 & s5 & -> & H5); [| reflexivity].
  apply rmatch_shortcode_group in H5 as (code & rest & -> & Hne & Hall & Hk).
  injection Hk as <-.
  exists (m1 ++ m2 ++ m3 ++ m4 ++ m5), code, rest.
  split; [now rewrite !append_assoc | auto].
Qed.

Lemma rmatch_lit {A} (l s : string) (g : option string)
    (k : string -> option string -> option A) :
  rmatch (Lit l) (l ++ s) g k = k s g.
Proof. simpl. now rewrite strip_prefix_app. Qed.

Lemma rmatch_group_longest (code rest : string) (g : option string) :
  code <> "" -> all_chars shortcode_char code -> stops shortcode_char rest ->
  rmatch (Group (PlusSet shortcode_char)) (code ++ rest) g (fun _ g0 => Some g0)
  = Some (Some code).
Proof.
  intros Hne Hall Hstop. destruct code as [|a m]; [congruence |].
  destruct Hall as [Ha Hm]. cbn [rmatch String.append]. rewrite Ha.
  apply star_greedy_longest; [exact Hm | exact Hstop |].
  change (String a (m ++ rest)) with (String a m ++ rest).
  now rewrite consumed_app.
Qed.

Lemma url_pattern_matches_at_start (start kind code rest : string) :
  In start url_starts -> In kind url_kinds ->
  code <> "" -> all_chars shortcode_char code -> stops shortcode_char rest ->
  rmatch url_pattern (start ++ "instagram.com/" ++ kind ++ "/" ++ code ++ rest) None
    (fun _ g0 => Some g0) = Some (Some code).
Proof.
  intros Hs Hk Hne Hall Hstop.
  pose proof (rmatch_group_longest code rest None Hne Hall Hstop) as Hg.
  unfold url_pattern. revert Hg. generalize (Group (PlusSet shortcode_char)) as r.
  intros r Hg. simpl in Hs, Hk.
  destruct Hs as [<-|[<-|[<-|[<-|[<-|[<-|[]]]]]]];
    destruct Hk as [<-|[<-|[<-|[]]]]; simpl; now rewrite Hg.
Qed.

Lemma re_search_at (r : regex) (s : string) (g : option string) :
  re_search r s = Some g ->
  exists before s', s = before ++ s' /\ rmatch r s' None (fun _ g0 => Some g0) = Some g.
Proof.
  induction s as [|a s IH]; rewrite re_search_unfold.
  - destruct (rmatch r "" None (fun _ g0 => Some g0)) eqn:E; [| discriminate].
    intros [= <-]. now exists "", "".
  - destruct (rmatch r (String a s) None (fun _ g0 => Some g0)) eqn:E.
    + intros [= <-]. now exists "", (String a s).
    + intros Hs. destruct (IH Hs) as (b & s' & -> & Hm).
      now exists (String a b), s'.
Qed.

(** X1.  A permalink made of one of the six accepted beginnings (with or
    without scheme and [www.]), [instagram.com/], one of the post kinds
    [p], [reel], [tv], a slash, a non-empty shortcode and a rest that does
    not go on with a shortcode character yields exactly that shortcode,
    provided the stories marker does not occur in it. *)
Theorem url_yields_its_shortcode (start kind code rest : string) :
  In start url_starts -> In kind url_kinds ->
  code <> "" -> all_chars shortcode_char code -> stops shortcode_char rest ->
  ~ occurs_in "/stories/" (start ++ "instagram.com/" ++ kind ++ "/" ++ code ++ rest) ->
  extract_instagram_shortcode
    (PStr (start ++ "instagram.com/" ++ kind ++ "/" ++ code ++ rest))
  = Ok (PStr code).
Proof.
  intros Hs Hk Hne Hall Hstop Hst.
  pose proof (url_pattern_matches_at_start _ _ _ _ Hs Hk Hne Hall Hstop) as Hm.
  rewrite <- str_contains_occurs in Hst.
  revert Hm Hst. generalize (start ++ "instagram.com/" ++ kind ++ "/" ++ code ++ rest).
  intros url Hm Hst. unfold extract_instagram_shortcode.
  destruct (truthy (PStr url)) eqn:Ht; simpl negb; cbv iota.
  - unfold py_in. destruct (str_contains "/stories/" url); [tauto |].
    now rewrite re_search_unfold, Hm.
  - apply truthy_PStr in Ht as ->. vm_compute in Hm. discriminate Hm.
Qed.

Lemma url_yields_its_shortcode_witness :
  extract_instagram_shortcode (PStr "https://www.instagram.com/reel/aBc-123_XyZ/?igsh=1")
  = Ok (PStr "aBc-123_XyZ").
Proof.
  apply (url_yields_its_shortcode "https://www." "reel" "aBc-123_XyZ" "/?igsh=1").
  - simpl; tauto.
  - simpl; tauto.
  - discriminate.
  - vm_compute; tauto.
  - reflexivity.
  - rewrite <- str_contains_occurs. vm_compute. discriminate.
Defined.

(** X2.  On a string the extractor never returns [None] or anything but
    a string: either the URL pattern matches nowhere and the result is
    the input without the slashes at its ends, or the result is a
    non-empty run of shortcode characters that stands in the input. *)
Theorem extractor_returns_text_of_its_input (s : string) (v : pyval) :
  extract_instagram_shortcode (PStr s) = Ok v ->
  exists code,
    v = PStr code
    /\ ((re_search url_pattern s = None /\ code = strip "/" s)
        \/ (code <> "" /\ all_chars shortcode_char code
            /\ exists before rest, s = before ++ code ++ rest)).
Proof.
  unfold extract_instagram_shortcode.
  destruct (truthy (PStr s)) eqn:Ht; simpl negb; cbv iota.
  - unfold py_in. destruct (str_contains "/stories/" s); [discriminate |].
    destruct (re_search url_pattern s) as [g|] eqn:E.
    + destruct (re_search_at _ _ _ E) as (b & s' & -> & Hm).
      destruct (url_pattern_captures _ _ Hm) as (b' & code & rest & -> & -> & Hne & Hall).
      intros [= <-]. exists code. split; [reflexivity |]. right.
      split; [exact Hne |]. split; [exact Hall |].
      exists (b ++ b'), rest. now rewrite append_assoc.
    + intros [= <-]. exists (strip "/" s). auto.
  - apply truthy_PStr in Ht as ->. intros [= <-]. exists "". split; [reflexivity |]. left. now vm_compute.
Qed.

Lemma extractor_returns_text_of_its_input_witness :
  exists code,
    PStr "CxYz" = PStr code
    /\ ((re_search url_pattern "instagram.com/p/CxYz" = None
         /\ code = strip "/" "instagram.com/p/CxYz")
        \/ (code <> "" /\ all_chars shortcode_char code
            /\ exists before rest, "instagram.com/p/CxYz" = before ++ code ++ rest)).
Proof.
  apply (extractor_returns_text_of_its_input "instagram.com/p/CxYz" (PStr "CxYz")).
  vm_compute. reflexivity.
Defined.
